(** * Paper-Holmes: the literature collector [fetch_papers.py]

    A shallow embedding of the normalisation pipeline of
    [src/fetch_papers.py]: the field normalisers, the per-adapter field
    extraction, the fetch loop of [main] and [deduplicate_records],
    followed by the properties of the specification that concern them.

    Text.  A Python [str] is modelled as a [string] whose characters are
    the code points U+0000..U+00FF (Latin-1); [str.lower], [str.strip],
    [str.isdigit] and [int] are the restrictions of the Python built-ins
    to that range.  Exceptions are explicit: fallible code returns a
    [result]. *)

From Stdlib Require Import Bool Arith ZArith Lia List Ascii String.
From Stdlib Require Import Permutation Sorted DecimalString.
Import ListNotations.

Local Open Scope string_scope.
Local Open Scope list_scope.
Local Open Scope nat_scope.
Local Open Scope bool_scope.

(* ================================================================== *)
(** ** Python strings *)
(* ================================================================== *)

Module Str.

(** Truthiness of a [str]: the empty string is falsy. *)
Definition truthy (s : string) : bool :=
  match s with EmptyString => false | String _ _ => true end.

(** Truthiness of an [Optional[str]]: [None] and [""] are falsy. *)
Definition truthy_opt (o : option string) : bool :=
  match o with None => false | Some s => truthy s end.

(** [x or ""] on an [Optional[str]]. *)
Definition or_empty (o : option string) : string :=
  match o with
  | Some s => if truthy s then s else ""
  | None => ""
  end.

Fixpoint map (f : ascii -> ascii) (s : string) : string :=
  match s with
  | EmptyString => EmptyString
  | String c r => String (f c) (map f r)
  end.

Fixpoint contains_char (x : ascii) (s : string) : bool :=
  match s with
  | EmptyString => false
  | String c r => Ascii.eqb c x || contains_char x r
  end.

Definition in_range (lo hi n : nat) : bool := (lo <=? n) && (n <=? hi).

(** [str.lower] on one code point below U+0100: A-Z, and the Latin-1
    capitals U+00C0..U+00DE except the multiplication sign U+00D7. *)
Definition lower_char (c : ascii) : ascii :=
  let n := nat_of_ascii c in
  if in_range 65 90 n || (in_range 192 222 n && negb (n =? 215))
  then ascii_of_nat (n + 32)
  else c.

Definition lower (s : string) : string := map lower_char s.

(** [str.isspace] on one code point below U+0100. *)
Definition isspace (c : ascii) : bool :=
  let n := nat_of_ascii c in
  in_range 9 13 n || in_range 28 32 n || (n =? 133) || (n =? 160).

Fixpoint lstrip (s : string) : string :=
  match s with
  | EmptyString => EmptyString
  | String c r => if isspace c then lstrip r else s
  end.

Fixpoint rstrip (s : string) : string :=
  match s with
  | EmptyString => EmptyString
  | String c r =>
      match rstrip r with
      | EmptyString => if isspace c then EmptyString else String c EmptyString
      | r' => String c r'
      end
  end.

(** [str.strip()] with no argument. *)
Definition strip (s : string) : string := rstrip (lstrip s).

(** [sep.join(parts)]. *)
Fixpoint join (sep : string) (parts : list string) : string :=
  match parts with
  | [] => ""
  | [p] => p
  | p :: rest => (p ++ sep ++ join sep rest)%string
  end.

(** [s[:n]]. *)
Fixpoint take (n : nat) (s : string) : string :=
  match n, s with
  | S k, String c r => String c (take k r)
  | _, _ => EmptyString
  end.

(** [s.startswith(p)]. *)
Fixpoint startswith (p s : string) : bool :=
  match p, s with
  | EmptyString, _ => true
  | String a p', String b s' => Ascii.eqb a b && startswith p' s'
  | String _ _, EmptyString => false
  end.

(** [s.replace(old, new)] for a non-empty [old]: the occurrences of
    [old] are found left to right without overlap.  [skip] counts the
    characters of a matched occurrence that are still to be dropped. *)
Fixpoint replace_from (old new : string) (skip : nat) (s : string) : string :=
  match s with
  | EmptyString => EmptyString
  | String c r =>
      match skip with
      | S k => replace_from old new k r
      | O =>
          if startswith old s
          then (new ++ replace_from old new (String.length old - 1) r)%string
          else String c (replace_from old new 0 r)
      end
  end.

Definition replace (old new s : string) : string := replace_from old new 0 s.

(** [str.isdigit]: non-empty and every character a digit.  Below
    U+0100 the digits are 0-9 and the superscripts U+00B2, U+00B3 and
    U+00B9. *)
Definition isdigit_char (c : ascii) : bool :=
  let n := nat_of_ascii c in
  in_range 48 57 n || (n =? 178) || (n =? 179) || (n =? 185).

Fixpoint all_chars (p : ascii -> bool) (s : string) : bool :=
  match s with
  | EmptyString => true
  | String c r => p c && all_chars p r
  end.

Definition isdigit (s : string) : bool := truthy s && all_chars isdigit_char s.

End Str.

(* ================================================================== *)
(** ** Results of fallible code *)
(* ================================================================== *)

(** A Python exception, identified by the name of its class. *)
Definition exn := string.

Inductive result (A : Type) : Type :=
| Ok (a : A)
| Raise (e : exn).

Arguments Ok {A} a.
Arguments Raise {A} e.

(* ================================================================== *)
(** ** Insertion-ordered dictionaries *)
(* ================================================================== *)

(** A Python [dict]: an association list in insertion order.  Storing
    under a key that is present replaces the value in place; storing
    under a new key appends the entry. *)
Module Dict.
Section Ops.
Context {K V : Type} (eqb : K -> K -> bool).

Definition t := list (K * V).

Definition empty : t := [].

Fixpoint get (k : K) (d : t) : option V :=
  match d with
  | [] => None
  | (k', v) :: r => if eqb k k' then Some v else get k r
  end.

(** [k in d]. *)
Definition contains (k : K) (d : t) : bool :=
  existsb (eqb k) (List.map fst d).

(** [d[k] = v]. *)
Fixpoint set (k : K) (v : V) (d : t) : t :=
  match d with
  | [] => [(k, v)]
  | (k', v') :: r =>
      if eqb k k' then (k', v) :: r else (k', v') :: set k v r
  end.

Definition keys (d : t) : list K := List.map fst d.
Definition values (d : t) : list V := List.map snd d.
End Ops.
End Dict.

(* ================================================================== *)
(** ** The common record *)
(* ================================================================== *)

Record PaperRecord : Type := mkPaperRecord {
  source : string;
  keyword : string;
  title : string;
  authors : string;
  doi : string;
  publication_date : string;
  journal : string;
  abstract : string
}.

(* ================================================================== *)
(** ** Deduplication *)
(* ================================================================== *)

(** The key computed in the body of the loop of [deduplicate_records]. *)
Definition identity_key (record : PaperRecord) : string :=
  let key := if Str.truthy (doi record) then Str.lower (doi record) else "" in
  if negb (Str.truthy key)
  then
    let normalized_title := Str.strip (Str.lower (title record)) in
    ("title:" ++ normalized_title ++ "|date:" ++ publication_date record)%string
  else key.

(** One iteration of the loop over [records]. *)
Definition dedup_step (seen : Dict.t (K:=string) (V:=PaperRecord))
    (record : PaperRecord) : Dict.t :=
  let key := identity_key record in
  if negb (Dict.contains String.eqb key seen)
  then Dict.set String.eqb key record seen
  else seen.

Definition deduplicate_records (records : list PaperRecord) : list PaperRecord :=
  Dict.values (fold_left dedup_step records Dict.empty).

(** The Deduplicator in the words of the specification: a record is
    retained exactly when no record before it in the input has the same
    identity key; retained records stay in input order.  [earlier] is
    the part of the input already passed. *)
Fixpoint first_seen_after (earlier records : list PaperRecord) : list PaperRecord :=
  match records with
  | [] => []
  | r :: rest =>
      let collides :=
        existsb (fun r' => String.eqb (identity_key r') (identity_key r)) earlier in
      (if collides then [] else [r]) ++ first_seen_after (earlier ++ [r]) rest
  end.

Definition first_seen (records : list PaperRecord) : list PaperRecord :=
  first_seen_after [] records.

(** The loop invariant: the keys stored in [seen] are the keys of the
    records already passed. *)
Definition tracks (seen : Dict.t (K:=string) (V:=PaperRecord))
    (earlier : list PaperRecord) : Prop :=
  forall k, Dict.contains String.eqb k seen =
            existsb (fun r' => String.eqb (identity_key r') k) earlier.

(** The identity of a record as the data model words it: the DOI
    lowercased when there is one, otherwise the lowercased and trimmed
    title together with the publication date. *)
Inductive identity : Type :=
| DoiIdentity (lowered_doi : string)
| TitleDateIdentity (normalized_title date : string).

Definition identity_of (r : PaperRecord) : identity :=
  if Str.truthy (doi r)
  then DoiIdentity (Str.lower (doi r))
  else TitleDateIdentity (Str.strip (Str.lower (title r))) (publication_date r).

(** The key string under which the code files an identity. *)
Definition render_identity (i : identity) : string :=
  match i with
  | DoiIdentity d => d
  | TitleDateIdentity t d => ("title:" ++ t ++ "|date:" ++ d)%string
  end.

(** A record whose three key fields are blank. *)
Definition blank_keyed (r : PaperRecord) : bool :=
  negb (Str.truthy (doi r))
  && negb (Str.truthy (Str.strip (Str.lower (title r))))
  && negb (Str.truthy (publication_date r)).

(* ================================================================== *)
(** ** Markup stripping *)
(* ================================================================== *)

Definition newline : string := String (ascii_of_nat 10) EmptyString.

(** [re.sub(r"<[^>]+>", "", value)].  The pattern matches at a [<]
    exactly when the text after it starts with a character other than
    [>] and contains a [>] further on; the match ends at the first such
    [>] (a negated class also matches a newline).  [tag_opens rest]
    decides this for the text after the [<]. *)
Definition tag_opens (rest : string) : bool :=
  match rest with
  | EmptyString => false
  | String c r => negb (Ascii.eqb c ">") && Str.contains_char ">" r
  end.

(** The scan of [re.sub]: [inside] holds while the characters of a
    matched tag are dropped. *)
Fixpoint sub_tags (inside : bool) (s : string) : string :=
  match s with
  | EmptyString => EmptyString
  | String c r =>
      if inside then sub_tags (negb (Ascii.eqb c ">")) r
      else if Ascii.eqb c "<" && tag_opens r then sub_tags true r
      else String c (sub_tags false r)
  end.

Definition clean_html (value : string) : string :=
  if negb (Str.truthy value) then ""
  else
    let text := sub_tags false value in
    Str.strip (Str.replace newline " " text).

(** Some position of [s] starts a match of [<[^>]+>]. *)
Fixpoint has_tag (s : string) : bool :=
  match s with
  | EmptyString => false
  | String c r => (Ascii.eqb c "<" && tag_opens r) || has_tag r
  end.

(** What [text.replace("\n", " ")] does to one character. *)
Definition newline_to_space (c : ascii) : ascii :=
  if Ascii.eqb c (ascii_of_nat 10) then " "%char else c.

(** The text holds no newline character. *)
Definition no_newline (s : string) : Prop :=
  Str.contains_char (ascii_of_nat 10) s = false.

(* ================================================================== *)
(** ** The PubMed adapter: per-article extraction *)
(* ================================================================== *)

(** What [findtext] returns for the four children of an [Author]
    element: [None] when the child is missing. *)
Record Author : Type := mkAuthor {
  CollectiveName : option string;
  LastName : option string;
  ForeName : option string;
  Initials : option string
}.

(** [[part for part in parts if part]]. *)
Definition truthy_parts (parts : list (option string)) : list string :=
  flat_map (fun o => match o with
                     | Some s => if Str.truthy s then [s] else []
                     | None => []
                     end) parts.

(** The branch of the author loop that an entry takes. *)
Inductive author_branch : Type :=
| CollectiveBranch
| ForeLastBranch
| InitialsLastBranch
| NoNameBranch.

Definition author_branch_of (author : Author) : author_branch :=
  if Str.truthy_opt (CollectiveName author) then CollectiveBranch
  else if Str.truthy_opt (ForeName author) || Str.truthy_opt (LastName author)
  then ForeLastBranch
  else if Str.truthy_opt (Initials author) && Str.truthy_opt (LastName author)
  then InitialsLastBranch
  else NoNameBranch.

(** The body of the loop over the [Author] elements: [authors] is the
    list built so far. *)
Definition pubmed_author_step (authors : list string) (author : Author) : list string :=
  let collective_name := CollectiveName author in
  if Str.truthy_opt collective_name
  then authors ++ [Str.strip (Str.or_empty collective_name)]
  else
    let last_name := LastName author in
    let fore_name := ForeName author in
    let initials := Initials author in
    if Str.truthy_opt fore_name || Str.truthy_opt last_name
    then
      let name_parts := truthy_parts [fore_name; last_name] in
      authors ++ [Str.join " " name_parts]
    else if Str.truthy_opt initials && Str.truthy_opt last_name
    then authors ++ [(Str.or_empty initials ++ " " ++ Str.or_empty last_name)%string]
    else authors.

Definition pubmed_authors (entries : list Author) : string :=
  Str.join "; " (fold_left pubmed_author_step entries []).

(** [doi_element] is the [ArticleId] of type [doi] when the article has
    one, given by its [text] ([None] for an element without text). *)
Definition pubmed_doi (doi_element : option (option string)) : string :=
  match doi_element with
  | Some text => if Str.truthy_opt text then Str.strip (Str.or_empty text) else ""
  | None => ""
  end.

(** [segments] are the texts ["".join(node.itertext())] of the
    [AbstractText] nodes, in document order. *)
Definition pubmed_abstract (segments : list string) : string :=
  let abstract_texts := map Str.strip segments in
  Str.join newline (filter Str.truthy abstract_texts).

(* ================================================================== *)
(** ** Date assembly for PubMed *)
(* ================================================================== *)

(** The decimal digits 0-9 (the only decimal characters below U+0100). *)
Definition is_decimal_char (c : ascii) : bool :=
  Str.in_range 48 57 (nat_of_ascii c).

Definition decimal_value (c : ascii) : Z := Z.of_nat (nat_of_ascii c - 48).

(** The whitespace that [int] skips around a number. *)
Definition int_space (c : ascii) : bool :=
  let n := nat_of_ascii c in
  Str.in_range 9 13 n || (n =? 32) || (n =? 133) || (n =? 160).

Fixpoint int_lstrip (s : string) : string :=
  match s with
  | EmptyString => EmptyString
  | String c r => if int_space c then int_lstrip r else s
  end.

Fixpoint int_rstrip (s : string) : string :=
  match s with
  | EmptyString => EmptyString
  | String c r =>
      match int_rstrip r with
      | EmptyString => if int_space c then EmptyString else String c EmptyString
      | r' => String c r'
      end
  end.

(** The digits of a decimal literal: single underscores may separate
    digits.  [after_digit] holds when the previous character was a
    digit. *)
Fixpoint int_digits (acc : Z) (after_digit : bool) (s : string) : option Z :=
  match s with
  | EmptyString => if after_digit then Some acc else None
  | String c r =>
      if is_decimal_char c then int_digits (acc * 10 + decimal_value c) true r
      else if Ascii.eqb c "_" && after_digit then int_digits acc false r
      else None
  end.

(** [int(s)] in base 10; [ValueError] on anything but a number. *)
Definition py_int (s : string) : result Z :=
  let body := int_rstrip (int_lstrip s) in
  let value :=
    match body with
    | String "+" r => int_digits 0 false r
    | String "-" r => option_map Z.opp (int_digits 0 false r)
    | _ => int_digits 0 false body
    end in
  match value with
  | Some z => Ok z
  | None => Raise "ValueError"
  end.

(** The decimal digits of a natural number. *)
Definition decimal (n : nat) : string := NilZero.string_of_uint (Nat.to_uint n).

(** [f"{n:02d}"]: the sign counts towards the width. *)
Definition format_02d (z : Z) : string :=
  if (z <? 0)%Z then ("-" ++ decimal (Z.to_nat (- z)))%string
  else if (z <? 10)%Z then ("0" ++ decimal (Z.to_nat z))%string
  else decimal (Z.to_nat z).

(** The month abbreviations that the directive [%b] knows (C locale),
    lowercased as the matcher holds them. *)
Definition month_abbr : list (string * Z) :=
  [("jan", 1); ("feb", 2); ("mar", 3); ("apr", 4); ("may", 5); ("jun", 6);
   ("jul", 7); ("aug", 8); ("sep", 9); ("oct", 10); ("nov", 11); ("dec", 12)]%Z.

(** [dt.datetime.strptime(data, "%b").month]: the whole of [data] must
    be an abbreviation, letter case ignored. *)
Definition strptime_b (data : string) : result Z :=
  match find (fun entry => String.eqb (Str.lower data) (fst entry)) month_abbr with
  | Some (_, month) => Ok month
  | None => Raise "ValueError"
  end.

(** What [findtext] returns for the children of the date element. *)
Record PubDate : Type := mkPubDate {
  Year : option string;
  Month : option string;
  Day : option string
}.

(** The two places of an article where a date is looked for. *)
Record ArticleDates : Type := mkArticleDates {
  JournalIssue_PubDate : option PubDate;
  ArticleDate : option PubDate
}.

(** The [if month and not month.isdigit()] block: the month after it. *)
Definition month_token (month : option string) : option string :=
  match month with
  | Some m =>
      if Str.truthy m && negb (Str.isdigit m)
      then
        match strptime_b (Str.take 3 m) with
        | Ok month_number => Some (format_02d month_number)
        | Raise _ => None
        end
      else month
  | None => None
  end.

(** The [pub_date] element that the first lines settle on. *)
Definition selected_pub_date (article : ArticleDates) : option PubDate :=
  match JournalIssue_PubDate article with
  | Some pub_date => Some pub_date
  | None => ArticleDate article
  end.

Definition extract_pubmed_date (article : ArticleDates) : result string :=
  match selected_pub_date article with
  | None => Ok ""
  | Some pub_date =>
      let year := Year pub_date in
      let month := month_token (Month pub_date) in
      let day := Day pub_date in
      if Str.truthy_opt year && Str.truthy_opt month && Str.truthy_opt day
      then
        match py_int (Str.or_empty month) with
        | Raise e => Raise e
        | Ok m =>
            match py_int (Str.or_empty day) with
            | Raise e => Raise e
            | Ok d =>
                Ok (Str.or_empty year ++ "-" ++ format_02d m ++ "-" ++ format_02d d)%string
            end
        end
      else if Str.truthy_opt year && Str.truthy_opt month
      then
        match py_int (Str.or_empty month) with
        | Raise e => Raise e
        | Ok m => Ok (Str.or_empty year ++ "-" ++ format_02d m)%string
        end
      else if Str.truthy_opt year
      then Ok (Str.or_empty year)
      else Ok ""
  end.

(** The shapes of the data model.  In a template [D] stands for a
    decimal digit and any other character for itself. *)
Fixpoint has_shape (template s : string) : bool :=
  match template, s with
  | EmptyString, EmptyString => true
  | String t template', String c s' =>
      (if Ascii.eqb t "D" then is_decimal_char c else Ascii.eqb t c)
      && has_shape template' s'
  | _, _ => false
  end.

(** [YYYY-MM-DD], [YYYY-MM], [YYYY] or empty. *)
Definition four_granularity (s : string) : bool :=
  has_shape "DDDD-DD-DD" s || has_shape "DDDD-DD" s || has_shape "DDDD" s
  || has_shape "" s.

(** One or two decimal digits. *)
Definition short_number (s : string) : bool :=
  has_shape "D" s || has_shape "DD" s.

(** Date parts as PubMed writes them: a year of four digits, a month
    that is a name (any token that is not a number) or a number of one
    or two digits, a day of one or two digits; each may be missing or
    empty. *)
Definition well_formed_year (year : option string) : bool :=
  match year with
  | Some y => negb (Str.truthy y) || has_shape "DDDD" y
  | None => true
  end.

Definition well_formed_month (month : option string) : bool :=
  match month with
  | Some m => negb (Str.isdigit m) || short_number m
  | None => true
  end.

Definition well_formed_day (day : option string) : bool :=
  match day with
  | Some d => negb (Str.truthy d) || short_number d
  | None => true
  end.

Definition decimal_chars : list ascii :=
  ["0"; "1"; "2"; "3"; "4"; "5"; "6"; "7"; "8"; "9"]%char.

(* ================================================================== *)
(** ** The Crossref adapter: per-item extraction *)
(* ================================================================== *)

(** [item.get("DOI")]: [None] when the key is missing or null. *)
Definition crossref_doi (DOI : option string) : string :=
  Str.strip (Str.lower (Str.or_empty DOI)).

(** [item.get("abstract", "")]. *)
Definition crossref_abstract (abstract_field : option string) : string :=
  let abstract_raw := match abstract_field with Some a => a | None => "" end in
  clean_html abstract_raw.

(* ================================================================== *)
(** ** The OpenAlex adapter: per-item extraction *)
(* ================================================================== *)

(** [item.get("ids", {}).get("doi")]: [None] when missing or null. *)
Definition openalex_doi (ids_doi : option string) : string :=
  Str.strip (Str.replace "https://doi.org/" "" (Str.or_empty ids_doi)).

(** [sorted] on integers: insertion into an ascending list. *)
Fixpoint insert_sorted (x : Z) (l : list Z) : list Z :=
  match l with
  | [] => [x]
  | y :: r => if (x <=? y)%Z then x :: l else y :: insert_sorted x r
  end.

Definition sorted (l : list Z) : list Z := fold_right insert_sorted [] l.

(** The two nested loops that fill [positions]. *)
Definition fill_positions (index : list (string * list Z))
    (positions : Dict.t (K:=Z) (V:=string)) : Dict.t :=
  fold_left
    (fun positions entry =>
       let '(word, idxs) := entry in
       fold_left (fun positions idx => Dict.set Z.eqb idx word positions)
                 idxs positions)
    index positions.

(** [index] is the [abstract_inverted_index] of an item, a dictionary
    in iteration order, or [None]. *)
Definition decode_openalex_abstract (index : option (list (string * list Z))) : string :=
  match index with
  | None | Some [] => ""
  | Some index =>
      let positions := fill_positions index Dict.empty in
      let abstract_words :=
        map (fun i => match Dict.get Z.eqb i positions with
                      | Some word => word
                      | None => ""
                      end)
            (sorted (Dict.keys positions)) in
      Str.join " " abstract_words
  end.

(** The (position, word) pairs of an inverted index. *)
Definition index_pair (index : list (string * list Z)) (p : Z) (w : string) : Prop :=
  exists idxs, In (w, idxs) index /\ In p idxs.

(** No position is claimed by two different words: the index encodes a
    text. *)
Definition encodes_text (index : list (string * list Z)) : Prop :=
  forall p w w', index_pair index p w -> index_pair index p w' -> w = w'.

(* ================================================================== *)
(** ** The fetch loop of [main] *)
(* ================================================================== *)

(** The three adapters.  What a call returns, or the exception it
    raises, is decided by the upstream services; [exn] ranges over the
    instances of [Exception], the class the loop catches. *)
Record Fetchers : Type := mkFetchers {
  fetch_pubmed : string -> result (list PaperRecord);
  fetch_crossref : string -> result (list PaperRecord);
  fetch_openalex : string -> result (list PaperRecord)
}.

(** The dictionary [fetchers] of [main]. *)
Definition fetchers (F : Fetchers)
  : Dict.t (K:=string) (V:=string -> result (list PaperRecord)) :=
  [("pubmed", fetch_pubmed F);
   ("crossref", fetch_crossref F);
   ("openalex", fetch_openalex F)].

Inductive log_entry : Type :=
| LogWarningUnsupported (source : string)
| LogErrorFailed (source keyword : string) (exc : exn).

(** The state the loop works on: the list [all_records] and the log. *)
Record run_state : Type := mkRunState {
  all_records : list PaperRecord;
  run_log : list log_entry
}.

(** Statements of [main]: they read and write the state and may raise. *)
Definition stmt (A : Type) : Type := run_state -> result A * run_state.

Definition ret {A : Type} (a : A) : stmt A := fun st => (Ok a, st).

Definition bind {A B : Type} (m : stmt A) (k : A -> stmt B) : stmt B :=
  fun st =>
    match m st with
    | (Ok a, st') => k a st'
    | (Raise e, st') => (Raise e, st')
    end.

Notation "x <- m ;; k" := (bind m (fun x => k))
  (at level 61, m at next level, right associativity).

(** [try: body except Exception as exc: handler]. *)
Definition try_except {A : Type} (body : stmt A) (handler : exn -> stmt A) : stmt A :=
  fun st =>
    match body st with
    | (Ok a, st') => (Ok a, st')
    | (Raise exc, st') => handler exc st'
    end.

(** A call of an adapter: its result or its exception. *)
Definition call (fetcher : string -> result (list PaperRecord)) (keyword : string)
  : stmt (list PaperRecord) :=
  fun st => (fetcher keyword, st).

(** [all_records.extend(source_records)]. *)
Definition extend (source_records : list PaperRecord) : stmt unit :=
  fun st => (Ok tt, mkRunState (all_records st ++ source_records) (run_log st)).

Definition logging (entry : log_entry) : stmt unit :=
  fun st => (Ok tt, mkRunState (all_records st) (run_log st ++ [entry])).

(** [for x in items: body]. *)
Fixpoint for_each {A : Type} (items : list A) (body : A -> stmt unit) : stmt unit :=
  match items with
  | [] => ret tt
  | x :: rest => _ <- body x ;; for_each rest body
  end.

(** The loop of [main] over [sources] and [keywords]. *)
Definition fetch_all (F : Fetchers) (sources keywords : list string) : stmt unit :=
  for_each sources (fun source =>
    match Dict.get String.eqb (Str.lower source) (fetchers F) with
    | None => logging (LogWarningUnsupported source)
    | Some fetcher =>
        for_each keywords (fun keyword =>
          try_except
            (source_records <- call fetcher keyword ;;
             extend source_records)
            (fun exc => logging (LogErrorFailed source keyword exc)))
    end).

Definition initial_state : run_state := mkRunState [] [].

(** The records of one (source, keyword) pair: those the adapter
    returns, none when it raises. *)
Definition pair_records (fetcher : string -> result (list PaperRecord))
    (keyword : string) : list PaperRecord :=
  match fetcher keyword with
  | Ok records => records
  | Raise _ => []
  end.

(** The combined sequence in the words of the specification:
    source-major, then keyword-major, then in the order of emission;
    an unknown source contributes nothing. *)
Definition combined_records (F : Fetchers) (sources keywords : list string)
  : list PaperRecord :=
  flat_map (fun source =>
    match Dict.get String.eqb (Str.lower source) (fetchers F) with
    | None => []
    | Some fetcher => flat_map (pair_records fetcher) keywords
    end) sources.

(** The log entries of one pair, and of a run. *)
Definition pair_log (source : string) (fetcher : string -> result (list PaperRecord))
    (keyword : string) : list log_entry :=
  match fetcher keyword with
  | Ok _ => []
  | Raise exc => [LogErrorFailed source keyword exc]
  end.

Definition combined_log (F : Fetchers) (sources keywords : list string)
  : list log_entry :=
  flat_map (fun source =>
    match Dict.get String.eqb (Str.lower source) (fetchers F) with
    | None => [LogWarningUnsupported source]
    | Some fetcher => flat_map (pair_log source fetcher) keywords
    end) sources.

(** A run for the examples: PubMed and OpenAlex answer every keyword
    with one record, Crossref fails for the keyword [deep learning]. *)
Definition example_fetchers : Fetchers :=
  mkFetchers
    (fun keyword => Ok [mkPaperRecord "PubMed" keyword "T" "" "" "" "" ""])
    (fun keyword =>
       if String.eqb keyword "deep learning" then Raise "ConnectionError"
       else Ok [mkPaperRecord "Crossref" keyword "T" "" "" "" "" ""])
    (fun keyword => Ok [mkPaperRecord "OpenAlex" keyword "T" "" "" "" "" ""]).

(* ================================================================== *)
(** ** Command-line lists *)
(* ================================================================== *)

(** [s.split(sep)] for a separator of one character: the pieces between
    the separators, in order; the empty string gives one empty piece. *)
Fixpoint split_char (sep : ascii) (s : string) : list string :=
  match s with
  | EmptyString => [EmptyString]
  | String c r =>
      if Ascii.eqb c sep then EmptyString :: split_char sep r
      else
        match split_char sep r with
        | piece :: pieces => String c piece :: pieces
        | [] => [String c EmptyString]
        end
  end.

Definition normalize_list_argument (value : string) : list string :=
  map Str.strip
      (filter (fun item => Str.truthy (Str.strip item)) (split_char "," value)).

(* ================================================================== *)
(** ** Date assembly for Crossref *)
(* ================================================================== *)

(** [s.zfill(width)] on digits: zeros in front up to the width. *)
Definition pad_zeros (width : nat) (digits : string) : string :=
  (String.concat "" (repeat "0" (width - String.length digits)) ++ digits)%string.

(** [f"{n:0<width>d}"]: the sign counts towards the width. *)
Definition format_d (width : nat) (z : Z) : string :=
  if (z <? 0)%Z then ("-" ++ pad_zeros (width - 1) (decimal (Z.to_nat (- z))))%string
  else pad_zeros width (decimal (Z.to_nat z)).

(** Truthiness of a JSON number or null: null and 0 are falsy. *)
Definition int_truthy (o : option Z) : bool :=
  match o with
  | Some z => negb (z =? 0)%Z
  | None => false
  end.

Definition int_or_zero (o : option Z) : Z :=
  match o with Some z => z | None => 0%Z end.

(** What stands under one of the date keys of an item, as far as the
    function reads it: the list under ["date-parts"], or [None] when
    the key, its object or the list is missing or null. *)
Definition date_info : Type := option (list (list (option Z))).

(** The end of the loop body, from [year = parts[0]] on, for non-empty
    [parts]: the date returned, or [None] when the loop goes on. *)
Definition date_of_parts (parts : list (option Z)) : option string :=
  let year := nth 0 parts None in
  let month := if 1 <? List.length parts then nth 1 parts None else None in
  let day := if 2 <? List.length parts then nth 2 parts None else None in
  if int_truthy year && int_truthy month && int_truthy day
  then Some (format_d 4 (int_or_zero year) ++ "-" ++ format_d 2 (int_or_zero month)
             ++ "-" ++ format_d 2 (int_or_zero day))%string
  else if int_truthy year && int_truthy month
  then Some (format_d 4 (int_or_zero year) ++ "-" ++ format_d 2 (int_or_zero month))%string
  else if int_truthy year
  then Some (format_d 4 (int_or_zero year))
  else None.

(** The loop over the date keys, [infos] being what stands under the
    keys still to be tried. *)
Fixpoint first_date (infos : list date_info) : string :=
  match infos with
  | [] => ""
  | date_info :: rest =>
      match date_info with
      | None | Some [] => first_date rest
      | Some (parts :: _) =>
          match parts with
          | [] => first_date rest
          | _ :: _ =>
              match date_of_parts parts with
              | Some date => date
              | None => first_date rest
              end
          end
      end
  end.

(** The four date keys of a Crossref item. *)
Record CrossrefDates : Type := mkCrossrefDates {
  published_print : date_info;
  published_online : date_info;
  issued : date_info;
  created : date_info
}.

Definition extract_crossref_date (item : CrossrefDates) : string :=
  first_date [published_print item; published_online item; issued item; created item].

(** The first date-parts entry under a key holds a year. *)
Definition has_year (info : date_info) : bool :=
  match info with
  | Some (parts :: _) => int_truthy (nth 0 parts None)
  | _ => false
  end.

(** A number or null within a bound. *)
Definition below (bound : Z) (o : option Z) : bool :=
  match o with
  | Some z => (0 <=? z)%Z && (z <? bound)%Z
  | None => true
  end.

(** The first date-parts entry under a key is a calendar date: a year
    below 10000, month and day below 100, or null. *)
Definition calendar_parts (info : date_info) : bool :=
  match info with
  | Some (parts :: _) =>
      below 10000 (nth 0 parts None) && below 100 (nth 1 parts None)
      && below 100 (nth 2 parts None)
  | _ => true
  end.

(* ================================================================== *)
(** ** The Markdown summary *)
(* ================================================================== *)

(** [text.replace("|", "\|")]: the replacement is a backslash and a
    pipe. *)
Definition escape_pipes (text : string) : string := Str.replace "|" "\|" text.

(** The link shown in the DOI column. *)
Definition doi_display (record_doi : string) : string :=
  let doi_display := if Str.truthy record_doi then record_doi else "" in
  if Str.truthy doi_display && negb (Str.startswith "http" doi_display)
  then ("https://doi.org/" ++ doi_display)%string
  else doi_display.

(** The line written for one record. *)
Definition markdown_row (record : PaperRecord) : string :=
  ("| " ++ source record ++ " | " ++ keyword record
   ++ " | " ++ escape_pipes (title record)
   ++ " | " ++ escape_pipes (authors record)
   ++ " | " ++ escape_pipes (journal record)
   ++ " | " ++ publication_date record
   ++ " | " ++ doi_display (doi record) ++ " |" ++ newline)%string.

(** The text written to the summary file. *)
Definition markdown_summary (records : list PaperRecord) (timestamp : string) : string :=
  ("# Cardiovascular Literature Summary (" ++ timestamp ++ ")" ++ newline ++ newline
   ++ "| Source | Keyword | Title | Authors | Journal | Publication Date | DOI |" ++ newline
   ++ "| --- | --- | --- | --- | --- | --- | --- |" ++ newline
   ++ String.concat "" (map markdown_row records))%string.

(** [old] occurs in [s]. *)
Fixpoint occurs (old s : string) : bool :=
  match s with
  | EmptyString => Str.startswith old EmptyString
  | String _ r => Str.startswith old s || occurs old r
  end.

(** The number of pipes of [s] that do not follow a backslash; [prev]
    is the character before [s]. *)
Fixpoint bare_pipes (prev : ascii) (s : string) : nat :=
  match s with
  | EmptyString => 0
  | String c r =>
      (if Ascii.eqb c "|" && negb (Ascii.eqb prev "\") then 1 else 0)
      + bare_pipes c r
  end.

(* ================================================================== *)
(** ** The adapters: from parsed responses to records *)
(* ================================================================== *)

(** What the PubMed adapter reads of one [PubmedArticle] element.
    [ArticleTitle] is the joined text of the title element ([None]
    without one), [AbstractTexts] the joined texts of the
    [AbstractText] nodes, [Journal_Title] what [findtext] finds ([None]
    without the element). *)
Record PubmedArticle : Type := mkPubmedArticle {
  ArticleTitle : option string;
  AbstractTexts : list string;
  Authors : list Author;
  ArticleId_doi : option (option string);
  Journal_Title : option string;
  Dates : ArticleDates
}.

(** The body of the loop over the articles: the record appended, or
    the exception that leaves the function. *)
Definition pubmed_record (keyword : string) (article : PubmedArticle)
  : result PaperRecord :=
  let title :=
    match ArticleTitle article with
    | Some text => Str.strip text
    | None => ""
    end in
  let abstract := pubmed_abstract (AbstractTexts article) in
  let authors_str := pubmed_authors (Authors article) in
  let doi := pubmed_doi (ArticleId_doi article) in
  let journal :=
    Str.strip (match Journal_Title article with Some text => text | None => "" end) in
  match extract_pubmed_date (Dates article) with
  | Raise e => Raise e
  | Ok publication_date =>
      Ok (mkPaperRecord "PubMed" keyword title authors_str doi publication_date
                        journal abstract)
  end.

(** A loop that appends one record per element and is left by the
    first exception. *)
Fixpoint collect {A : Type} (body : A -> result PaperRecord) (items : list A)
  : result (list PaperRecord) :=
  match items with
  | [] => Ok []
  | item :: rest =>
      match body item with
      | Raise e => Raise e
      | Ok record =>
          match collect body rest with
          | Raise e => Raise e
          | Ok records => Ok (record :: records)
          end
      end
  end.

(** [fetch_pubmed] from the parsed document on. *)
Definition pubmed_records (keyword : string) (articles : list PubmedArticle)
  : result (list PaperRecord) :=
  collect (pubmed_record keyword) articles.

(** A key of a JSON object: missing, null, or holding a value. *)
Inductive field (A : Type) : Type :=
| Missing
| Null
| Value (a : A).

Arguments Missing {A}.
Arguments Null {A}.
Arguments Value {A} a.

(** An author entry of a Crossref item. *)
Record CrossrefAuthor : Type := mkCrossrefAuthor {
  au_given : option string;
  au_family : option string;
  au_name : option string
}.

(** The body of the loop over the authors of a Crossref item. *)
Definition crossref_author_step (authors : list string) (author : CrossrefAuthor)
  : list string :=
  let given := Str.or_empty (au_given author) in
  let family := Str.or_empty (au_family author) in
  let name := Str.strip (Str.join " " (filter Str.truthy [given; family])) in
  let name :=
    if negb (Str.truthy name)
    then match au_name author with Some n => n | None => "" end
    else name in
  if Str.truthy name then authors ++ [name] else authors.

(** A value in a date-parts entry as [json] decodes it: an integer (a
    boolean is the integer 1 or 0), null, a string or a float, or a
    list or an object; of the last two kinds only the truthiness
    matters before the value is formatted. *)
Inductive date_part : Type :=
| PartInt (z : Z)
| PartNull
| PartOther (truthy : bool)
| PartNested (truthy : bool).

Definition part_truthy (p : date_part) : bool :=
  match p with
  | PartInt z => negb (z =? 0)%Z
  | PartNull => false
  | PartOther truthy => truthy
  | PartNested truthy => truthy
  end.

(** [f"{part:0<width>d}"]: only an integer has the format [d]; a
    string and a float refuse it with [ValueError], the other values
    refuse any format with [TypeError]. *)
Definition format_part (width : nat) (p : date_part) : result string :=
  match p with
  | PartInt z => Ok (format_d width z)
  | PartNull => Raise "TypeError"
  | PartOther _ => Raise "ValueError"
  | PartNested _ => Raise "TypeError"
  end.

(** The end of the loop body of [extract_crossref_date] on such values:
    [None] when the loop goes on, otherwise the date or the exception
    of the formatting, the parts being formatted from left to right. *)
Definition date_of_json_parts (parts : list date_part) : option (result string) :=
  let year := nth 0 parts PartNull in
  let month := if 1 <? List.length parts then nth 1 parts PartNull else PartNull in
  let day := if 2 <? List.length parts then nth 2 parts PartNull else PartNull in
  if part_truthy year && part_truthy month && part_truthy day
  then Some
         match format_part 4 year with
         | Raise e => Raise e
         | Ok y =>
             match format_part 2 month with
             | Raise e => Raise e
             | Ok m =>
                 match format_part 2 day with
                 | Raise e => Raise e
                 | Ok d => Ok (y ++ "-" ++ m ++ "-" ++ d)%string
                 end
             end
         end
  else if part_truthy year && part_truthy month
  then Some
         match format_part 4 year with
         | Raise e => Raise e
         | Ok y =>
             match format_part 2 month with
             | Raise e => Raise e
             | Ok m => Ok (y ++ "-" ++ m)%string
             end
         end
  else if part_truthy year
  then Some (format_part 4 year)
  else None.

(** The loop of [extract_crossref_date] over what stands under the date
    keys still to be tried ([None]: key, object or list missing or
    null). *)
Fixpoint first_json_date (infos : list (option (list (list date_part))))
  : result string :=
  match infos with
  | [] => Ok ""
  | date_info :: rest =>
      match date_info with
      | None | Some [] => first_json_date rest
      | Some (parts :: _) =>
          match parts with
          | [] => first_json_date rest
          | _ :: _ =>
              match date_of_json_parts parts with
              | Some outcome => outcome
              | None => first_json_date rest
              end
          end
      end
  end.

(** What the Crossref adapter reads of one item.  [title] and
    [container-title] hold a list of strings, are missing, or are null;
    [author] holds the entries ([None] when missing or null); the four
    date keys are given in the order in which they are tried. *)
Record CrossrefItem : Type := mkCrossrefItem {
  cr_title : field (list string);
  cr_author : option (list CrossrefAuthor);
  cr_DOI : option string;
  cr_published_print : option (list (list date_part));
  cr_published_online : option (list (list date_part));
  cr_issued : option (list (list date_part));
  cr_created : option (list (list date_part));
  cr_container_title : field (list string);
  cr_abstract : option string
}.

(** [" ".join(item.get(key, [])).strip()]: a key that is present and
    null gives [None], which [join] refuses with [TypeError]. *)
Definition joined (texts : field (list string)) : result string :=
  match texts with
  | Missing => Ok (Str.strip (Str.join " " []))
  | Null => Raise "TypeError"
  | Value l => Ok (Str.strip (Str.join " " l))
  end.

Definition crossref_item_date (item : CrossrefItem) : result string :=
  first_json_date [cr_published_print item; cr_published_online item;
                   cr_issued item; cr_created item].

Definition crossref_authors (item : CrossrefItem) : string :=
  Str.join "; "
    (fold_left crossref_author_step
               (match cr_author item with Some l => l | None => [] end) []).

(** The body of the loop over the items: the record appended, or the
    exception that leaves the function. *)
Definition crossref_record (keyword : string) (item : CrossrefItem)
  : result PaperRecord :=
  match joined (cr_title item) with
  | Raise e => Raise e
  | Ok title =>
      let authors_str := crossref_authors item in
      let doi := crossref_doi (cr_DOI item) in
      match crossref_item_date item with
      | Raise e => Raise e
      | Ok publication_date =>
          match joined (cr_container_title item) with
          | Raise e => Raise e
          | Ok journal =>
              let abstract := crossref_abstract (cr_abstract item) in
              Ok (mkPaperRecord "Crossref" keyword title authors_str doi
                                publication_date journal abstract)
          end
      end
  end.

(** [fetch_crossref] from the decoded items on. *)
Definition crossref_records (keyword : string) (items : list CrossrefItem)
  : result (list PaperRecord) :=
  collect (crossref_record keyword) items.

(** The date value as the integer-or-null that the date assembly above
    reads. *)
Definition part_of (o : option Z) : date_part :=
  match o with
  | Some z => PartInt z
  | None => PartNull
  end.

(** An item whose lists are lists and whose date parts are integers or
    null. *)
Definition integer_part (p : date_part) : bool :=
  match p with
  | PartInt _ | PartNull => true
  | PartOther _ | PartNested _ => false
  end.

Definition integer_dates (info : option (list (list date_part))) : bool :=
  match info with
  | Some (parts :: _) => forallb integer_part parts
  | _ => true
  end.

Definition well_typed_item (item : CrossrefItem) : bool :=
  match cr_title item, cr_container_title item with
  | Null, _ | _, Null => false
  | _, _ =>
      integer_dates (cr_published_print item)
      && integer_dates (cr_published_online item)
      && integer_dates (cr_issued item)
      && integer_dates (cr_created item)
  end.

(** The chain [item.get("primary_location", {}).get("source", {})
    .get("display_name", "").strip()]: a key that is present and null
    gives [None], on which the next call raises [AttributeError]. *)
Definition openalex_journal (primary_location : field (field (field string)))
  : result string :=
  match primary_location with
  | Missing => Ok (Str.strip "")
  | Null => Raise "AttributeError"
  | Value source =>
      match source with
      | Missing => Ok (Str.strip "")
      | Null => Raise "AttributeError"
      | Value display_name =>
          match display_name with
          | Missing => Ok (Str.strip "")
          | Null => Raise "AttributeError"
          | Value text => Ok (Str.strip text)
          end
      end
  end.

(** [item.get("ids", {}).get("doi")] and what follows it. *)
Definition openalex_item_doi (ids : field (option string)) : result string :=
  match ids with
  | Missing => Ok (openalex_doi None)
  | Null => Raise "AttributeError"
  | Value ids_doi => Ok (openalex_doi ids_doi)
  end.

(** The body of the loop over the authorships: [author] is the object
    under [author] ([None] when missing or null), given by what stands
    under its [display_name]. *)
Definition openalex_author_step (authors : list string)
    (author : option (option string)) : list string :=
  let name := match author with Some display_name => display_name | None => None end in
  if Str.truthy_opt name then authors ++ [Str.or_empty name] else authors.

(** What the OpenAlex adapter reads of one item. *)
Record OpenAlexItem : Type := mkOpenAlexItem {
  oa_title : option string;
  oa_authorships : option (list (option (option string)));
  oa_ids : field (option string);
  oa_publication_date : option string;
  oa_primary_location : field (field (field string));
  oa_abstract_inverted_index : option (list (string * list Z))
}.

Definition openalex_record (keyword : string) (item : OpenAlexItem)
  : result PaperRecord :=
  let title := Str.strip (Str.or_empty (oa_title item)) in
  let authors :=
    fold_left openalex_author_step
              (match oa_authorships item with Some l => l | None => [] end) [] in
  let authors_str := Str.join "; " authors in
  match openalex_item_doi (oa_ids item) with
  | Raise e => Raise e
  | Ok doi =>
      let publication_date := Str.or_empty (oa_publication_date item) in
      match openalex_journal (oa_primary_location item) with
      | Raise e => Raise e
      | Ok journal =>
          let abstract := decode_openalex_abstract (oa_abstract_inverted_index item) in
          Ok (mkPaperRecord "OpenAlex" keyword title authors_str doi publication_date
                            journal abstract)
      end
  end.

(** [fetch_openalex] from the decoded items on. *)
Definition openalex_records (keyword : string) (items : list OpenAlexItem)
  : result (list PaperRecord) :=
  collect (openalex_record keyword) items.

(* ================================================================== *)
(** ** Auxiliary notions for the properties *)
(* ================================================================== *)

(** A key on the way to the DOI or the journal is present and null. *)
Definition null_on_the_way (item : OpenAlexItem) : bool :=
  match oa_ids item with
  | Null => true
  | _ =>
      match oa_primary_location item with
      | Null | Value Null | Value (Value Null) => true
      | _ => false
      end
  end.

(** An article as the PubMed adapter reads it, with the date parts
    given. *)
Definition example_article (year month day : option string) : PubmedArticle :=
  mkPubmedArticle (Some " A title ") ["Background."] [] (Some (Some "10.1/X"))
                  (Some "Heart") (mkArticleDates (Some (mkPubDate year month day)) None).

(** The records of a run: what [main] hands to the writers. *)
Definition unique_records (F : Fetchers) (sources keywords : list string)
  : list PaperRecord :=
  deduplicate_records (all_records (snd (fetch_all F sources keywords initial_state))).

(* ================================================================== *)
(** * Properties *)
(* ================================================================== *)

(* ------------------------------------------------------------------ *)
(** ** Dictionaries *)
(* ------------------------------------------------------------------ *)

Section DictFacts.
Context {V : Type}.
Implicit Types (d : Dict.t (K:=string) (V:=V)) (k : string) (v : V).

Lemma dict_contains_app k d d' :
  Dict.contains String.eqb k (d ++ d') =
  Dict.contains String.eqb k d || Dict.contains String.eqb k d'.
Proof.
  unfold Dict.contains. now rewrite map_app, existsb_app.
Qed.

Lemma dict_set_absent k v d :
  Dict.contains String.eqb k d = false ->
  Dict.set String.eqb k v d = d ++ [(k, v)].
Proof.
  unfold Dict.contains.
  induction d as [|[k' v'] d IH]; simpl; intros H; [reflexivity|].
  apply orb_false_iff in H as [Hk Hd].
  rewrite Hk. f_equal. now apply IH.
Qed.

Lemma dict_values_app d d' :
  Dict.values (d ++ d') = Dict.values d ++ Dict.values d'.
Proof. apply map_app. Qed.
End DictFacts.

(* ------------------------------------------------------------------ *)
(** ** The deduplication loop against first-seen retention *)
(* ------------------------------------------------------------------ *)

Lemma collides_iff_In (k : string) (earlier : list PaperRecord) :
  existsb (fun r' => String.eqb (identity_key r') k) earlier = true <->
  In k (map identity_key earlier).
Proof.
  rewrite existsb_exists, in_map_iff. split.
  - intros (r & Hin & Heq). apply String.eqb_eq in Heq. now exists r.
  - intros (r & Heq & Hin). exists r. split; [assumption|].
    now apply String.eqb_eq.
Qed.

Lemma collides_app (k : string) (l l' : list PaperRecord) :
  existsb (fun r' => String.eqb (identity_key r') k) (l ++ l') =
  existsb (fun r' => String.eqb (identity_key r') k) l
  || existsb (fun r' => String.eqb (identity_key r') k) l'.
Proof. apply existsb_app. Qed.

Lemma tracks_step seen earlier r :
  tracks seen earlier -> tracks (dedup_step seen r) (earlier ++ [r]).
Proof.
  intros Hinv k. unfold dedup_step.
  rewrite collides_app. simpl. rewrite orb_false_r.
  destruct (Dict.contains String.eqb (identity_key r) seen) eqn:Hc; simpl.
  - rewrite <- Hinv.
    destruct (String.eqb (identity_key r) k) eqn:Hk.
    + apply String.eqb_eq in Hk. subst k. rewrite Hc. reflexivity.
    + now rewrite orb_false_r.
  - rewrite (dict_set_absent _ _ _ Hc), dict_contains_app, Hinv.
    f_equal. unfold Dict.contains. simpl. rewrite orb_false_r.
    apply String.eqb_sym.
Qed.

Lemma dedup_loop_first_seen rs :
  forall seen earlier,
    tracks seen earlier ->
    Dict.values (fold_left dedup_step rs seen) =
    Dict.values seen ++ first_seen_after earlier rs.
Proof.
  induction rs as [|r rs IH]; intros seen earlier Hinv; simpl.
  - now rewrite app_nil_r.
  - rewrite (IH _ (earlier ++ [r]) (tracks_step _ _ r Hinv)).
    unfold dedup_step. rewrite <- (Hinv (identity_key r)).
    destruct (Dict.contains String.eqb (identity_key r) seen) eqn:Hc; simpl.
    + reflexivity.
    + rewrite (dict_set_absent _ _ _ Hc), dict_values_app. simpl.
      now rewrite <- app_assoc.
Qed.

Lemma deduplicate_records_first_seen rs :
  deduplicate_records rs = first_seen rs.
Proof.
  unfold deduplicate_records, first_seen.
  now rewrite (dedup_loop_first_seen rs Dict.empty []).
Qed.

(* ------------------------------------------------------------------ *)
(** ** First-seen retention *)
(* ------------------------------------------------------------------ *)

Lemma first_seen_after_incl rs :
  forall earlier r, In r (first_seen_after earlier rs) -> In r rs.
Proof.
  induction rs as [|x rs IH]; simpl; intros earlier r H; [assumption|].
  apply in_app_or in H as [H|H].
  - destruct (existsb _ earlier); simpl in H; tauto.
  - right. eauto.
Qed.

Lemma first_seen_after_fresh rs :
  forall earlier r,
    In r (first_seen_after earlier rs) ->
    ~ In (identity_key r) (map identity_key earlier).
Proof.
  induction rs as [|x rs IH]; simpl; intros earlier r H; [contradiction|].
  apply in_app_or in H as [H|H].
  - destruct (existsb _ earlier) eqn:Hc; simpl in H; [contradiction|].
    destruct H as [<-|[]]. rewrite <- collides_iff_In, Hc. discriminate.
  - intros Hin. apply (IH _ _ H).
    rewrite map_app, in_app_iff. now left.
Qed.

Lemma first_seen_after_NoDup rs :
  forall earlier, NoDup (map identity_key (first_seen_after earlier rs)).
Proof.
  induction rs as [|x rs IH]; simpl; intros earlier; [constructor|].
  destruct (existsb _ earlier); simpl; [apply IH|].
  constructor; [|apply IH].
  rewrite in_map_iff. intros (r & Hk & Hin).
  apply first_seen_after_fresh in Hin. apply Hin.
  rewrite map_app, in_app_iff, Hk. right. now left.
Qed.

Lemma first_seen_after_length rs :
  forall earlier, List.length (first_seen_after earlier rs) <= List.length rs.
Proof.
  induction rs as [|x rs IH]; simpl; intros earlier; [lia|].
  rewrite length_app. specialize (IH (earlier ++ [x])).
  destruct (existsb _ earlier); simpl; lia.
Qed.

(** A sequence whose keys are pairwise distinct, and distinct from
    those already passed, is retained whole. *)
Lemma first_seen_after_fixed rs :
  forall earlier,
    NoDup (map identity_key earlier ++ map identity_key rs) ->
    first_seen_after earlier rs = rs.
Proof.
  induction rs as [|x rs IH]; simpl; intros earlier Hnd; [reflexivity|].
  destruct (existsb _ earlier) eqn:Hc.
  - exfalso. apply collides_iff_In in Hc.
    apply NoDup_remove_2 in Hnd. apply Hnd.
    rewrite in_app_iff. now left.
  - simpl. f_equal. apply IH.
    rewrite map_app. simpl. now rewrite <- app_assoc.
Qed.

(** Retention depends on the records already passed only through
    their keys. *)
Lemma first_seen_after_ext rs :
  forall e1 e2,
    (forall k, existsb (fun r' => String.eqb (identity_key r') k) e1 =
               existsb (fun r' => String.eqb (identity_key r') k) e2) ->
    first_seen_after e1 rs = first_seen_after e2 rs.
Proof.
  induction rs as [|r rs IH]; simpl; intros e1 e2 Hk; [reflexivity|].
  rewrite (Hk (identity_key r)). f_equal.
  apply IH. intros k. now rewrite !collides_app, Hk.
Qed.

Lemma first_seen_after_app rs1 :
  forall earlier rs2,
    first_seen_after earlier (rs1 ++ rs2) =
    first_seen_after earlier rs1 ++ first_seen_after (earlier ++ rs1) rs2.
Proof.
  induction rs1 as [|r rs1 IH]; simpl; intros earlier rs2.
  - now rewrite app_nil_r.
  - rewrite IH, <- !app_assoc. reflexivity.
Qed.

(** A record whose key has been seen is discarded and leaves no trace. *)
Lemma first_seen_after_discard earlier x rs :
  In (identity_key x) (map identity_key earlier) ->
  first_seen_after earlier (x :: rs) = first_seen_after earlier rs.
Proof.
  intros Hx. simpl.
  pose proof (proj2 (collides_iff_In _ _) Hx) as Hc. rewrite Hc. simpl.
  apply first_seen_after_ext. intros k.
  rewrite collides_app. simpl. rewrite orb_false_r.
  destruct (String.eqb (identity_key x) k) eqn:Hk; [|apply orb_false_r].
  apply String.eqb_eq in Hk. subst k. now rewrite Hc.
Qed.

(* ------------------------------------------------------------------ *)
(** ** Identity keys *)
(* ------------------------------------------------------------------ *)

Lemma truthy_lower s : Str.truthy (Str.lower s) = Str.truthy s.
Proof. now destruct s. Qed.

Lemma truthy_false_iff s : Str.truthy s = false <-> s = "".
Proof. destruct s; simpl; split; congruence. Qed.

Lemma identity_key_doi r :
  doi r <> "" -> identity_key r = Str.lower (doi r).
Proof.
  intros Hne. unfold identity_key.
  destruct (Str.truthy (doi r)) eqn:Ht.
  - now rewrite truthy_lower, Ht.
  - now apply truthy_false_iff in Ht.
Qed.

Lemma identity_key_fallback r :
  doi r = "" ->
  identity_key r =
  ("title:" ++ Str.strip (Str.lower (title r)) ++ "|date:" ++ publication_date r)%string.
Proof. intros H. unfold identity_key. now rewrite H. Qed.

Lemma identity_key_render r : identity_key r = render_identity (identity_of r).
Proof.
  unfold identity_of.
  destruct (Str.truthy (doi r)) eqn:Ht; simpl.
  - apply identity_key_doi. intros H. now rewrite H in Ht.
  - apply identity_key_fallback. now apply truthy_false_iff.
Qed.

Lemma blank_keyed_key r :
  blank_keyed r = true -> identity_key r = "title:|date:".
Proof.
  unfold blank_keyed. rewrite !andb_true_iff, !negb_true_iff.
  intros [[Hd Ht] Hp]. apply truthy_false_iff in Hd, Ht, Hp.
  rewrite (identity_key_fallback _ Hd), Ht, Hp. reflexivity.
Qed.

(** Among elements with pairwise distinct images, at most one is mapped
    to a given value. *)
Lemma NoDup_image_filter {A B : Type} (f : A -> B) (p : A -> bool) (y : B) l :
  NoDup (map f l) ->
  (forall x, p x = true -> f x = y) ->
  List.length (filter p l) <= 1.
Proof.
  intros Hnd Hp. induction l as [|a l IH]; simpl; [lia|].
  inversion Hnd as [|? ? Hnotin Hnd']; subst.
  specialize (IH Hnd').
  destruct (p a) eqn:Hpa; [|assumption]. simpl.
  destruct (filter p l) as [|x rest] eqn:Hf; [simpl; lia|].
  exfalso. apply Hnotin.
  assert (Hx : In x (filter p l)) by (rewrite Hf; now left).
  apply filter_In in Hx as [Hin Hpx].
  rewrite (Hp a Hpa), <- (Hp x Hpx). now apply in_map.
Qed.

(* ------------------------------------------------------------------ *)
(** ** The Deduplicator *)
(* ------------------------------------------------------------------ *)

(** C1.  For every input sequence, [deduplicate_records] retains
    exactly the records that no earlier record of the input shares the
    identity key with, in input order; every retained record is a record
    of the input as it stood (no merging of fields); a later record
    whose key collides with an earlier one leaves no trace in the
    output; and of two records with the same (present) DOI and different
    titles only the first is kept. *)
Theorem first_write_wins (records : list PaperRecord) :
  deduplicate_records records = first_seen records
  /\ (forall r, In r (deduplicate_records records) -> In r records)
  /\ (forall pre r1 mid r2 post,
         records = pre ++ r1 :: mid ++ r2 :: post ->
         identity_key r1 = identity_key r2 ->
         deduplicate_records records =
         deduplicate_records (pre ++ r1 :: mid ++ post))
  /\ (forall r1 r2,
         doi r1 = doi r2 -> doi r1 <> "" -> title r1 <> title r2 ->
         deduplicate_records [r1; r2] = [r1]).
Proof.
  split; [apply deduplicate_records_first_seen|].
  split; [|split].
  - intros r. rewrite deduplicate_records_first_seen.
    apply first_seen_after_incl.
  - intros pre r1 mid r2 post -> Hk.
    rewrite !deduplicate_records_first_seen. unfold first_seen.
    replace (pre ++ r1 :: mid ++ r2 :: post)
      with ((pre ++ r1 :: mid) ++ r2 :: post)
      by (now rewrite <- app_assoc).
    replace (pre ++ r1 :: mid ++ post)
      with ((pre ++ r1 :: mid) ++ post)
      by (now rewrite <- app_assoc).
    rewrite !first_seen_after_app. f_equal.
    apply first_seen_after_discard.
    rewrite <- Hk. simpl. apply in_map, in_or_app. right. now left.
  - intros r1 r2 Hdoi Hne _.
    rewrite deduplicate_records_first_seen. unfold first_seen. simpl.
    assert (Hk : identity_key r1 = identity_key r2).
    { rewrite !identity_key_doi; congruence. }
    rewrite Hk, String.eqb_refl. reflexivity.
Qed.

(** Two records with DOI [10.1/x] and titles [A] and [B]: the first one
    is kept. *)
Lemma first_write_wins_witness :
  deduplicate_records
    [mkPaperRecord "PubMed" "k" "A" "" "10.1/x" "2024" "" "";
     mkPaperRecord "Crossref" "k" "B" "" "10.1/x" "2023" "" ""] =
    [mkPaperRecord "PubMed" "k" "A" "" "10.1/x" "2024" "" ""].
Proof.
  apply (proj2 (proj2 (proj2 (first_write_wins [])))); simpl;
    [reflexivity | discriminate | discriminate].
Defined.

(** C2.  Deduplication is an idempotent reduction: deduplicating its
    own output changes nothing, the output is no longer than the input,
    and the identity keys of the output are pairwise distinct, both as
    the key strings of the code and as the identities of the data model
    (lowercased DOI, or normalised title with publication date). *)
Theorem dedup_idempotent_reduction (records : list PaperRecord) :
  deduplicate_records (deduplicate_records records) = deduplicate_records records
  /\ List.length (deduplicate_records records) <= List.length records
  /\ NoDup (map identity_key (deduplicate_records records))
  /\ NoDup (map identity_of (deduplicate_records records)).
Proof.
  assert (Hnd : NoDup (map identity_key (deduplicate_records records))).
  { rewrite deduplicate_records_first_seen. apply first_seen_after_NoDup. }
  repeat split.
  - rewrite (deduplicate_records_first_seen (deduplicate_records records)).
    apply first_seen_after_fixed. exact Hnd.
  - rewrite deduplicate_records_first_seen. apply first_seen_after_length.
  - exact Hnd.
  - apply (NoDup_map_inv render_identity).
    rewrite map_map.
    rewrite (map_ext _ identity_key); [exact Hnd|].
    intros r. symmetry. apply identity_key_render.
Qed.

(** C10.  Every record with an empty DOI, a title that is empty after
    lowercasing and trimming and an empty publication date has the key
    [title:|date:], whatever its other fields; so at most one such
    record survives deduplication. *)
Theorem blank_records_collapse (records : list PaperRecord) :
  (forall r, blank_keyed r = true -> identity_key r = "title:|date:")
  /\ List.length (filter blank_keyed (deduplicate_records records)) <= 1.
Proof.
  split; [exact blank_keyed_key|].
  apply (NoDup_image_filter identity_key blank_keyed "title:|date:").
  - rewrite deduplicate_records_first_seen. apply first_seen_after_NoDup.
  - exact blank_keyed_key.
Qed.

(** A record without DOI, date and title text, from any source. *)
Lemma blank_records_collapse_witness :
  identity_key (mkPaperRecord "Crossref" "mitral regurgitation" "   " "A. Author" ""
                              "" "Heart" "An abstract.")
  = "title:|date:".
Proof.
  apply (proj1 (blank_records_collapse [])). reflexivity.
Defined.

(* ------------------------------------------------------------------ *)
(** ** The fallback identity *)
(* ------------------------------------------------------------------ *)

Lemma contains_char_app x a b :
  Str.contains_char x (a ++ b)%string =
  Str.contains_char x a || Str.contains_char x b.
Proof.
  induction a as [|c a IH]; simpl; [reflexivity|].
  now rewrite IH, orb_assoc.
Qed.

(** Text before the separator [|date:] and a date without the character
    [|] are recovered from their concatenation. *)
Lemma date_separator_injective t1 t2 d1 d2 :
  Str.contains_char "|" d1 = false ->
  Str.contains_char "|" d2 = false ->
  (t1 ++ "|date:" ++ d1 = t2 ++ "|date:" ++ d2)%string ->
  t1 = t2 /\ d1 = d2.
Proof.
  intros H1 H2. revert t2.
  induction t1 as [|c t1 IH]; intros [|c' t2] Heq; simpl in Heq.
  - injection Heq as ->. now split.
  - exfalso. injection Heq as Hc Hrest.
    apply (f_equal (Str.contains_char "|")) in Hrest.
    rewrite contains_char_app in Hrest. simpl in Hrest.
    rewrite H1, orb_true_r in Hrest. discriminate.
  - exfalso. injection Heq as Hc Hrest.
    apply (f_equal (Str.contains_char "|")) in Hrest.
    rewrite contains_char_app in Hrest. simpl in Hrest.
    rewrite H2, orb_true_r in Hrest. discriminate.
  - injection Heq as -> Hrest.
    destruct (IH _ Hrest) as [-> ->]. now split.
Qed.

(** Two records alone in the input. *)
Lemma dedup_pair r1 r2 :
  deduplicate_records [r1; r2] =
  if String.eqb (identity_key r1) (identity_key r2) then [r1] else [r1; r2].
Proof.
  rewrite deduplicate_records_first_seen. unfold first_seen. simpl.
  rewrite orb_false_r. now destruct (String.eqb _ _).
Qed.

(** C3 (as the code has it).  Two records without DOI whose
    publication dates hold no [|] (none of [YYYY-MM-DD], [YYYY-MM],
    [YYYY] and the empty date does) collapse to the first exactly when
    their titles are equal after lowercasing and trimming and their
    dates are equal; when the dates differ both are kept. *)
Theorem fallback_identity_on_dates r1 r2 :
  doi r1 = "" -> doi r2 = "" ->
  Str.contains_char "|" (publication_date r1) = false ->
  Str.contains_char "|" (publication_date r2) = false ->
  (deduplicate_records [r1; r2] = [r1] <->
   Str.strip (Str.lower (title r1)) = Str.strip (Str.lower (title r2))
   /\ publication_date r1 = publication_date r2)
  /\ (publication_date r1 <> publication_date r2 ->
      deduplicate_records [r1; r2] = [r1; r2]).
Proof.
  intros Hd1 Hd2 Hp1 Hp2. rewrite dedup_pair.
  assert (Hkey : identity_key r1 = identity_key r2 <->
                 Str.strip (Str.lower (title r1)) = Str.strip (Str.lower (title r2))
                 /\ publication_date r1 = publication_date r2).
  { rewrite (identity_key_fallback _ Hd1), (identity_key_fallback _ Hd2). split.
    - intros Heq. simpl in Heq. injection Heq as Heq.
      now apply date_separator_injective.
    - intros [-> ->]. reflexivity. }
  destruct (String.eqb (identity_key r1) (identity_key r2)) eqn:Hk.
  - apply String.eqb_eq in Hk. split.
    + split; [intros _; now apply Hkey | reflexivity].
    + intros Hne. exfalso. apply Hne. now apply Hkey.
  - apply String.eqb_neq in Hk. split.
    + split; [intros H; inversion H | intros H; exfalso; now apply Hk, Hkey].
    + reflexivity.
Qed.

(** The same title in two spellings and the same date: one record;
    the same title and two dates: two records. *)
Lemma fallback_identity_on_dates_witness :
  deduplicate_records
    [mkPaperRecord "PubMed" "k" "  Aortic Stenosis " "A" "" "2024-03" "J" "";
     mkPaperRecord "OpenAlex" "k" "aortic stenosis" "B" "" "2024-03" "" ""]
  = [mkPaperRecord "PubMed" "k" "  Aortic Stenosis " "A" "" "2024-03" "J" ""]
  /\ deduplicate_records
       [mkPaperRecord "PubMed" "k" "Aortic stenosis" "A" "" "2024-03" "J" "";
        mkPaperRecord "OpenAlex" "k" "Aortic stenosis" "A" "" "2024" "J" ""]
     = [mkPaperRecord "PubMed" "k" "Aortic stenosis" "A" "" "2024-03" "J" "";
        mkPaperRecord "OpenAlex" "k" "Aortic stenosis" "A" "" "2024" "J" ""].
Proof.
  split.
  - apply (fallback_identity_on_dates
             (mkPaperRecord "PubMed" "k" "  Aortic Stenosis " "A" "" "2024-03" "J" "")
             (mkPaperRecord "OpenAlex" "k" "aortic stenosis" "B" "" "2024-03" "" ""));
      try reflexivity.
    split; reflexivity.
  - apply (fallback_identity_on_dates
             (mkPaperRecord "PubMed" "k" "Aortic stenosis" "A" "" "2024-03" "J" "")
             (mkPaperRecord "OpenAlex" "k" "Aortic stenosis" "A" "" "2024" "J" ""));
      try reflexivity.
    simpl. discriminate.
Defined.

(** C3, where the claim fails.  The fallback key is the text
    [title:<title>|date:<date>] and the title is only trimmed: the
    first two records have no DOI and different publication dates, yet
    the same key, so the second is dropped; the last two have the same
    date and titles that differ in a run of inner spaces only, and both
    are kept. *)
Lemma fallback_identity_fails :
  deduplicate_records
    [mkPaperRecord "OpenAlex" "k" "a|date:b" "" "" "c" "" "";
     mkPaperRecord "OpenAlex" "k" "a" "" "" "b|date:c" "" ""]
  = [mkPaperRecord "OpenAlex" "k" "a|date:b" "" "" "c" "" ""]
  /\ publication_date (mkPaperRecord "OpenAlex" "k" "a|date:b" "" "" "c" "" "")
     <> publication_date (mkPaperRecord "OpenAlex" "k" "a" "" "" "b|date:c" "" "")
  /\ deduplicate_records
       [mkPaperRecord "PubMed" "k" "Deep  learning" "" "" "2024" "" "";
        mkPaperRecord "Crossref" "k" "Deep learning" "" "" "2024" "" ""]
     = [mkPaperRecord "PubMed" "k" "Deep  learning" "" "" "2024" "" "";
        mkPaperRecord "Crossref" "k" "Deep learning" "" "" "2024" "" ""].
Proof.
  repeat split; try reflexivity. discriminate.
Qed.

(* ------------------------------------------------------------------ *)
(** ** Author names of a PubMed article *)
(* ------------------------------------------------------------------ *)

(** The step of the author loop, branch by branch. *)
Lemma pubmed_author_step_branch authors author :
  pubmed_author_step authors author =
  match author_branch_of author with
  | CollectiveBranch =>
      authors ++ [Str.strip (Str.or_empty (CollectiveName author))]
  | ForeLastBranch =>
      authors ++ [Str.join " " (truthy_parts [ForeName author; LastName author])]
  | InitialsLastBranch =>
      authors ++ [(Str.or_empty (Initials author) ++ " "
                   ++ Str.or_empty (LastName author))%string]
  | NoNameBranch => authors
  end.
Proof.
  unfold pubmed_author_step, author_branch_of.
  destruct (Str.truthy_opt (CollectiveName author)); [reflexivity|].
  destruct (Str.truthy_opt (ForeName author) || Str.truthy_opt (LastName author));
    [reflexivity|].
  now destruct (Str.truthy_opt (Initials author) && Str.truthy_opt (LastName author)).
Qed.

(** C8.  The branch that would render initials and family name is
    never taken: an entry with a family name already takes the branch
    before it.  So an entry with initials and a family name but no fore
    name is rendered as the family name alone, as for the entry
    [J]/[Smith]. *)
Theorem initials_form_unreachable :
  (forall author, author_branch_of author <> InitialsLastBranch)
  /\ (forall authors author,
         Str.truthy_opt (CollectiveName author) = false ->
         Str.truthy_opt (ForeName author) = false ->
         Str.truthy_opt (Initials author) = true ->
         Str.truthy_opt (LastName author) = true ->
         pubmed_author_step authors author =
         authors ++ [Str.or_empty (LastName author)])
  /\ pubmed_authors [mkAuthor None (Some "Smith") None (Some "J")] = "Smith"
  /\ pubmed_authors [mkAuthor None (Some "Smith") None (Some "J")] <> "J Smith".
Proof.
  split; [|split; [|split]].
  - intros author. unfold author_branch_of.
    destruct (Str.truthy_opt (CollectiveName author)); [discriminate|].
    destruct (Str.truthy_opt (ForeName author)); simpl; [discriminate|].
    destruct (Str.truthy_opt (LastName author)); simpl; [discriminate|].
    rewrite andb_false_r. discriminate.
  - intros authors author Hc Hf Hi Hl.
    unfold pubmed_author_step. rewrite Hc, Hf, Hl. simpl.
    destruct (ForeName author) as [f|], (LastName author) as [l|];
      simpl in *; try discriminate.
    + rewrite Hf, Hl. reflexivity.
    + rewrite Hl. reflexivity.
  - reflexivity.
  - discriminate.
Qed.

Lemma initials_form_unreachable_witness :
  pubmed_author_step ["Ada Lovelace"] (mkAuthor None (Some "Smith") (Some "") (Some "J"))
  = ["Ada Lovelace"; "Smith"].
Proof.
  apply (proj1 (proj2 initials_form_unreachable)); reflexivity.
Defined.

(* ------------------------------------------------------------------ *)
(** ** The DOI field *)
(* ------------------------------------------------------------------ *)

Lemma lower_char_idempotent c : Str.lower_char (Str.lower_char c) = Str.lower_char c.
Proof. destruct c as [[] [] [] [] [] [] [] []]; reflexivity. Qed.

Lemma lower_idempotent s : Str.lower (Str.lower s) = Str.lower s.
Proof.
  unfold Str.lower.
  induction s as [|c s IH]; simpl; [reflexivity|].
  now rewrite lower_char_idempotent, IH.
Qed.

Lemma lower_fixed_cons c s :
  Str.lower (String c s) = String c s <-> Str.lower_char c = c /\ Str.lower s = s.
Proof.
  unfold Str.lower. simpl. split.
  - intros H. injection H as Hc Hs. now split.
  - intros [-> ->]. reflexivity.
Qed.

Lemma lower_fixed_lstrip s : Str.lower s = s -> Str.lower (Str.lstrip s) = Str.lstrip s.
Proof.
  induction s as [|c s IH]; simpl; intros H; [reflexivity|].
  destruct (Str.isspace c); [|exact H].
  apply IH. now apply lower_fixed_cons in H.
Qed.

Lemma lower_fixed_rstrip s : Str.lower s = s -> Str.lower (Str.rstrip s) = Str.rstrip s.
Proof.
  induction s as [|c s IH]; simpl; intros H; [reflexivity|].
  apply lower_fixed_cons in H as [Hc Hs]. specialize (IH Hs).
  destruct (Str.rstrip s) as [|c' r'].
  - destruct (Str.isspace c); [reflexivity|].
    apply lower_fixed_cons. now split.
  - apply lower_fixed_cons. now split.
Qed.

(** The Crossref adapter does lowercase the DOI. *)
Lemma crossref_doi_lowercase DOI : Str.lower (crossref_doi DOI) = crossref_doi DOI.
Proof.
  unfold crossref_doi, Str.strip.
  apply lower_fixed_rstrip, lower_fixed_lstrip, lower_idempotent.
Qed.

(** C4.  The PubMed adapter keeps the DOI as written apart from
    surrounding whitespace, and the OpenAlex adapter only removes
    [https://doi.org/]: neither lowercases.  For the DOI [10.1/X] the
    PubMed record carries [10.1/X], not [10.1/x]; for
    [https://doi.org/10.1/Y] the OpenAlex record carries [10.1/Y]; a
    PubMed or Crossref DOI given as a URL keeps its prefix.  A missing
    DOI gives the empty string in all three. *)
Theorem doi_case_kept :
  pubmed_doi (Some (Some "10.1/X")) = "10.1/X"
  /\ Str.lower (pubmed_doi (Some (Some "10.1/X"))) <> pubmed_doi (Some (Some "10.1/X"))
  /\ openalex_doi (Some "https://doi.org/10.1/Y") = "10.1/Y"
  /\ Str.lower (openalex_doi (Some "https://doi.org/10.1/Y"))
     <> openalex_doi (Some "https://doi.org/10.1/Y")
  /\ pubmed_doi (Some (Some "https://doi.org/10.1/x")) = "https://doi.org/10.1/x"
  /\ crossref_doi (Some "https://doi.org/10.1/X") = "https://doi.org/10.1/x"
  /\ pubmed_doi None = "" /\ pubmed_doi (Some None) = ""
  /\ crossref_doi None = "" /\ openalex_doi None = "".
Proof.
  repeat split; try reflexivity; discriminate.
Qed.

(* ------------------------------------------------------------------ *)
(** ** Markup stripping and newlines *)
(* ------------------------------------------------------------------ *)

Lemma replace_newline s : Str.replace newline " " s = Str.map newline_to_space s.
Proof.
  unfold Str.replace.
  induction s as [|c s IH]; [reflexivity|].
  cbn [Str.replace_from Str.map newline Str.startswith String.length Nat.sub].
  rewrite andb_true_r, IH. unfold newline_to_space.
  rewrite (Ascii.eqb_sym c). now destruct (Ascii.eqb _ c).
Qed.

Lemma contains_char_map_none f x s :
  (forall c, Ascii.eqb (f c) x = false) ->
  Str.contains_char x (Str.map f s) = false.
Proof.
  intros Hf. induction s as [|c s IH]; simpl; [reflexivity|].
  now rewrite Hf, IH.
Qed.

Lemma contains_char_lstrip x s :
  Str.contains_char x s = false -> Str.contains_char x (Str.lstrip s) = false.
Proof.
  induction s as [|c s IH]; simpl; intros H; [reflexivity|].
  apply orb_false_iff in H as [Hc Hs].
  destruct (Str.isspace c); [now apply IH|]. simpl. now rewrite Hc, Hs.
Qed.

(** [rstrip] keeps a prefix. *)
Lemma rstrip_prefix s : exists t, s = (Str.rstrip s ++ t)%string.
Proof.
  induction s as [|c s [t IH]]; simpl; [now exists ""|].
  destruct (Str.rstrip s) as [|c' r'].
  - destruct (Str.isspace c).
    + now exists (String c s).
    + exists t. simpl in *. now rewrite IH at 1.
  - exists t. simpl in *. now rewrite IH at 1.
Qed.

(** [lstrip] keeps a suffix. *)
Lemma lstrip_suffix s : exists t, s = (t ++ Str.lstrip s)%string.
Proof.
  induction s as [|c s [t IH]]; simpl; [now exists ""|].
  destruct (Str.isspace c).
  - exists (String c t). simpl. now rewrite IH at 1.
  - now exists "".
Qed.

Lemma contains_char_rstrip x s :
  Str.contains_char x s = false -> Str.contains_char x (Str.rstrip s) = false.
Proof.
  destruct (rstrip_prefix s) as [t Ht]. intros H.
  rewrite Ht, contains_char_app in H. now apply orb_false_iff in H.
Qed.

Lemma contains_char_strip x s :
  Str.contains_char x s = false -> Str.contains_char x (Str.strip s) = false.
Proof. intros H. now apply contains_char_rstrip, contains_char_lstrip. Qed.

Lemma clean_html_no_newline value : no_newline (clean_html value).
Proof.
  unfold no_newline, clean_html.
  destruct (Str.truthy value); simpl; [|reflexivity].
  apply contains_char_strip. rewrite replace_newline.
  apply contains_char_map_none. intros c. unfold newline_to_space.
  destruct (Ascii.eqb c (ascii_of_nat 10)) eqn:Hc; [reflexivity|exact Hc].
Qed.

(** *** No tag is left *)

Lemma sub_tags_no_close s :
  Str.contains_char ">" s = false -> sub_tags false s = s.
Proof.
  induction s as [|c s IH]; simpl; intros H; [reflexivity|].
  apply orb_false_iff in H as [Hc Hs].
  assert (Ht : tag_opens s = false).
  { destruct s as [|c' s']; simpl in *; [reflexivity|].
    apply orb_false_iff in Hs as [_ Hs]. now rewrite Hs, andb_false_r. }
  now rewrite Ht, andb_false_r, IH.
Qed.

Lemma tag_opens_sub_tags s :
  tag_opens s = false -> tag_opens (sub_tags false s) = false.
Proof.
  destruct s as [|c s]; [reflexivity|].
  cbn [tag_opens]. intros H.
  destruct (Ascii.eqb c ">") eqn:Hc.
  - (* the text starts with [>], which is kept *)
    cbn [sub_tags].
    assert (Hlt : Ascii.eqb c "<" = false).
    { apply Ascii.eqb_eq in Hc. now subst c. }
    rewrite Hlt. cbn [andb tag_opens]. now rewrite Hc.
  - (* no [>] further on: the scan changes nothing *)
    simpl in H.
    assert (Hall : Str.contains_char ">" (String c s) = false)
      by (simpl; now rewrite Hc, H).
    rewrite (sub_tags_no_close _ Hall). simpl. now rewrite Hc, H.
Qed.

Lemma has_tag_sub_tags s : forall inside, has_tag (sub_tags inside s) = false.
Proof.
  induction s as [|c s IH]; intros inside; [now destruct inside|].
  cbn [sub_tags]. destruct inside; [apply IH|].
  destruct (Ascii.eqb c "<" && tag_opens s) eqn:Hm; [apply IH|].
  cbn [has_tag]. rewrite IH, orb_false_r.
  apply andb_false_iff in Hm as [Hm|Hm]; [now rewrite Hm|].
  now rewrite (tag_opens_sub_tags _ Hm), andb_false_r.
Qed.

Lemma newline_to_space_angle c x :
  x = "<"%char \/ x = ">"%char ->
  Ascii.eqb (newline_to_space c) x = Ascii.eqb c x.
Proof.
  unfold newline_to_space.
  destruct (Ascii.eqb c (ascii_of_nat 10)) eqn:Hc; [|reflexivity].
  apply Ascii.eqb_eq in Hc. subst c. now intros [-> | ->].
Qed.

Lemma contains_close_newline_to_space s :
  Str.contains_char ">" (Str.map newline_to_space s) = Str.contains_char ">" s.
Proof.
  induction s as [|c s IH]; simpl; [reflexivity|].
  rewrite IH, newline_to_space_angle; [reflexivity | now right].
Qed.

Lemma tag_opens_newline_to_space s :
  tag_opens (Str.map newline_to_space s) = tag_opens s.
Proof.
  destruct s as [|c s]; simpl; [reflexivity|].
  rewrite contains_close_newline_to_space, newline_to_space_angle;
    [reflexivity | now right].
Qed.

Lemma has_tag_newline_to_space s :
  has_tag (Str.map newline_to_space s) = has_tag s.
Proof.
  induction s as [|c s IH]; simpl; [reflexivity|].
  rewrite IH, tag_opens_newline_to_space, newline_to_space_angle;
    [reflexivity | now left].
Qed.

Lemma tag_opens_app a b : tag_opens a = true -> tag_opens (a ++ b)%string = true.
Proof.
  destruct a as [|c a]; simpl; [discriminate|].
  rewrite contains_char_app.
  intros H. apply andb_true_iff in H as [-> ->]. reflexivity.
Qed.

Lemma has_tag_app_r a b : has_tag (a ++ b)%string = false -> has_tag b = false.
Proof.
  induction a as [|c a IH]; simpl; intros H; [exact H|].
  apply orb_false_iff in H as [_ H]. now apply IH.
Qed.

Lemma has_tag_app_l a b : has_tag (a ++ b)%string = false -> has_tag a = false.
Proof.
  induction a as [|c a IH]; simpl; intros H; [reflexivity|].
  apply orb_false_iff in H as [Hc H]. rewrite (IH H), orb_false_r.
  destruct (Ascii.eqb c "<"); [|reflexivity]. simpl in *.
  destruct (tag_opens a) eqn:Ha; [|reflexivity].
  now rewrite (tag_opens_app a b Ha) in Hc.
Qed.

Lemma has_tag_strip s : has_tag s = false -> has_tag (Str.strip s) = false.
Proof.
  intros H. unfold Str.strip.
  destruct (lstrip_suffix s) as [t Ht]. rewrite Ht in H.
  apply has_tag_app_r in H.
  destruct (rstrip_prefix (Str.lstrip s)) as [u Hu]. rewrite Hu in H.
  now apply has_tag_app_l in H.
Qed.

Lemma clean_html_no_tag value : has_tag (clean_html value) = false.
Proof.
  unfold clean_html. destruct (Str.truthy value); simpl; [|reflexivity].
  apply has_tag_strip.
  now rewrite replace_newline, has_tag_newline_to_space, has_tag_sub_tags.
Qed.

(* ------------------------------------------------------------------ *)
(** ** The [positions] dictionary of the inverted-index decoder *)
(* ------------------------------------------------------------------ *)

Section PositionsFacts.
  Implicit Types (d : Dict.t (K:=Z) (V:=string)) (p i : Z) (w word : string).

Lemma positions_get_set p i word d :
  Dict.get Z.eqb p (Dict.set Z.eqb i word d) =
  if Z.eqb p i then Some word else Dict.get Z.eqb p d.
Proof.
  induction d as [|[k v] d IH]; simpl.
  - reflexivity.
  - destruct (Z.eqb i k) eqn:Hik; simpl.
    + apply Z.eqb_eq in Hik. subst k.
      now destruct (Z.eqb p i).
    + rewrite IH. destruct (Z.eqb p k) eqn:Hpk; [|reflexivity].
      apply Z.eqb_eq in Hpk. subst k.
      rewrite Z.eqb_sym in Hik. now rewrite Hik.
Qed.

Lemma positions_contains_In p d :
  Dict.contains Z.eqb p d = true <-> In p (Dict.keys d).
Proof.
  unfold Dict.contains, Dict.keys. rewrite existsb_exists. split.
  - intros (k & Hin & Hk). apply Z.eqb_eq in Hk. now subst k.
  - intros Hin. exists p. split; [assumption | apply Z.eqb_refl].
Qed.

Lemma positions_keys_set i word d :
  Dict.keys (Dict.set Z.eqb i word d) =
  if Dict.contains Z.eqb i d then Dict.keys d else Dict.keys d ++ [i].
Proof.
  unfold Dict.contains, Dict.keys.
  induction d as [|[k v] d IH]; simpl; [reflexivity|].
  destruct (Z.eqb i k); simpl; [reflexivity|].
  rewrite IH. now destruct (existsb (Z.eqb i) (map fst d)).
Qed.

Lemma positions_keys_get p d :
  In p (Dict.keys d) <-> exists w, Dict.get Z.eqb p d = Some w.
Proof.
  induction d as [|[k v] d IH]; simpl.
  - split; [contradiction | intros [w H]; discriminate].
  - destruct (Z.eqb p k) eqn:Hpk.
    + apply Z.eqb_eq in Hpk. subst k. split; [now exists v | now left].
    + apply Z.eqb_neq in Hpk. rewrite <- IH. split; [|now right].
      intros [H|H]; [congruence | assumption].
Qed.

Lemma positions_set_NoDup i word d :
  NoDup (Dict.keys d) -> NoDup (Dict.keys (Dict.set Z.eqb i word d)).
Proof.
  intros Hnd. rewrite positions_keys_set.
  destruct (Dict.contains Z.eqb i d) eqn:Hc; [assumption|].
  apply NoDup_app; [assumption | repeat constructor; intros [] |].
  intros x Hx [<-|[]].
  apply positions_contains_In in Hx. congruence.
Qed.

(** The inner loop: one word written at each of its positions. *)
Lemma inner_loop_get word idxs :
  forall d p,
    Dict.get Z.eqb p
      (fold_left (fun positions idx => Dict.set Z.eqb idx word positions) idxs d) =
    if in_dec Z.eq_dec p idxs then Some word else Dict.get Z.eqb p d.
Proof.
  induction idxs as [|i idxs IH]; intros d p; simpl; [reflexivity|].
  rewrite IH, positions_get_set.
  destruct (in_dec Z.eq_dec p idxs) as [Hin|Hnin].
  - destruct (Z.eq_dec i p); reflexivity.
  - destruct (Z.eq_dec i p) as [->|Hne].
    + now rewrite Z.eqb_refl.
    + destruct (Z.eqb p i) eqn:Hpi; [|reflexivity].
      apply Z.eqb_eq in Hpi. congruence.
Qed.

Lemma inner_loop_NoDup word idxs :
  forall d,
    NoDup (Dict.keys d) ->
    NoDup (Dict.keys
      (fold_left (fun positions idx => Dict.set Z.eqb idx word positions) idxs d)).
Proof.
  induction idxs as [|i idxs IH]; intros d Hnd; simpl; [assumption|].
  now apply IH, positions_set_NoDup.
Qed.

Lemma fill_positions_cons word idxs index d :
  fill_positions ((word, idxs) :: index) d =
  fill_positions index
    (fold_left (fun positions idx => Dict.set Z.eqb idx word positions) idxs d).
Proof. reflexivity. Qed.

Lemma fill_positions_NoDup index :
  forall d, NoDup (Dict.keys d) -> NoDup (Dict.keys (fill_positions index d)).
Proof.
  induction index as [|[word idxs] index IH]; intros d Hnd; [assumption|].
  rewrite fill_positions_cons. now apply IH, inner_loop_NoDup.
Qed.

(** Every word in [positions] was written for a pair of the index. *)
Lemma fill_positions_sound index :
  forall d p w,
    Dict.get Z.eqb p (fill_positions index d) = Some w ->
    Dict.get Z.eqb p d = Some w \/ index_pair index p w.
Proof.
  induction index as [|[word idxs] index IH]; intros d p w H; [now left|].
  rewrite fill_positions_cons in H.
  destruct (IH _ _ _ H) as [Hd|(ps & Hin & Hp)].
  - rewrite inner_loop_get in Hd.
    destruct (in_dec Z.eq_dec p idxs) as [Hin|_]; [|now left].
    injection Hd as <-. right. exists idxs. split; [now left | assumption].
  - right. exists ps. split; [now right | assumption].
Qed.

(** A position once written stays a key. *)
Lemma fill_positions_keeps index :
  forall d p,
    (exists w, Dict.get Z.eqb p d = Some w) ->
    exists w, Dict.get Z.eqb p (fill_positions index d) = Some w.
Proof.
  induction index as [|[word idxs] index IH]; intros d p H; [assumption|].
  rewrite fill_positions_cons. apply IH. rewrite inner_loop_get.
  destruct (in_dec Z.eq_dec p idxs); [now exists word | assumption].
Qed.

(** Every position of the index is a key of [positions]. *)
Lemma fill_positions_complete index :
  forall d p w,
    index_pair index p w ->
    exists w', Dict.get Z.eqb p (fill_positions index d) = Some w'.
Proof.
  induction index as [|[word idxs] index IH]; intros d p w (ps & Hin & Hp).
  - contradiction.
  - rewrite fill_positions_cons. destruct Hin as [Heq|Hin].
    + injection Heq as <- <-. apply fill_positions_keeps.
      rewrite inner_loop_get.
      destruct (in_dec Z.eq_dec p idxs); [now exists word | contradiction].
    + apply (IH _ p w). now exists ps.
Qed.

End PositionsFacts.

(* ------------------------------------------------------------------ *)
(** ** Sorting the positions *)
(* ------------------------------------------------------------------ *)

Lemma insert_sorted_In x l z : In z (insert_sorted x l) <-> z = x \/ In z l.
Proof.
  induction l as [|y l IH]; simpl.
  - intuition congruence.
  - destruct (x <=? y)%Z; simpl; [intuition congruence|].
    rewrite IH. intuition congruence.
Qed.

Lemma sorted_In l z : In z (sorted l) <-> In z l.
Proof.
  induction l as [|x l IH]; simpl; [reflexivity|].
  rewrite insert_sorted_In, IH. intuition congruence.
Qed.

Lemma insert_sorted_strict x l :
  StronglySorted Z.lt l -> ~ In x l -> StronglySorted Z.lt (insert_sorted x l).
Proof.
  induction l as [|y l IH]; simpl; intros Hs Hx.
  - repeat constructor.
  - apply StronglySorted_inv in Hs as [Hs Hy].
    destruct (x <=? y)%Z eqn:Hxy.
    + apply Z.leb_le in Hxy.
      assert (Hlt : (x < y)%Z) by (assert (y <> x) by tauto; lia).
      constructor; [now constructor|].
      constructor; [assumption|].
      eapply Forall_impl; [|exact Hy]. intros z Hz. simpl in Hz. lia.
    + apply Z.leb_gt in Hxy.
      constructor; [apply IH; tauto|].
      apply Forall_forall. intros z Hz.
      apply insert_sorted_In in Hz as [->|Hz]; [assumption|].
      rewrite Forall_forall in Hy. now apply Hy.
Qed.

Lemma sorted_strict l : NoDup l -> StronglySorted Z.lt (sorted l).
Proof.
  induction l as [|x l IH]; simpl; intros Hnd; [constructor|].
  inversion Hnd; subst.
  apply insert_sorted_strict; [now apply IH|].
  now rewrite sorted_In.
Qed.

(* ------------------------------------------------------------------ *)
(** ** The inverted-index decoder *)
(* ------------------------------------------------------------------ *)

Lemma decode_openalex_abstract_unfold index :
  decode_openalex_abstract (Some index) =
  let positions := fill_positions index Dict.empty in
  Str.join " "
    (map (fun i => match Dict.get Z.eqb i positions with
                   | Some word => word
                   | None => ""
                   end)
         (sorted (Dict.keys positions))).
Proof. now destruct index. Qed.

(** C7 (as the code has it).  For an inverted index that encodes a
    text (no position is listed under two different words) the decoder
    returns the words of all (position, word) pairs, ordered by
    strictly ascending position and joined by single spaces; a missing
    or empty index gives the empty string; and the index of "Deep
    learning rocks" decodes to it. *)
Theorem decode_orders_pairs (index : list (string * list Z))
    (Htext : encodes_text index) :
  (exists pairs : list (Z * string),
      (forall p w, In (p, w) pairs <-> index_pair index p w)
      /\ StronglySorted Z.lt (map fst pairs)
      /\ decode_openalex_abstract (Some index) = Str.join " " (map snd pairs))
  /\ decode_openalex_abstract None = ""
  /\ decode_openalex_abstract (Some []) = ""
  /\ decode_openalex_abstract
       (Some [("Deep", [0%Z]); ("learning", [1%Z]); ("rocks", [2%Z])])
     = "Deep learning rocks".
Proof.
  split; [|repeat split; reflexivity].
  rewrite decode_openalex_abstract_unfold.
  set (positions := fill_positions index Dict.empty).
  set (word_at := fun i => match Dict.get Z.eqb i positions with
                           | Some word => word
                           | None => ""
                           end).
  assert (Hnd : NoDup (Dict.keys positions))
    by (apply fill_positions_NoDup; constructor).
  assert (Hget : forall p w, Dict.get Z.eqb p positions = Some w <-> index_pair index p w).
  { intros p w. split.
    - intros H. apply fill_positions_sound in H as [H|H]; [discriminate|assumption].
    - intros H.
      destruct (fill_positions_complete index Dict.empty p w H) as [w' Hw'].
      fold positions in Hw'. rewrite Hw'. f_equal.
      apply (Htext p); [|assumption].
      apply fill_positions_sound in Hw' as [Hw'|Hw']; [discriminate|assumption]. }
  exists (map (fun i => (i, word_at i)) (sorted (Dict.keys positions))).
  split; [|split].
  - intros p w. rewrite <- Hget, in_map_iff. split.
    + intros (i & Heq & Hin). injection Heq as -> <-.
      apply sorted_In, positions_keys_get in Hin as [w Hw].
      unfold word_at. now rewrite Hw.
    + intros Hw. exists p. split.
      * unfold word_at. now rewrite Hw.
      * apply sorted_In, positions_keys_get. now exists w.
  - rewrite map_map. simpl. rewrite map_id. now apply sorted_strict.
  - cbv zeta. now rewrite map_map.
Qed.

(** The index of "to be or not to be": [to] and [be] occur twice. *)
Lemma decode_orders_pairs_witness :
  exists pairs : list (Z * string),
    (forall p w,
        In (p, w) pairs <->
        index_pair [("to", [0; 4]%Z); ("be", [1; 5]%Z); ("or", [2%Z]); ("not", [3%Z])] p w)
    /\ StronglySorted Z.lt (map fst pairs)
    /\ decode_openalex_abstract
         (Some [("to", [0; 4]%Z); ("be", [1; 5]%Z); ("or", [2%Z]); ("not", [3%Z])])
       = Str.join " " (map snd pairs).
Proof.
  apply (decode_orders_pairs
           [("to", [0; 4]%Z); ("be", [1; 5]%Z); ("or", [2%Z]); ("not", [3%Z])]).
  intros p w w' (ps & Hin & Hp) (ps' & Hin' & Hp').
  simpl in Hin, Hin'.
  repeat (destruct Hin as [Hin|Hin]; [injection Hin as <- <-|]); try contradiction;
  repeat (destruct Hin' as [Hin'|Hin']; [injection Hin' as <- <-|]); try contradiction;
  simpl in Hp, Hp'; try reflexivity; exfalso; lia.
Defined.

Lemma join_holds_char x sep parts s :
  In s parts -> Str.contains_char x s = true ->
  Str.contains_char x (Str.join sep parts) = true.
Proof.
  induction parts as [|p parts IH]; [contradiction|].
  intros Hin Hs. destruct parts as [|q parts].
  - destruct Hin as [->|[]]. exact Hs.
  - change (Str.join sep (p :: q :: parts))
      with (p ++ sep ++ Str.join sep (q :: parts))%string.
    rewrite !contains_char_app. destruct Hin as [->|Hin].
    + now rewrite Hs.
    + rewrite (IH Hin Hs). now rewrite !orb_true_r.
Qed.

(** C7, where the claim fails.  In the mapping [{"a": [0], "b": [0]}]
    position 0 is listed under two words: the loop stores [b] over [a]
    and the decoder returns [b] alone.  The pairs (0, a) and (0, b)
    cannot be put in strictly ascending position order, and in no order
    at all is the output the join of the words of all pairs, since the
    word [a] is missing from it. *)
Lemma decode_contested_position :
  decode_openalex_abstract (Some [("a", [0%Z]); ("b", [0%Z])]) = "b"
  /\ ~ (exists pairs : list (Z * string),
           (forall p w, In (p, w) pairs <-> index_pair [("a", [0%Z]); ("b", [0%Z])] p w)
           /\ StronglySorted Z.lt (map fst pairs)
           /\ decode_openalex_abstract (Some [("a", [0%Z]); ("b", [0%Z])])
              = Str.join " " (map snd pairs))
  /\ (forall pairs : list (Z * string),
         (forall p w, In (p, w) pairs <-> index_pair [("a", [0%Z]); ("b", [0%Z])] p w) ->
         decode_openalex_abstract (Some [("a", [0%Z]); ("b", [0%Z])])
         <> Str.join " " (map snd pairs)).
Proof.
  assert (Hany : forall pairs : list (Z * string),
             (forall p w, In (p, w) pairs <-> index_pair [("a", [0%Z]); ("b", [0%Z])] p w) ->
             decode_openalex_abstract (Some [("a", [0%Z]); ("b", [0%Z])])
             <> Str.join " " (map snd pairs)).
  { intros pairs Hall Heq.
    assert (Hin : In (0%Z, "a") pairs).
    { apply Hall. exists [0%Z]. split; simpl; tauto. }
    assert (Hword : In "a" (map snd pairs))
      by (apply in_map_iff; now exists (0%Z, "a")).
    pose proof (join_holds_char "a"%char " " _ "a" Hword eq_refl) as Hjoin.
    rewrite <- Heq in Hjoin. discriminate Hjoin. }
  split; [reflexivity | split; [|exact Hany]].
  intros (pairs & Hall & _ & Heq). exact (Hany pairs Hall Heq).
Qed.

(* ------------------------------------------------------------------ *)
(** ** Newlines in abstracts *)
(* ------------------------------------------------------------------ *)

Lemma join_without_char x sep parts :
  Str.contains_char x sep = false ->
  (forall s, In s parts -> Str.contains_char x s = false) ->
  Str.contains_char x (Str.join sep parts) = false.
Proof.
  intros Hsep. induction parts as [|a [|b rest] IH]; intros Hparts.
  - reflexivity.
  - apply Hparts. now left.
  - change (Str.join sep (a :: b :: rest))
      with (a ++ sep ++ Str.join sep (b :: rest))%string.
    rewrite !contains_char_app, Hsep, (Hparts a (or_introl eq_refl)), IH;
      [reflexivity|].
    intros s Hs. apply Hparts. now right.
Qed.

Lemma join_two_has_separator_char x sep a b rest :
  Str.contains_char x sep = true ->
  Str.contains_char x (Str.join sep (a :: b :: rest)) = true.
Proof.
  intros Hsep.
  change (Str.join sep (a :: b :: rest))
    with (a ++ sep ++ Str.join sep (b :: rest))%string.
  now rewrite !contains_char_app, Hsep, orb_true_r.
Qed.

Lemma decode_openalex_abstract_no_newline index :
  (forall w idxs, In (w, idxs) index -> no_newline w) ->
  no_newline (decode_openalex_abstract (Some index)).
Proof.
  intros Hwords. unfold no_newline.
  rewrite decode_openalex_abstract_unfold. cbv zeta.
  apply join_without_char; [reflexivity|].
  intros s Hs. apply in_map_iff in Hs as (i & <- & _).
  destruct (Dict.get Z.eqb i (fill_positions index Dict.empty)) as [w|] eqn:Hw;
    [|reflexivity].
  apply fill_positions_sound in Hw as [Hw|(ps & Hin & _)]; [discriminate|].
  exact (Hwords _ _ Hin).
Qed.

(** C5 (as the code has it).  The abstract of a Crossref record, the
    output of [clean_html], holds no newline and no tag [<...>]; the
    abstract of an OpenAlex record holds no newline when no word of its
    index does; the abstract of a PubMed record is its non-empty
    trimmed segments joined by newline characters, so it holds a
    newline as soon as two segments are non-empty, and none when at
    most one segment is non-empty and the segments hold none. *)
Theorem abstract_newlines :
  (forall abstract_field,
      no_newline (crossref_abstract abstract_field)
      /\ has_tag (crossref_abstract abstract_field) = false)
  /\ (forall index,
         (forall w idxs, In (w, idxs) index -> no_newline w) ->
         no_newline (decode_openalex_abstract (Some index)))
  /\ no_newline (decode_openalex_abstract None)
  /\ (forall segments,
         2 <= List.length (filter Str.truthy (map Str.strip segments)) ->
         ~ no_newline (pubmed_abstract segments))
  /\ (forall segments,
         List.length (filter Str.truthy (map Str.strip segments)) <= 1 ->
         (forall s, In s segments -> no_newline s) ->
         no_newline (pubmed_abstract segments)).
Proof.
  split; [|split; [|split; [|split]]].
  - intros a. split; [apply clean_html_no_newline | apply clean_html_no_tag].
  - exact decode_openalex_abstract_no_newline.
  - reflexivity.
  - intros segments Hlen. unfold no_newline, pubmed_abstract.
    destruct (filter Str.truthy (map Str.strip segments)) as [|a [|b rest]];
      simpl in Hlen; try lia.
    rewrite join_two_has_separator_char; [discriminate | reflexivity].
  - intros segments Hlen Hs. unfold no_newline, pubmed_abstract.
    destruct (filter Str.truthy (map Str.strip segments)) as [|a [|b rest]] eqn:Hf;
      simpl in Hlen; try lia; [reflexivity|].
    assert (Hin : In a (filter Str.truthy (map Str.strip segments)))
      by (rewrite Hf; now left).
    apply filter_In in Hin as [Hin _].
    apply in_map_iff in Hin as (s0 & <- & Hin).
    simpl. apply contains_char_strip. now apply Hs.
Qed.

Lemma abstract_newlines_witness :
  ~ no_newline (pubmed_abstract ["Background: a."; "  "; "Methods: b."])
  /\ no_newline (pubmed_abstract ["  "; " Single segment. "])
  /\ no_newline (decode_openalex_abstract (Some [("Deep", [0%Z]); ("learning", [1%Z])])).
Proof.
  destruct abstract_newlines as (_ & Hopen & _ & Htwo & Hone).
  split; [|split].
  - apply Htwo. simpl. lia.
  - apply Hone; [simpl; lia|].
    intros s [<-|[<-|[]]]; reflexivity.
  - apply Hopen.
    intros w idxs [H|[H|[]]]; injection H as <- _; reflexivity.
Defined.

(** C5, where the claim fails.  A PubMed abstract of two segments
    holds a newline. *)
Lemma pubmed_abstract_newline :
  pubmed_abstract ["Background: a."; "Methods: b."]
  = ("Background: a." ++ newline ++ "Methods: b.")%string
  /\ ~ no_newline (pubmed_abstract ["Background: a."; "Methods: b."]).
Proof.
  split; [reflexivity|]. unfold no_newline. simpl. discriminate.
Qed.


(* ------------------------------------------------------------------ *)
(** ** The fetch loop *)
(* ------------------------------------------------------------------ *)

Section FetchLoop.
Variable F : Fetchers.

(** The loop over the keywords for one known source never raises: it
    appends the records of the pairs that succeed and logs the others. *)
Lemma keyword_loop source fetcher keywords :
  forall st,
    for_each keywords (fun keyword =>
      try_except
        (source_records <- call fetcher keyword ;; extend source_records)
        (fun exc => logging (LogErrorFailed source keyword exc))) st
    = (Ok tt,
       mkRunState (all_records st ++ flat_map (pair_records fetcher) keywords)
                  (run_log st ++ flat_map (pair_log source fetcher) keywords)).
Proof.
  induction keywords as [|k keywords IH]; intros [records log].
  - simpl. unfold ret. now rewrite !app_nil_r.
  - cbn [for_each flat_map]. unfold bind at 1.
    unfold try_except, bind, call, extend, logging, pair_records, pair_log.
    destruct (fetcher k) as [rs|exc]; rewrite IH; simpl;
      now rewrite <- ?app_assoc, ?app_nil_r.
Qed.

Lemma source_loop keywords sources :
  forall st,
    fetch_all F sources keywords st
    = (Ok tt,
       mkRunState (all_records st ++ combined_records F sources keywords)
                  (run_log st ++ combined_log F sources keywords)).
Proof.
  unfold fetch_all, combined_records, combined_log.
  induction sources as [|s sources IH]; intros [records log].
  - simpl. unfold ret. now rewrite !app_nil_r.
  - cbn [for_each flat_map]. unfold bind at 1.
    destruct (Dict.get String.eqb (Str.lower s) (fetchers F)) as [fetcher|].
    + rewrite keyword_loop, IH. simpl. now rewrite <- !app_assoc.
    + unfold logging at 1. rewrite IH. simpl. now rewrite <- !app_assoc.
Qed.

End FetchLoop.

(** C9.  Whatever the adapters return or raise, the loop of [main]
    runs to its end; the combined sequence is the concatenation, source
    by source and keyword by keyword, of what the successful calls
    returned, a call that raises contributing nothing and an error
    entry in the log; every record of a successful pair is in it; and a
    source without adapter is skipped with a warning. *)
Theorem failures_are_isolated (F : Fetchers) (sources keywords : list string) :
  fetch_all F sources keywords initial_state
  = (Ok tt, mkRunState (combined_records F sources keywords)
                       (combined_log F sources keywords))
  /\ (forall source keyword fetcher exc,
         Dict.get String.eqb (Str.lower source) (fetchers F) = Some fetcher ->
         fetcher keyword = Raise exc ->
         pair_records fetcher keyword = []
         /\ (In source sources -> In keyword keywords ->
             In (LogErrorFailed source keyword exc) (combined_log F sources keywords)))
  /\ (forall source keyword fetcher records r,
         In source sources -> In keyword keywords ->
         Dict.get String.eqb (Str.lower source) (fetchers F) = Some fetcher ->
         fetcher keyword = Ok records ->
         In r records ->
         In r (combined_records F sources keywords))
  /\ (forall source,
         In source sources ->
         Dict.get String.eqb (Str.lower source) (fetchers F) = None ->
         In (LogWarningUnsupported source) (combined_log F sources keywords)).
Proof.
  split; [|split; [|split]].
  - now rewrite source_loop.
  - intros source keyword fetcher exc Hf Hraise. split.
    + unfold pair_records. now rewrite Hraise.
    + intros Hs Hk. unfold combined_log.
      apply in_flat_map. exists source. split; [assumption|].
      rewrite Hf. apply in_flat_map. exists keyword. split; [assumption|].
      unfold pair_log. rewrite Hraise. now left.
  - intros source keyword fetcher records r Hs Hk Hf Hok Hr.
    unfold combined_records.
    apply in_flat_map. exists source. split; [assumption|].
    rewrite Hf. apply in_flat_map. exists keyword. split; [assumption|].
    unfold pair_records. now rewrite Hok.
  - intros source Hs Hnone. unfold combined_log.
    apply in_flat_map. exists source. split; [assumption|].
    rewrite Hnone. now left.
Qed.

(** A run in which Crossref fails for one keyword and one source is
    unknown: the record of the other Crossref call is kept, the failure
    and the unknown source are in the log. *)
Lemma failures_are_isolated_witness :
  In (mkPaperRecord "Crossref" "aortic stenosis" "T" "" "" "" "" "")
     (combined_records example_fetchers
        ["PubMed"; "scopus"; "Crossref"] ["aortic stenosis"; "deep learning"])
  /\ In (LogErrorFailed "Crossref" "deep learning" "ConnectionError")
        (combined_log example_fetchers
           ["PubMed"; "scopus"; "Crossref"] ["aortic stenosis"; "deep learning"])
  /\ In (LogWarningUnsupported "scopus")
        (combined_log example_fetchers
           ["PubMed"; "scopus"; "Crossref"] ["aortic stenosis"; "deep learning"]).
Proof.
  destruct (failures_are_isolated example_fetchers
              ["PubMed"; "scopus"; "Crossref"] ["aortic stenosis"; "deep learning"])
    as (_ & Hraise & Hok & Hskip).
  split; [|split].
  - apply (Hok "Crossref" "aortic stenosis" (fetch_crossref example_fetchers)
               [mkPaperRecord "Crossref" "aortic stenosis" "T" "" "" "" "" ""]);
      simpl; try reflexivity; tauto.
  - apply (Hraise "Crossref" "deep learning" (fetch_crossref example_fetchers));
      simpl; try reflexivity; tauto.
  - apply Hskip; simpl; try reflexivity; tauto.
Defined.

(* ------------------------------------------------------------------ *)
(** ** Date assembly *)
(* ------------------------------------------------------------------ *)

Lemma decimal_char_cases c : is_decimal_char c = true -> In c decimal_chars.
Proof.
  destruct c as [[] [] [] [] [] [] [] []]; intros H;
    solve [discriminate H | unfold decimal_chars; simpl; tauto].
Qed.

Lemma short_number_cases s :
  short_number s = true ->
  (exists c, In c decimal_chars /\ s = String c "")
  \/ (exists c1 c2, In c1 decimal_chars /\ In c2 decimal_chars
                    /\ s = String c1 (String c2 "")).
Proof.
  unfold short_number. intros H. apply orb_true_iff in H as [H|H].
  - left. destruct s as [|c [|c' s']]; simpl in H; try discriminate.
    + exists c. rewrite andb_true_r in H. split; [now apply decimal_char_cases | reflexivity].
    + now rewrite andb_false_r in H.
  - right. destruct s as [|c1 [|c2 [|c3 s']]]; simpl in H; try discriminate.
    + now rewrite andb_false_r in H.
    + rewrite andb_true_r in H. apply andb_true_iff in H as [H1 H2].
      exists c1, c2. repeat split; now try apply decimal_char_cases.
    + now rewrite !andb_false_r in H.
Qed.

(** A number of one or two digits is read as a value below 100. *)
Lemma py_int_short_number s :
  short_number s = true -> exists z, py_int s = Ok z /\ (0 <= z < 100)%Z.
Proof.
  intros H. apply short_number_cases in H as [(c & Hc & ->)|(c1 & c2 & H1 & H2 & ->)].
  - unfold decimal_chars in Hc. simpl in Hc.
    repeat (destruct Hc as [<-|Hc]; [eexists; split; [vm_compute; reflexivity | lia]|]).
    contradiction.
  - unfold decimal_chars in H1, H2. simpl in H1.
    repeat (destruct H1 as [<-|H1];
            [simpl in H2;
             repeat (destruct H2 as [<-|H2]; [eexists; split; [vm_compute; reflexivity | lia]|]);
             contradiction|]).
    contradiction.
Qed.

(** A value below 100 is written with two digits. *)
Lemma format_02d_two_digits z :
  (0 <= z < 100)%Z -> has_shape "DD" (format_02d z) = true.
Proof.
  intros Hz.
  assert (Hall : forallb (fun n => has_shape "DD" (format_02d (Z.of_nat n)))
                         (seq 0 100) = true) by (vm_compute; reflexivity).
  rewrite forallb_forall in Hall.
  rewrite <- (Z2Nat.id z) by lia. apply Hall, in_seq. lia.
Qed.

Lemma has_shape_app t1 t2 s1 s2 :
  has_shape t1 s1 = true -> has_shape t2 s2 = true ->
  has_shape (t1 ++ t2) (s1 ++ s2) = true.
Proof.
  revert s1. induction t1 as [|t t1 IH]; intros [|c s1]; simpl; try discriminate.
  - auto.
  - intros H1 H2. apply andb_true_iff in H1 as [-> H1]. now apply IH.
Qed.

Lemma isdigit_char_lower c :
  Str.isdigit_char c = true -> Str.isdigit_char (Str.lower_char c) = true.
Proof. destruct c as [[] [] [] [] [] [] [] []]; intros H; solve [discriminate H | reflexivity]. Qed.

(** A token that starts like a month name is not a number. *)
Lemma month_name_not_digit m n :
  In (Str.lower (Str.take 3 m), n) month_abbr ->
  Str.truthy m = true /\ Str.isdigit m = false.
Proof.
  intros Hin.
  destruct m as [|c m];
    [unfold month_abbr in Hin; simpl in Hin; intuition discriminate|].
  split; [reflexivity|].
  unfold Str.isdigit. simpl.
  destruct (Str.isdigit_char c) eqn:Hc; [|reflexivity].
  apply isdigit_char_lower in Hc. exfalso.
  unfold month_abbr, Str.lower in Hin. simpl in Hin.
  repeat (destruct Hin as [Hin|Hin];
          [injection Hin as Hk _ _;
           rewrite <- Hk in Hc; vm_compute in Hc; discriminate Hc|]).
  contradiction.
Qed.

Lemma strptime_b_abbr data n :
  In (Str.lower data, n) month_abbr -> strptime_b data = Ok n.
Proof.
  intros Hin. unfold strptime_b.
  unfold month_abbr in Hin. simpl in Hin.
  repeat (destruct Hin as [Hin|Hin];
          [injection Hin as Hk <-; rewrite <- Hk; reflexivity|]).
  contradiction.
Qed.

Lemma strptime_b_month data n :
  strptime_b data = Ok n -> (1 <= n <= 12)%Z.
Proof.
  unfold strptime_b.
  destruct (find _ month_abbr) as [[k v]|] eqn:Hf; [|discriminate].
  intros H. injection H as ->.
  apply find_some in Hf as [Hin _]. unfold month_abbr in Hin. simpl in Hin.
  repeat (destruct Hin as [Hin|Hin]; [injection Hin as _ <-; lia|]).
  contradiction.
Qed.

(** The month after the conversion block: absent, or one or two
    digits. *)
Lemma month_token_cases month :
  well_formed_month month = true ->
  Str.truthy_opt (month_token month) = false
  \/ exists t, month_token month = Some t /\ short_number t = true.
Proof.
  destruct month as [m|]; [|now left].
  unfold well_formed_month, month_token. intros Hwf.
  destruct (Str.truthy m && negb (Str.isdigit m)) eqn:Hname.
  - destruct (strptime_b (Str.take 3 m)) as [n|e] eqn:Hn; [|now left].
    right. exists (format_02d n). split; [reflexivity|].
    apply strptime_b_month in Hn. unfold short_number.
    rewrite (format_02d_two_digits n) by lia. apply orb_true_r.
  - destruct (Str.isdigit m) eqn:Hd.
    + right. exists m. split; [reflexivity | exact Hwf].
    + left. simpl. rewrite andb_true_r in Hname. exact Hname.
Qed.

Lemma short_number_truthy t : short_number t = true -> Str.truthy t = true.
Proof. now destruct t. Qed.

Lemma four_granularity_month y mm :
  has_shape "DDDD" y = true -> has_shape "DD" mm = true ->
  four_granularity (y ++ "-" ++ mm) = true.
Proof.
  intros Hy Hmm. unfold four_granularity.
  pose proof (has_shape_app "DDDD" "-DD" y ("-" ++ mm) Hy Hmm) as H.
  change ("DDDD" ++ "-DD")%string with "DDDD-DD" in H.
  now rewrite H, !orb_true_r.
Qed.

Lemma four_granularity_day y mm dd :
  has_shape "DDDD" y = true -> has_shape "DD" mm = true -> has_shape "DD" dd = true ->
  four_granularity (y ++ "-" ++ mm ++ "-" ++ dd) = true.
Proof.
  intros Hy Hmm Hdd. unfold four_granularity.
  pose proof (has_shape_app "-DD" "-DD" ("-" ++ mm) ("-" ++ dd) Hmm Hdd) as Htail.
  pose proof (has_shape_app "DDDD" "-DD-DD" y _ Hy Htail) as H.
  change ("DDDD" ++ "-DD-DD")%string with "DDDD-DD-DD" in H.
  change (("-" ++ mm) ++ "-" ++ dd)%string with ("-" ++ mm ++ "-" ++ dd)%string in H.
  now rewrite H.
Qed.

(** The shapes of the output on well-formed parts. *)
Lemma extract_pubmed_date_shape article p :
  selected_pub_date article = Some p ->
  well_formed_year (Year p) = true ->
  well_formed_month (Month p) = true ->
  well_formed_day (Day p) = true ->
  exists s, extract_pubmed_date article = Ok s /\ four_granularity s = true.
Proof.
  intros Hsel Hy Hm Hd. unfold extract_pubmed_date. rewrite Hsel.
  destruct (Year p) as [y|]; [|exists ""; now split].
  destruct (Str.truthy y) eqn:Hty; [|exists ""; simpl; rewrite Hty; now split].
  unfold well_formed_year in Hy. rewrite Hty in Hy.
  change (has_shape "DDDD" y = true) in Hy.
  cbn [Str.truthy_opt Str.or_empty]. rewrite Hty. cbn [andb].
  destruct (month_token_cases _ Hm) as [Hnone|(t & Ht & Hshort)].
  - rewrite Hnone. exists y. split; [reflexivity|].
    unfold four_granularity. now rewrite Hy, !orb_true_r.
  - rewrite Ht. cbn [Str.truthy_opt Str.or_empty].
    rewrite (short_number_truthy _ Hshort).
    destruct (py_int_short_number _ Hshort) as (mz & Hmz & Hmr).
    rewrite Hmz.
    pose proof (format_02d_two_digits mz Hmr) as Hmm.
    assert (Hday : Str.truthy_opt (Day p) = false
                   \/ exists d, Day p = Some d /\ short_number d = true).
    { destruct (Day p) as [d|]; [|now left]. unfold well_formed_day in Hd.
      destruct (Str.truthy d) eqn:Htd; [right|now left].
      exists d. split; [reflexivity | exact Hd]. }
    destruct Hday as [Hnoday|(d & Hday & Hds)].
    + rewrite Hnoday. cbn [andb].
      eexists. split; [reflexivity|].
      now apply four_granularity_month.
    + rewrite Hday. cbn [Str.truthy_opt Str.or_empty].
      rewrite (short_number_truthy _ Hds). cbn [andb].
      destruct (py_int_short_number _ Hds) as (dz & Hdz & Hdr).
      rewrite Hdz.
      pose proof (format_02d_two_digits dz Hdr) as Hdd.
      eexists. split; [reflexivity|].
      now apply four_granularity_day.
Qed.

(** C6 (as the code has it).  A month token whose first three letters
    are a month abbreviation, in any letter case, becomes the two-digit
    number of the month.  When the token is not a number and the
    conversion fails, the month counts as missing and the result is the
    year alone (empty without a year), whether or not a day is present,
    and nothing is raised.  On parts as PubMed writes them (a year of
    four digits, a month name or a month of one or two digits, a day of
    one or two digits) the result is one of [YYYY-MM-DD], [YYYY-MM],
    [YYYY] or empty; without a date element it is empty. *)
Theorem pubmed_date_assembly :
  (forall m n,
      In (Str.lower (Str.take 3 m), n) month_abbr ->
      month_token (Some m) = Some (format_02d n)
      /\ has_shape "DD" (format_02d n) = true)
  /\ (forall article year m day e,
         selected_pub_date article = Some (mkPubDate year (Some m) day) ->
         Str.truthy m = true -> Str.isdigit m = false ->
         strptime_b (Str.take 3 m) = Raise e ->
         extract_pubmed_date article = Ok (Str.or_empty year))
  /\ (forall article p,
         selected_pub_date article = Some p ->
         well_formed_year (Year p) = true ->
         well_formed_month (Month p) = true ->
         well_formed_day (Day p) = true ->
         exists s, extract_pubmed_date article = Ok s /\ four_granularity s = true)
  /\ (forall article,
         selected_pub_date article = None -> extract_pubmed_date article = Ok "").
Proof.
  split; [|split; [|split]].
  - intros m n Hin.
    destruct (month_name_not_digit m n Hin) as [Ht Hd].
    unfold month_token. rewrite Ht, Hd, (strptime_b_abbr _ _ Hin). simpl.
    split; [reflexivity|].
    pose proof (strptime_b_month _ _ (strptime_b_abbr _ _ Hin)) as Hn.
    apply format_02d_two_digits. lia.
  - intros article year m day e Hsel Ht Hd Hfail.
    unfold extract_pubmed_date. rewrite Hsel. cbn [Year Month Day].
    unfold month_token. rewrite Ht, Hd, Hfail. cbn [andb negb Str.truthy_opt].
    rewrite !andb_false_r.
    destruct year as [y|]; [|reflexivity].
    simpl. now destruct (Str.truthy y).
  - exact extract_pubmed_date_shape.
  - intros article Hsel. unfold extract_pubmed_date. now rewrite Hsel.
Qed.

(** The dates of the specification's examples, and an unknown month
    name with a day. *)
Lemma pubmed_date_assembly_witness :
  month_token (Some "March") = Some "03"
  /\ extract_pubmed_date
       (mkArticleDates (Some (mkPubDate (Some "2024") (Some "Easter") (Some "5"))) None)
     = Ok "2024"
  /\ (exists s,
         extract_pubmed_date
           (mkArticleDates None (Some (mkPubDate (Some "2024") (Some "Mar") (Some "5"))))
         = Ok s /\ four_granularity s = true)
  /\ extract_pubmed_date (mkArticleDates None None) = Ok "".
Proof.
  destruct pubmed_date_assembly as (Hname & Hfail & Hshape & Hnone).
  split; [|split; [|split]].
  - apply (proj1 (Hname "March" 3%Z ltac:(simpl; tauto))).
  - apply (Hfail _ (Some "2024") "Easter" (Some "5") "ValueError"); reflexivity.
  - apply (Hshape _ (mkPubDate (Some "2024") (Some "Mar") (Some "5"))); reflexivity.
  - apply Hnone. reflexivity.
Defined.

(** C6, where the claim fails.  A month of three digits is written out
    as it is, which is none of the four shapes. *)
Lemma pubmed_date_long_month :
  extract_pubmed_date
    (mkArticleDates (Some (mkPubDate (Some "2024") (Some "123") None)) None)
  = Ok "2024-123"
  /\ four_granularity "2024-123" = false.
Proof. split; reflexivity. Qed.

(* ================================================================== *)
(** * Further properties of the code *)
(* ================================================================== *)

(* ------------------------------------------------------------------ *)
(** ** Trimming *)
(* ------------------------------------------------------------------ *)

Lemma rstrip_cons_nonempty c t c' r' :
  Str.rstrip t = String c' r' -> Str.rstrip (String c t) = String c (String c' r').
Proof. intros H. cbn [Str.rstrip]. now rewrite H. Qed.

Lemma rstrip_idempotent s : Str.rstrip (Str.rstrip s) = Str.rstrip s.
Proof.
  induction s as [|c s IH]; [reflexivity|].
  cbn [Str.rstrip]. destruct (Str.rstrip s) as [|c' r'] eqn:Hr.
  - destruct (Str.isspace c) eqn:Hc; [reflexivity|].
    cbn [Str.rstrip]. now rewrite Hc.
  - now apply rstrip_cons_nonempty.
Qed.

(** [rstrip] keeps a first character that is not a space. *)
Lemma rstrip_head c s :
  Str.isspace c = false -> exists r, Str.rstrip (String c s) = String c r.
Proof.
  intros Hc. cbn [Str.rstrip].
  destruct (Str.rstrip s) as [|c' r']; [|now eexists].
  rewrite Hc. now eexists.
Qed.

(** What [lstrip] returns is empty or starts with a character that is
    not a space. *)
Lemma lstrip_head s :
  Str.lstrip s = "" \/ exists c r, Str.lstrip s = String c r /\ Str.isspace c = false.
Proof.
  induction s as [|c s IH]; [now left|].
  cbn [Str.lstrip]. destruct (Str.isspace c) eqn:Hc; [exact IH|].
  right. now exists c, s.
Qed.

Lemma strip_idempotent s : Str.strip (Str.strip s) = Str.strip s.
Proof.
  unfold Str.strip.
  destruct (lstrip_head s) as [->|(c & r & -> & Hc)]; [reflexivity|].
  destruct (rstrip_head c r Hc) as [r' Hr]. rewrite Hr.
  cbn [Str.lstrip]. rewrite Hc, <- Hr. apply rstrip_idempotent.
Qed.

(* ------------------------------------------------------------------ *)
(** ** Command-line lists *)
(* ------------------------------------------------------------------ *)

Lemma split_char_nonempty sep s : split_char sep s <> [].
Proof.
  destruct s as [|c s]; simpl; [discriminate|].
  destruct (Ascii.eqb c sep); [discriminate|].
  destruct (split_char sep s); discriminate.
Qed.

Lemma split_char_no_sep sep s :
  forall piece, In piece (split_char sep s) -> Str.contains_char sep piece = false.
Proof.
  induction s as [|c s IH]; simpl; intros piece Hin.
  - destruct Hin as [<-|[]]. reflexivity.
  - destruct (Ascii.eqb c sep) eqn:Hc.
    + destruct Hin as [<-|Hin]; [reflexivity | now apply IH].
    + destruct (split_char sep s) as [|p ps].
      * destruct Hin as [<-|[]]. simpl. now rewrite Hc.
      * destruct Hin as [<-|Hin].
        -- simpl. rewrite Hc. apply IH. now left.
        -- apply IH. now right.
Qed.

(** Text without the separator is one piece. *)
Lemma split_char_whole sep a :
  Str.contains_char sep a = false -> split_char sep a = [a].
Proof.
  induction a as [|c a IH]; simpl; intros H; [reflexivity|].
  apply orb_false_iff in H as [Hc Ha]. now rewrite Hc, (IH Ha).
Qed.

(** Text without the separator, then the separator: the text is the
    first piece. *)
Lemma split_char_app sep a rest :
  Str.contains_char sep a = false ->
  split_char sep (a ++ String sep rest) = a :: split_char sep rest.
Proof.
  induction a as [|c a IH]; simpl; intros H.
  - now rewrite Ascii.eqb_refl.
  - apply orb_false_iff in H as [Hc Ha]. now rewrite Hc, (IH Ha).
Qed.

Lemma split_char_join sep raws :
  raws <> [] ->
  Forall (fun raw => Str.contains_char sep raw = false) raws ->
  split_char sep (Str.join (String sep "") raws) = raws.
Proof.
  intros Hne Hall. induction Hall as [|a rest Ha Hrest IH]; [congruence|].
  destruct rest as [|b rest].
  - simpl. now apply split_char_whole.
  - change (Str.join (String sep "") (a :: b :: rest))
      with (a ++ String sep (Str.join (String sep "") (b :: rest)))%string.
    rewrite (split_char_app _ _ _ Ha). f_equal. apply IH. discriminate.
Qed.

Lemma filter_map_strip raws :
  map Str.strip (filter (fun item => Str.truthy (Str.strip item)) raws)
  = filter Str.truthy (map Str.strip raws).
Proof.
  induction raws as [|a raws IH]; simpl; [reflexivity|].
  destruct (Str.truthy (Str.strip a)); simpl; now rewrite IH.
Qed.

(** X1.  Every item that [normalize_list_argument] returns is non-empty,
    trimmed (trimming it again changes nothing) and free of commas;
    the empty string and a string of separators give no item. *)
Theorem normalize_list_argument_items (value : string) :
  (forall item,
      In item (normalize_list_argument value) ->
      item <> ""
      /\ Str.strip item = item
      /\ Str.contains_char "," item = false)
  /\ normalize_list_argument "" = []
  /\ normalize_list_argument " , ,," = [].
Proof.
  split; [|split; reflexivity].
  intros item Hin. unfold normalize_list_argument in Hin.
  apply in_map_iff in Hin as (raw & <- & Hin).
  apply filter_In in Hin as [Hin Ht].
  split; [|split].
  - intros H. now rewrite H in Ht.
  - apply strip_idempotent.
  - apply contains_char_strip. now apply (split_char_no_sep _ value).
Qed.

(** X2.  Parsing undoes joining with commas: for texts without comma,
    [normalize_list_argument] of their comma-joined string is the list
    of the trimmed texts without the empty ones, in order. *)
Theorem normalize_list_argument_join (raws : list string) :
  Forall (fun raw => Str.contains_char "," raw = false) raws ->
  normalize_list_argument (Str.join "," raws) = filter Str.truthy (map Str.strip raws).
Proof.
  intros Hall. unfold normalize_list_argument. rewrite filter_map_strip.
  destruct raws as [|a raws]; [reflexivity|].
  now rewrite (split_char_join "," (a :: raws)).
Qed.

(** The default keyword list of the program. *)
Lemma normalize_list_argument_join_witness :
  normalize_list_argument
    (Str.join "," ["aortic stenosis"; " mitral regurgitation"; " "; " deep learning"])
  = ["aortic stenosis"; "mitral regurgitation"; "deep learning"].
Proof.
  apply (normalize_list_argument_join
           ["aortic stenosis"; " mitral regurgitation"; " "; " deep learning"]).
  repeat constructor.
Defined.

Lemma normalize_list_argument_items_witness :
  "deep learning" <> ""
  /\ Str.strip "deep learning" = "deep learning"
  /\ Str.contains_char "," "deep learning" = false.
Proof.
  apply (proj1 (normalize_list_argument_items "aortic stenosis , deep learning ,")).
  simpl. tauto.
Defined.

(* ------------------------------------------------------------------ *)
(** ** More on the Deduplicator *)
(* ------------------------------------------------------------------ *)

(** The first record of the input with the key of a given record. *)
Lemma first_occurrence r rs :
  In r rs ->
  exists pre r' post,
    rs = pre ++ r' :: post
    /\ identity_key r' = identity_key r
    /\ (forall x, In x pre -> identity_key x <> identity_key r).
Proof.
  induction rs as [|x rs IH]; [contradiction|]. intros Hin.
  destruct (String.eqb (identity_key x) (identity_key r)) eqn:Hk.
  - apply String.eqb_eq in Hk. exists [], x, rs. repeat split; [assumption|].
    intros y [].
  - apply String.eqb_neq in Hk.
    destruct Hin as [->|Hin]; [congruence|].
    destruct (IH Hin) as (pre & r' & post & -> & Hr' & Hpre).
    exists (x :: pre), r', post. repeat split; [assumption|].
    intros y [<-|Hy]; [assumption | now apply Hpre].
Qed.

Lemma first_seen_covers r rs :
  In r rs ->
  exists pre r' post,
    rs = pre ++ r' :: post
    /\ identity_key r' = identity_key r
    /\ (forall x, In x pre -> identity_key x <> identity_key r)
    /\ In r' (first_seen rs).
Proof.
  intros Hin.
  destruct (first_occurrence r rs Hin) as (pre & r' & post & -> & Hr' & Hpre).
  exists pre, r', post. repeat split; try assumption.
  unfold first_seen. rewrite first_seen_after_app. apply in_or_app. right.
  simpl.
  destruct (existsb (fun x => String.eqb (identity_key x) (identity_key r')) pre) eqn:Hc.
  - exfalso. apply existsb_exists in Hc as (x & Hx & Hk).
    apply String.eqb_eq in Hk. apply (Hpre x Hx). congruence.
  - now left.
Qed.

(** The retained records carry the same keys as the input. *)
Lemma first_seen_same_keys rs k :
  existsb (fun r' => String.eqb (identity_key r') k) (first_seen rs)
  = existsb (fun r' => String.eqb (identity_key r') k) rs.
Proof.
  apply eq_iff_eq_true. rewrite !collides_iff_In, !in_map_iff. split.
  - intros (r & Hk & Hin). exists r. split; [assumption|].
    now apply (first_seen_after_incl rs []).
  - intros (r & Hk & Hin).
    destruct (first_seen_covers r rs Hin) as (_ & r' & _ & _ & Hr' & _ & Hin').
    exists r'. split; [congruence | assumption].
Qed.

(** Records already passed split in two: retention after both parts is
    retention after the second part, less the records that collide with
    the first part. *)
Lemma first_seen_after_split l :
  forall e e',
    first_seen_after (e ++ e') l =
    filter (fun r => negb (existsb (fun r' => String.eqb (identity_key r') (identity_key r)) e))
           (first_seen_after e' l).
Proof.
  induction l as [|r l IH]; intros e e'; [reflexivity|].
  cbn [first_seen_after]. rewrite collides_app, filter_app.
  rewrite <- app_assoc, IH.
  f_equal.
  destruct (existsb (fun r' => String.eqb (identity_key r') (identity_key r)) e') eqn:He'.
  - now rewrite orb_true_r.
  - rewrite orb_false_r. simpl.
    now destruct (existsb (fun r' => String.eqb (identity_key r') (identity_key r)) e).
Qed.

(** X3.  No identity is lost: for every record of the input, the
    first input record with the same identity key is in the output of
    [deduplicate_records]. *)
Theorem dedup_covers_every_key (records : list PaperRecord) (r : PaperRecord) :
  In r records ->
  exists pre r' post,
    records = pre ++ r' :: post
    /\ identity_key r' = identity_key r
    /\ (forall x, In x pre -> identity_key x <> identity_key r)
    /\ In r' (deduplicate_records records).
Proof.
  intros Hin. rewrite deduplicate_records_first_seen.
  now apply first_seen_covers.
Qed.

Lemma dedup_covers_every_key_witness :
  exists pre r' post,
    [mkPaperRecord "PubMed" "k" "A" "" "10.1/X" "2024" "" "";
     mkPaperRecord "Crossref" "k" "B" "" "10.1/x" "2023" "" ""]
    = pre ++ r' :: post
    /\ identity_key r'
       = identity_key (mkPaperRecord "Crossref" "k" "B" "" "10.1/x" "2023" "" "")
    /\ (forall x, In x pre ->
          identity_key x
          <> identity_key (mkPaperRecord "Crossref" "k" "B" "" "10.1/x" "2023" "" ""))
    /\ In r' (deduplicate_records
                [mkPaperRecord "PubMed" "k" "A" "" "10.1/X" "2024" "" "";
                 mkPaperRecord "Crossref" "k" "B" "" "10.1/x" "2023" "" ""]).
Proof.
  apply dedup_covers_every_key. simpl. tauto.
Defined.

(** X4.  Deduplication works batch by batch: the output for [a ++ b]
    is the output for [a] followed by the output for [b] without the
    records whose key occurs in [a]; and deduplicating a deduplicated
    batch together with a new one gives the same as deduplicating both
    inputs together. *)
Theorem dedup_by_batches (a b : list PaperRecord) :
  deduplicate_records (a ++ b)
  = deduplicate_records a
    ++ filter (fun r => negb (existsb (fun r' => String.eqb (identity_key r') (identity_key r)) a))
              (deduplicate_records b)
  /\ deduplicate_records (deduplicate_records a ++ b) = deduplicate_records (a ++ b).
Proof.
  rewrite !deduplicate_records_first_seen.
  assert (Hab : first_seen (a ++ b) = first_seen a ++ first_seen_after a b).
  { unfold first_seen. now rewrite first_seen_after_app. }
  split.
  - rewrite Hab. f_equal.
    rewrite <- (app_nil_r a) at 1. apply first_seen_after_split.
  - rewrite Hab. unfold first_seen at 1. rewrite first_seen_after_app. simpl.
    f_equal.
    + apply first_seen_after_fixed. simpl. apply first_seen_after_NoDup.
    + apply first_seen_after_ext. intros k. apply first_seen_same_keys.
Qed.

(* ------------------------------------------------------------------ *)
(** ** The DOI identity *)
(* ------------------------------------------------------------------ *)

Lemma lower_length s : String.length (Str.lower s) = String.length s.
Proof. unfold Str.lower. induction s as [|c s IH]; simpl; congruence. Qed.

Lemma lower_app a b : Str.lower (a ++ b) = (Str.lower a ++ Str.lower b)%string.
Proof. unfold Str.lower. induction a as [|c a IH]; simpl; congruence. Qed.

Lemma append_length a b : String.length (a ++ b) = String.length a + String.length b.
Proof. induction a as [|c a IH]; simpl; congruence. Qed.

(** X5.  Two records that both have a DOI collapse exactly when their
    DOIs are equal up to letter case, whatever their titles and dates;
    the DOI is not trimmed at this point, so a DOI followed by a space
    is another identity. *)
Theorem doi_identity (r1 r2 : PaperRecord) :
  doi r1 <> "" -> doi r2 <> "" ->
  (deduplicate_records [r1; r2] = [r1] <-> Str.lower (doi r1) = Str.lower (doi r2))
  /\ (Str.lower (doi r1) <> Str.lower (doi r2) ->
      deduplicate_records [r1; r2] = [r1; r2])
  /\ (doi r2 = (doi r1 ++ " ")%string -> deduplicate_records [r1; r2] = [r1; r2]).
Proof.
  intros H1 H2. rewrite dedup_pair, (identity_key_doi _ H1), (identity_key_doi _ H2).
  destruct (String.eqb (Str.lower (doi r1)) (Str.lower (doi r2))) eqn:Hk.
  - apply String.eqb_eq in Hk. split; [|split].
    + tauto.
    + congruence.
    + intros Hsp. exfalso. rewrite Hsp, lower_app in Hk.
      apply (f_equal String.length) in Hk.
      rewrite append_length in Hk. simpl in Hk. lia.
  - apply String.eqb_neq in Hk. split; [|split].
    + split; [intros H; inversion H | congruence].
    + reflexivity.
    + reflexivity.
Qed.

Lemma doi_identity_witness :
  deduplicate_records
    [mkPaperRecord "PubMed" "k" "A" "" "10.1016/S0140" "2024" "" "";
     mkPaperRecord "Crossref" "k" "B" "" "10.1016/s0140" "2023-01" "" ""]
  = [mkPaperRecord "PubMed" "k" "A" "" "10.1016/S0140" "2024" "" ""].
Proof.
  apply (doi_identity
           (mkPaperRecord "PubMed" "k" "A" "" "10.1016/S0140" "2024" "" "")
           (mkPaperRecord "Crossref" "k" "B" "" "10.1016/s0140" "2023-01" "" ""));
    simpl; solve [discriminate | reflexivity].
Defined.

(* ------------------------------------------------------------------ *)
(** ** Markup stripping, again *)
(* ------------------------------------------------------------------ *)

Lemma sub_tags_no_tag s : has_tag s = false -> sub_tags false s = s.
Proof.
  induction s as [|c s IH]; simpl; intros H; [reflexivity|].
  apply orb_false_iff in H as [Hc Hs]. now rewrite Hc, (IH Hs).
Qed.

Lemma newline_to_space_no_newline s :
  no_newline s -> Str.map newline_to_space s = s.
Proof.
  unfold no_newline. induction s as [|c s IH]; simpl; intros H; [reflexivity|].
  apply orb_false_iff in H as [Hc Hs].
  unfold newline_to_space at 1. now rewrite Hc, (IH Hs).
Qed.

Lemma clean_html_trimmed value : Str.strip (clean_html value) = clean_html value.
Proof.
  unfold clean_html. destruct (Str.truthy value); simpl; [|reflexivity].
  apply strip_idempotent.
Qed.

(** X6.  [clean_html] is idempotent and its output is trimmed; text in
    which no tag starts only has its newlines replaced and its ends
    trimmed. *)
Theorem clean_html_idempotent (value : string) :
  clean_html (clean_html value) = clean_html value
  /\ Str.strip (clean_html value) = clean_html value
  /\ (has_tag value = false ->
      clean_html value = Str.strip (Str.replace newline " " value)).
Proof.
  split; [|split].
  - set (t := clean_html value).
    assert (Ht : clean_html t = Str.strip (Str.replace newline " " (sub_tags false t))).
    { unfold clean_html at 1. now destruct t. }
    rewrite Ht, sub_tags_no_tag by apply clean_html_no_tag.
    rewrite replace_newline, newline_to_space_no_newline by apply clean_html_no_newline.
    apply clean_html_trimmed.
  - apply clean_html_trimmed.
  - intros Hno. unfold clean_html. rewrite (sub_tags_no_tag _ Hno).
    now destruct value.
Qed.

Lemma clean_html_idempotent_witness :
  clean_html "  > 2 mm and p < 0.05  " = Str.strip (Str.replace newline " " "  > 2 mm and p < 0.05  ").
Proof.
  apply (proj2 (proj2 (clean_html_idempotent "  > 2 mm and p < 0.05  "))). reflexivity.
Defined.

Lemma sub_tags_inside b c :
  Str.contains_char ">" b = false ->
  sub_tags true (b ++ String ">" c) = sub_tags false c.
Proof.
  induction b as [|x b IH]; simpl; intros H; [reflexivity|].
  apply orb_false_iff in H as [Hx Hb]. rewrite Hx. simpl. now apply IH.
Qed.

Lemma sub_tags_before a rest :
  Str.contains_char "<" a = false ->
  sub_tags false (a ++ rest) = (a ++ sub_tags false rest)%string.
Proof.
  induction a as [|x a IH]; simpl; intros H; [reflexivity|].
  apply orb_false_iff in H as [Hx Ha]. rewrite Hx. simpl. now rewrite (IH Ha).
Qed.

(** X7.  What counts as a tag: a [<], then at least one character, up
    to the first [>].  The tag disappears with all it encloses, markup
    or not, and the text before it is kept as it is; a [<] directly
    followed by [>], or with no [>] after it, stays. *)
Theorem sub_tags_removes_enclosed (a b c : string) :
  Str.contains_char "<" a = false ->
  b <> "" ->
  Str.contains_char ">" b = false ->
  sub_tags false (a ++ "<" ++ b ++ ">" ++ c) = (a ++ sub_tags false c)%string
  /\ sub_tags false (a ++ "<>" ++ c) = (a ++ "<>" ++ sub_tags false c)%string
  /\ sub_tags false (a ++ "<" ++ b) = (a ++ "<" ++ b)%string.
Proof.
  intros Ha Hb Hclose. split; [|split].
  - rewrite (sub_tags_before _ _ Ha). f_equal.
    change ("<" ++ b ++ ">" ++ c)%string with (String "<" (b ++ String ">" c)).
    cbn [sub_tags].
    assert (Hopen : tag_opens (b ++ String ">" c) = true).
    { destruct b as [|x b]; [congruence|]. simpl in *.
      apply orb_false_iff in Hclose as [Hx Hb']. rewrite Hx. simpl.
      rewrite contains_char_app. simpl. apply orb_true_r. }
    rewrite Hopen. simpl. now apply sub_tags_inside.
  - rewrite (sub_tags_before _ _ Ha). reflexivity.
  - rewrite (sub_tags_before _ _ Ha). f_equal.
    change ("<" ++ b)%string with (String "<" b). cbn [sub_tags].
    assert (Hopen : tag_opens b = false).
    { destruct b as [|x b]; [reflexivity|]. simpl in *.
      apply orb_false_iff in Hclose as [Hx Hb']. now rewrite Hb', andb_false_r. }
    rewrite Hopen. simpl. f_equal. now apply sub_tags_no_close.
Qed.

(** A comparison in running text is taken for a tag. *)
Lemma sub_tags_removes_enclosed_witness :
  sub_tags false ("p " ++ "<" ++ " 0.05 and n " ++ ">" ++ " 30") = ("p " ++ " 30")%string.
Proof.
  apply (sub_tags_removes_enclosed "p " " 0.05 and n " " 30");
    solve [reflexivity | discriminate].
Defined.

(* ------------------------------------------------------------------ *)
(** ** Decoding the index of a text *)
(* ------------------------------------------------------------------ *)

Lemma strictly_sorted_unique l1 :
  forall l2,
    StronglySorted Z.lt l1 -> StronglySorted Z.lt l2 ->
    (forall x, In x l1 <-> In x l2) ->
    l1 = l2.
Proof.
  induction l1 as [|a l1 IH]; intros [|b l2] H1 H2 Hin.
  - reflexivity.
  - exfalso. apply (Hin b). now left.
  - exfalso. apply (Hin a). now left.
  - apply StronglySorted_inv in H1 as [H1 Ha], H2 as [H2 Hb].
    rewrite Forall_forall in Ha, Hb.
    assert (Hab : a = b).
    { destruct (proj1 (Hin a) (or_introl eq_refl)) as [Hba|Hal2]; [congruence|].
      destruct (proj2 (Hin b) (or_introl eq_refl)) as [Hab|Hbl1]; [congruence|].
      specialize (Ha _ Hbl1). specialize (Hb _ Hal2). lia. }
    subst b. f_equal. apply IH; try assumption.
    intros x. split; intros Hx.
    + destruct (proj1 (Hin x) (or_intror Hx)) as [Hax|Hx2]; [|assumption].
      specialize (Ha _ Hx). lia.
    + destruct (proj2 (Hin x) (or_intror Hx)) as [Hax|Hx1]; [|assumption].
      specialize (Hb _ Hx). lia.
Qed.

Lemma seq_strictly_sorted n :
  forall s, StronglySorted Z.lt (map Z.of_nat (seq s n)).
Proof.
  induction n as [|n IH]; intros s; simpl; constructor; [apply IH|].
  apply Forall_forall. intros x Hx.
  apply in_map_iff in Hx as (i & <- & Hi). apply in_seq in Hi. lia.
Qed.

Lemma map_seq_nth (f : nat -> string) (words : list string) :
  (forall i, i < List.length words -> f i = nth i words "") ->
  map f (seq 0 (List.length words)) = words.
Proof.
  intros Hf. apply (nth_ext _ _ "" "").
  - now rewrite length_map, length_seq.
  - intros i Hi. rewrite length_map, length_seq in Hi.
    rewrite (nth_indep _ "" (f 0)) by (now rewrite length_map, length_seq).
    rewrite map_nth, seq_nth by assumption. now apply Hf.
Qed.

(** The words that [positions] holds for an index that encodes a
    text. *)
Lemma positions_of_text index :
  encodes_text index ->
  forall p w,
    Dict.get Z.eqb p (fill_positions index Dict.empty) = Some w <-> index_pair index p w.
Proof.
  intros Htext p w. split.
  - intros H. apply fill_positions_sound in H as [H|H]; [discriminate|assumption].
  - intros H.
    destruct (fill_positions_complete index Dict.empty p w H) as [w' Hw'].
    rewrite Hw'. f_equal. apply (Htext p); [|assumption].
    apply fill_positions_sound in Hw' as [Hw'|Hw']; [discriminate|assumption].
Qed.

(** X8.  Decoding inverts indexing: an index whose (position, word)
    pairs are exactly the words of a text at their positions 0, 1, 2,
    ..., whatever the order of its entries and of the positions within
    an entry, decodes to the words joined by single spaces. *)
Theorem decode_inverts_indexing (words : list string)
    (index : list (string * list Z)) :
  (forall p w,
      index_pair index p w <->
      (0 <= p)%Z /\ nth_error words (Z.to_nat p) = Some w) ->
  decode_openalex_abstract (Some index) = Str.join " " words.
Proof.
  intros Hidx.
  assert (Htext : encodes_text index).
  { intros p w w' H H'. apply Hidx in H as [_ H], H' as [_ H']. congruence. }
  rewrite decode_openalex_abstract_unfold. cbv zeta.
  set (positions := fill_positions index Dict.empty).
  assert (Hkeys : sorted (Dict.keys positions)
                  = map Z.of_nat (seq 0 (List.length words))).
  { apply strictly_sorted_unique.
    - apply sorted_strict, fill_positions_NoDup. constructor.
    - apply seq_strictly_sorted.
    - intros p. rewrite sorted_In, positions_keys_get, in_map_iff. split.
      + intros [w Hw]. apply (positions_of_text index Htext), Hidx in Hw as [Hp Hw].
        exists (Z.to_nat p). split; [lia|]. apply in_seq.
        assert (Z.to_nat p < List.length words)
          by (apply nth_error_Some; congruence).
        lia.
      + intros (i & <- & Hi). apply in_seq in Hi.
        destruct (nth_error words i) as [w|] eqn:Hw.
        * exists w. apply (positions_of_text index Htext), Hidx.
          split; [lia|]. now rewrite Nat2Z.id.
        * apply nth_error_None in Hw. lia. }
  rewrite Hkeys, map_map. f_equal.
  apply map_seq_nth. intros i Hi.
  destruct (nth_error words i) as [w|] eqn:Hw.
  - assert (Hget : Dict.get Z.eqb (Z.of_nat i) positions = Some w).
    { apply (positions_of_text index Htext), Hidx.
      split; [lia|]. now rewrite Nat2Z.id. }
    rewrite Hget. symmetry. now apply nth_error_nth.
  - apply nth_error_None in Hw. lia.
Qed.

(** The index of "to be or not to be", entries and positions out of
    order. *)
Lemma decode_inverts_indexing_witness :
  decode_openalex_abstract
    (Some [("be", [5; 1]%Z); ("not", [3%Z]); ("to", [0; 4]%Z); ("or", [2%Z])])
  = Str.join " " ["to"; "be"; "or"; "not"; "to"; "be"].
Proof.
  apply decode_inverts_indexing. intros p w. split.
  - intros (idxs & Hin & Hp). simpl in Hin.
    repeat (destruct Hin as [Hin|Hin]; [injection Hin as <- <-|]); try contradiction;
      simpl in Hp;
      repeat (destruct Hp as [<-|Hp]; [split; [lia | reflexivity]|]); contradiction.
  - intros [Hp Hw].
    destruct (Z.to_nat p) as [|[|[|[|[|[|n]]]]]] eqn:Hn; simpl in Hw;
      try (destruct n; discriminate Hw); injection Hw as <-.
    + exists [0; 4]%Z. simpl. split; [tauto|]. left. lia.
    + exists [5; 1]%Z. simpl. split; [tauto|]. right. left. lia.
    + exists [2]%Z. simpl. split; [tauto|]. left. lia.
    + exists [3]%Z. simpl. split; [tauto|]. left. lia.
    + exists [0; 4]%Z. simpl. split; [tauto|]. right. left. lia.
    + exists [5; 1]%Z. simpl. split; [tauto|]. left. lia.
Defined.

(* ------------------------------------------------------------------ *)
(** ** Date assembly for Crossref *)
(* ------------------------------------------------------------------ *)

Lemma format_d_year z :
  (0 <= z < 10000)%Z -> has_shape "DDDD" (format_d 4 z) = true.
Proof.
  intros Hz.
  assert (Hall : forallb (fun n => has_shape "DDDD" (format_d 4 (Z.of_nat n)))
                         (seq 0 (Z.to_nat 10000)) = true) by (vm_compute; reflexivity).
  rewrite forallb_forall in Hall.
  rewrite <- (Z2Nat.id z) by lia. apply Hall, in_seq. lia.
Qed.

Lemma format_d_two_digits z :
  (0 <= z < 100)%Z -> has_shape "DD" (format_d 2 z) = true.
Proof.
  intros Hz.
  assert (Hall : forallb (fun n => has_shape "DD" (format_d 2 (Z.of_nat n)))
                         (seq 0 100) = true) by (vm_compute; reflexivity).
  rewrite forallb_forall in Hall.
  rewrite <- (Z2Nat.id z) by lia. apply Hall, in_seq. lia.
Qed.

Lemma decimal_nonempty n : decimal n <> "".
Proof.
  unfold decimal. destruct (Nat.to_uint n); simpl; discriminate.
Qed.

Lemma append_nonempty_r a b : b <> "" -> (a ++ b)%string <> "".
Proof. destruct a; simpl; [tauto | discriminate]. Qed.

Lemma append_nonempty_l a b : a <> "" -> (a ++ b)%string <> "".
Proof. destruct a; simpl; [tauto | discriminate]. Qed.

Lemma format_d_nonempty width z : format_d width z <> "".
Proof.
  unfold format_d. destruct (z <? 0)%Z; [discriminate|].
  apply append_nonempty_r, decimal_nonempty.
Qed.

Lemma nth_guarded (n : nat) (parts : list (option Z)) :
  (if n <? List.length parts then nth n parts None else None) = nth n parts None.
Proof.
  destruct (n <? List.length parts) eqn:Hn; [reflexivity|].
  apply Nat.ltb_ge in Hn. symmetry. now apply nth_overflow.
Qed.

Lemma below_truthy bound o :
  below bound o = true -> int_truthy o = true -> (0 <= int_or_zero o < bound)%Z.
Proof.
  destruct o as [z|]; simpl; [|discriminate].
  intros H _. apply andb_true_iff in H as [H1 H2].
  apply Z.leb_le in H1. apply Z.ltb_lt in H2. lia.
Qed.

(** The loop goes on exactly when the entry has no year; a date that is
    returned is not empty. *)
Lemma date_of_parts_year parts :
  (int_truthy (nth 0 parts None) = false -> date_of_parts parts = None)
  /\ (int_truthy (nth 0 parts None) = true ->
      exists date, date_of_parts parts = Some date /\ date <> "").
Proof.
  unfold date_of_parts. rewrite !nth_guarded. split; intros Hy; rewrite Hy; simpl.
  - reflexivity.
  - destruct (int_truthy (nth 1 parts None)); simpl;
      [destruct (int_truthy (nth 2 parts None))|];
      eexists; (split; [reflexivity|]);
      apply append_nonempty_l || idtac; apply format_d_nonempty.
Qed.

Lemma date_of_parts_shape parts date :
  below 10000 (nth 0 parts None) = true ->
  below 100 (nth 1 parts None) = true ->
  below 100 (nth 2 parts None) = true ->
  date_of_parts parts = Some date ->
  four_granularity date = true.
Proof.
  intros Hy Hm Hd. unfold date_of_parts. rewrite !nth_guarded.
  destruct (int_truthy (nth 0 parts None)) eqn:Hty; simpl; [|discriminate].
  pose proof (format_d_year _ (below_truthy _ _ Hy Hty)) as Hys.
  destruct (int_truthy (nth 1 parts None)) eqn:Htm; simpl.
  - pose proof (format_d_two_digits _ (below_truthy _ _ Hm Htm)) as Hms.
    destruct (int_truthy (nth 2 parts None)) eqn:Htd; intros H; injection H as <-.
    + pose proof (format_d_two_digits _ (below_truthy _ _ Hd Htd)) as Hds.
      now apply four_granularity_day.
    + now apply four_granularity_month.
  - intros H. injection H as <-. unfold four_granularity.
    now rewrite Hys, !orb_true_r.
Qed.

Lemma first_date_shape infos :
  Forall (fun info => calendar_parts info = true) infos ->
  four_granularity (first_date infos) = true.
Proof.
  induction 1 as [|info infos Hinfo _ IH]; [reflexivity|].
  cbn [first_date].
  destruct info as [[|[|y parts] more]|]; try exact IH.
  destruct (date_of_parts (y :: parts)) as [date|] eqn:Hdate; [|exact IH].
  unfold calendar_parts in Hinfo.
  apply andb_true_iff in Hinfo as [Hinfo Hd].
  apply andb_true_iff in Hinfo as [Hy Hm].
  exact (date_of_parts_shape _ _ Hy Hm Hd Hdate).
Qed.

(** A key without year is passed over. *)
Lemma first_date_skip info rest :
  has_year info = false -> first_date (info :: rest) = first_date rest.
Proof.
  intros Hno. cbn [first_date].
  destruct info as [[|[|y parts] more]|]; try reflexivity.
  now rewrite (proj1 (date_of_parts_year (y :: parts)) Hno).
Qed.

(** A key with a year decides. *)
Lemma first_date_take info rest :
  has_year info = true ->
  first_date (info :: rest) = first_date [info] /\ first_date [info] <> "".
Proof.
  intros Hyes. cbn [first_date].
  destruct info as [[|[|y parts] more]|]; try discriminate.
  destruct (proj2 (date_of_parts_year (y :: parts)) Hyes) as (date & -> & Hne).
  now split.
Qed.

Lemma first_date_empty_iff infos :
  first_date infos = "" <-> Forall (fun info => has_year info = false) infos.
Proof.
  induction infos as [|info infos IH]; [split; [constructor | reflexivity]|].
  destruct (has_year info) eqn:Hy.
  - destruct (first_date_take info infos Hy) as [-> Hne]. split.
    + intros H. now apply Hne in H.
    + intros H. inversion H; congruence.
  - rewrite (first_date_skip _ _ Hy), IH. split.
    + intros H. now constructor.
    + intros H. now inversion H.
Qed.

(** X9.  On calendar dates (years below 10000, months and days below
    100, any of them possibly null) the date that
    [extract_crossref_date] returns is one of [YYYY-MM-DD], [YYYY-MM],
    [YYYY] or empty, zero-padded. *)
Theorem extract_crossref_date_shape (item : CrossrefDates) :
  calendar_parts (published_print item) = true ->
  calendar_parts (published_online item) = true ->
  calendar_parts (issued item) = true ->
  calendar_parts (created item) = true ->
  four_granularity (extract_crossref_date item) = true.
Proof.
  intros H1 H2 H3 H4. apply first_date_shape. repeat constructor; assumption.
Qed.

Lemma extract_crossref_date_shape_witness :
  four_granularity
    (extract_crossref_date
       (mkCrossrefDates (Some [[None]]) None
                        (Some [[Some 2024; Some 3]; [Some 2025]]%Z)
                        (Some [[Some 2024; Some 3; Some 5]]%Z)))
  = true.
Proof.
  apply extract_crossref_date_shape; reflexivity.
Defined.

(** X10.  The date comes from the first of the keys published-print,
    published-online, issued, created whose first date-parts entry has
    a year (not null, not 0); the keys after it are not read, and the
    date is empty exactly when none of the four has a year. *)
Theorem extract_crossref_date_priority (item : CrossrefDates) :
  (extract_crossref_date item = "" <->
   has_year (published_print item) = false
   /\ has_year (published_online item) = false
   /\ has_year (issued item) = false
   /\ has_year (created item) = false)
  /\ (has_year (published_print item) = true ->
      extract_crossref_date item = first_date [published_print item])
  /\ (has_year (published_print item) = false ->
      has_year (published_online item) = true ->
      extract_crossref_date item = first_date [published_online item])
  /\ (has_year (published_print item) = false ->
      has_year (published_online item) = false ->
      has_year (issued item) = true ->
      extract_crossref_date item = first_date [issued item])
  /\ (has_year (published_print item) = false ->
      has_year (published_online item) = false ->
      has_year (issued item) = false ->
      extract_crossref_date item = first_date [created item]).
Proof.
  unfold extract_crossref_date. split; [|split; [|split; [|split]]].
  - rewrite first_date_empty_iff. split.
    + intros H.
      inversion H as [|? ? H1 Ha]; subst. inversion Ha as [|? ? H2 Hb]; subst.
      inversion Hb as [|? ? H3 Hc]; subst. inversion Hc as [|? ? H4 _]; subst.
      tauto.
    + intros (H1 & H2 & H3 & H4). repeat constructor; assumption.
  - intros H1. now apply first_date_take.
  - intros H1 H2. rewrite (first_date_skip _ _ H1). now apply first_date_take.
  - intros H1 H2 H3. rewrite (first_date_skip _ _ H1), (first_date_skip _ _ H2).
    now apply first_date_take.
  - intros H1 H2 H3.
    now rewrite (first_date_skip _ _ H1), (first_date_skip _ _ H2),
      (first_date_skip _ _ H3).
Qed.

Lemma extract_crossref_date_priority_witness :
  extract_crossref_date
    (mkCrossrefDates (Some [[None]]) None
                     (Some [[Some 2024; Some 3]]%Z)
                     (Some [[Some 2023; Some 1; Some 5]]%Z))
  = first_date [Some [[Some 2024; Some 3]]%Z].
Proof.
  apply (extract_crossref_date_priority
           (mkCrossrefDates (Some [[None]]) None
                            (Some [[Some 2024; Some 3]]%Z)
                            (Some [[Some 2023; Some 1; Some 5]]%Z)));
    reflexivity.
Defined.

(* ------------------------------------------------------------------ *)
(** ** The Markdown summary *)
(* ------------------------------------------------------------------ *)

Lemma escape_pipes_cons c r :
  escape_pipes (String c r) =
  if Ascii.eqb c "|" then ("\|" ++ escape_pipes r)%string
  else String c (escape_pipes r).
Proof.
  unfold escape_pipes, Str.replace.
  cbn [Str.replace_from Str.startswith String.length Nat.sub].
  rewrite andb_true_r, (Ascii.eqb_sym "|" c). reflexivity.
Qed.

Lemma append_empty_r a : (a ++ "")%string = a.
Proof. induction a as [|c a IH]; simpl; congruence. Qed.

(** Escaped text does not start with a pipe. *)
Lemma escape_pipes_head r rest :
  Str.startswith "|" (escape_pipes r ++ rest) = Str.startswith "|" rest
  \/ Str.startswith "|" (escape_pipes r ++ rest) = false.
Proof.
  destruct r as [|c r]; [now left|]. right.
  rewrite escape_pipes_cons. destruct (Ascii.eqb c "|") eqn:Hc; [reflexivity|].
  cbn [append Str.startswith]. now rewrite (Ascii.eqb_sym "|" c), Hc.
Qed.

Lemma escape_pipes_no_pipe text :
  Str.contains_char "|" text = false -> escape_pipes text = text.
Proof.
  induction text as [|c r IH]; [reflexivity|]. simpl. intros H.
  apply orb_false_iff in H as [Hc Hr].
  now rewrite escape_pipes_cons, Hc, (IH Hr).
Qed.

Lemma bare_pipes_escape text :
  forall prev rest,
    bare_pipes prev (escape_pipes text ++ String " " rest) = bare_pipes " " rest.
Proof.
  induction text as [|c r IH]; intros prev rest.
  - simpl. reflexivity.
  - rewrite escape_pipes_cons. destruct (Ascii.eqb c "|") eqn:Hc.
    + cbn [append bare_pipes Ascii.eqb Bool.eqb andb negb]. simpl. apply IH.
    + cbn [append bare_pipes]. rewrite Hc. simpl. apply IH.
Qed.

Lemma bare_pipes_plain text :
  Str.contains_char "|" text = false ->
  forall prev rest,
    bare_pipes prev (text ++ String " " rest) = bare_pipes " " rest.
Proof.
  induction text as [|c r IH]; intros H prev rest.
  - reflexivity.
  - simpl in H. apply orb_false_iff in H as [Hc Hr].
    cbn [append bare_pipes]. rewrite Hc. simpl. now apply IH.
Qed.

(** X11.  Escaping for the table: in the escaped text every pipe
    follows a backslash, text without pipe is unchanged, and replacing
    backslash-pipe by pipe gives the text back. *)
Theorem escape_pipes_reversible (text : string) :
  (forall prev, bare_pipes prev (escape_pipes text ++ " ") = 0)
  /\ Str.replace "\|" "|" (escape_pipes text) = text
  /\ (Str.contains_char "|" text = false -> escape_pipes text = text).
Proof.
  split; [|split].
  - intros prev. now rewrite bare_pipes_escape.
  - induction text as [|c r IH]; [reflexivity|].
    rewrite escape_pipes_cons. destruct (Ascii.eqb c "|") eqn:Hc.
    + apply Ascii.eqb_eq in Hc. subst c.
      unfold Str.replace in *. simpl. now rewrite IH.
    + unfold Str.replace in *. cbn [Str.replace_from].
      assert (Hno : Str.startswith "\|" (String c (escape_pipes r)) = false).
      { change (Str.startswith "\|" (String c (escape_pipes r)))
          with (Ascii.eqb "\" c && Str.startswith "|" (escape_pipes r)).
        destruct (Ascii.eqb "\" c); [|reflexivity]. cbn [andb].
        destruct (escape_pipes_head r "") as [H|H];
          rewrite append_empty_r in H; rewrite H; reflexivity. }
      rewrite Hno. now rewrite IH.
  - apply escape_pipes_no_pipe.
Qed.

Lemma escape_pipes_reversible_witness :
  escape_pipes "Heart valves: a review" = "Heart valves: a review".
Proof.
  apply (proj2 (proj2 (escape_pipes_reversible "Heart valves: a review"))).
  reflexivity.
Defined.

Lemma replace_absent old new s :
  occurs old s = false -> Str.replace old new s = s.
Proof.
  unfold Str.replace. induction s as [|c r IH]; [reflexivity|].
  cbn [occurs Str.replace_from]. intros H.
  apply orb_false_iff in H as [Hhere Hr]. now rewrite Hhere, (IH Hr).
Qed.

Lemma openalex_doi_of_link d :
  occurs "https://doi.org/" d = false ->
  Str.strip d = d ->
  openalex_doi (Some ("https://doi.org/" ++ d)%string) = d.
Proof.
  intros Hocc Hstrip. unfold openalex_doi.
  change (Str.or_empty (Some ("https://doi.org/" ++ d)%string))
    with ("https://doi.org/" ++ d)%string.
  replace (Str.replace "https://doi.org/" "" ("https://doi.org/" ++ d))
    with (Str.replace "https://doi.org/" "" d).
  - now rewrite (replace_absent _ _ _ Hocc).
  - unfold Str.replace. simpl. now destruct d.
Qed.

(** X12.  The DOI column never shows a bare DOI: the link is empty or
    starts with [http], and making a link of a link changes nothing.
    For an OpenAlex item the link is the URL that the API delivered:
    the adapter takes [https://doi.org/] off a DOI [d] (trimmed, not
    itself starting with [http] nor containing that prefix) and the
    summary puts it back. *)
Theorem doi_display_link (d : string) :
  (doi_display d = "" \/ Str.startswith "http" (doi_display d) = true)
  /\ doi_display (doi_display d) = doi_display d
  /\ (d <> "" -> Str.strip d = d ->
      Str.startswith "http" d = false ->
      occurs "https://doi.org/" d = false ->
      openalex_doi (Some ("https://doi.org/" ++ d)%string) = d
      /\ doi_display (openalex_doi (Some ("https://doi.org/" ++ d)%string))
         = ("https://doi.org/" ++ d)%string).
Proof.
  split; [|split].
  - unfold doi_display. destruct d as [|c d]; [now left|]. right.
    cbn [Str.truthy andb].
    destruct (Str.startswith "http" (String c d)) eqn:Hh; [exact Hh | reflexivity].
  - unfold doi_display. destruct d as [|c d]; [reflexivity|].
    cbn [Str.truthy andb].
    destruct (Str.startswith "http" (String c d)) eqn:Hh; cbn [negb].
    + cbn [Str.truthy andb]. now rewrite Hh.
    + reflexivity.
  - intros Hne Hstrip Hhttp Hocc.
    rewrite (openalex_doi_of_link d Hocc Hstrip). split; [reflexivity|].
    unfold doi_display. destruct d as [|c d]; [congruence|].
    cbn [Str.truthy andb]. now rewrite Hhttp.
Qed.

Lemma doi_display_link_witness :
  openalex_doi (Some ("https://doi.org/" ++ "10.1016/j.jacc.2024.01.001")%string)
  = "10.1016/j.jacc.2024.01.001"
  /\ doi_display
       (openalex_doi (Some ("https://doi.org/" ++ "10.1016/j.jacc.2024.01.001")%string))
     = ("https://doi.org/" ++ "10.1016/j.jacc.2024.01.001")%string.
Proof.
  apply (proj2 (proj2 (doi_display_link "10.1016/j.jacc.2024.01.001")));
    solve [discriminate | reflexivity].
Defined.

Lemma doi_display_no_pipe d :
  Str.contains_char "|" d = false -> Str.contains_char "|" (doi_display d) = false.
Proof.
  intros H. unfold doi_display. destruct d as [|c d]; [reflexivity|].
  cbn [Str.truthy andb]. destruct (Str.startswith "http" (String c d)); cbn [negb].
  - exact H.
  - rewrite contains_char_app, H. reflexivity.
Qed.

(** X13.  A row of the table has exactly eight column separators
    (pipes that do not follow a backslash) when source, keyword,
    publication date and DOI hold no pipe, whatever pipes title,
    authors and journal hold. *)
Theorem markdown_row_separators (record : PaperRecord) :
  Str.contains_char "|" (source record) = false ->
  Str.contains_char "|" (keyword record) = false ->
  Str.contains_char "|" (publication_date record) = false ->
  Str.contains_char "|" (doi record) = false ->
  bare_pipes (ascii_of_nat 10) (markdown_row record) = 8.
Proof.
  intros Hs Hk Hp Hd. unfold markdown_row. cbn [append].
  cbn [bare_pipes]. cbn [Ascii.eqb Bool.eqb ascii_of_nat andb negb Nat.add].
  simpl Ascii.eqb. cbn [andb negb Nat.add].
  rewrite (bare_pipes_plain _ Hs). cbn [bare_pipes]. simpl Ascii.eqb. cbn [andb negb Nat.add].
  rewrite (bare_pipes_plain _ Hk). cbn [bare_pipes]. simpl Ascii.eqb. cbn [andb negb Nat.add].
  rewrite bare_pipes_escape. cbn [bare_pipes]. simpl Ascii.eqb. cbn [andb negb Nat.add].
  rewrite bare_pipes_escape. cbn [bare_pipes]. simpl Ascii.eqb. cbn [andb negb Nat.add].
  rewrite bare_pipes_escape. cbn [bare_pipes]. simpl Ascii.eqb. cbn [andb negb Nat.add].
  rewrite (bare_pipes_plain _ Hp). cbn [bare_pipes]. simpl Ascii.eqb. cbn [andb negb Nat.add].
  rewrite (bare_pipes_plain _ (doi_display_no_pipe _ Hd)).
  reflexivity.
Qed.

Lemma markdown_row_separators_witness :
  bare_pipes (ascii_of_nat 10)
    (markdown_row (mkPaperRecord "Crossref" "deep learning" "A | B" "X; Y|Z"
                                 "10.1/j" "2024-03" "Heart | Lung" ""))
  = 8.
Proof.
  apply markdown_row_separators; reflexivity.
Defined.

(* ------------------------------------------------------------------ *)
(** ** Loops that an exception leaves *)
(* ------------------------------------------------------------------ *)

Section Collect.
Context {A : Type} (body : A -> result PaperRecord).

Lemma collect_raises items x e :
  In x items -> body x = Raise e ->
  exists e', collect body items = Raise e'
             /\ exists y, In y items /\ body y = Raise e'.
Proof.
  induction items as [|a items IH]; [contradiction|].
  intros Hin Hx. cbn [collect].
  destruct (body a) as [r|e0] eqn:Ha.
  - destruct Hin as [->|Hin]; [congruence|].
    destruct (IH Hin Hx) as (e' & -> & y & Hy & Hey).
    exists e'. split; [reflexivity|]. exists y. split; [now right | assumption].
  - exists e0. split; [reflexivity|]. exists a. split; [now left | assumption].
Qed.

Lemma collect_returns items :
  (forall x, In x items -> exists r, body x = Ok r) ->
  exists records,
    collect body items = Ok records
    /\ Forall2 (fun x r => body x = Ok r) items records.
Proof.
  induction items as [|a items IH]; intros Hall.
  - exists []. split; [reflexivity | constructor].
  - destruct (Hall a (or_introl eq_refl)) as [r Hr].
    destruct IH as (records & Hrec & Hall2).
    { intros x Hx. apply Hall. now right. }
    exists (r :: records). cbn [collect]. rewrite Hr, Hrec.
    split; [reflexivity | now constructor].
Qed.

End Collect.

Lemma Forall2_length_eq {A B : Type} (R : A -> B -> Prop) l l' :
  Forall2 R l l' -> List.length l' = List.length l.
Proof. induction 1; simpl; congruence. Qed.

Lemma Forall2_Forall_r {A B : Type} (R : A -> B -> Prop) (P : B -> Prop) l l' :
  Forall2 R l l' -> (forall x y, R x y -> P y) -> Forall P l'.
Proof. induction 1; intros HP; constructor; eauto. Qed.

(* ------------------------------------------------------------------ *)
(** ** The PubMed adapter *)
(* ------------------------------------------------------------------ *)

Lemma py_int_raises s e : py_int s = Raise e -> e = "ValueError".
Proof.
  unfold py_int.
  match goal with
  | |- match ?value with Some _ => _ | None => _ end = _ -> _ => destruct value
  end; [discriminate|].
  intros H. now injection H.
Qed.

Lemma extract_pubmed_date_raises article e :
  extract_pubmed_date article = Raise e -> e = "ValueError".
Proof.
  unfold extract_pubmed_date.
  destruct (selected_pub_date article) as [p|]; [|discriminate].
  destruct (Str.truthy_opt (Year p) && Str.truthy_opt (month_token (Month p))
            && Str.truthy_opt (Day p)).
  - destruct (py_int (Str.or_empty (month_token (Month p)))) as [m|e1] eqn:Hm.
    + destruct (py_int (Str.or_empty (Day p))) as [d|e2] eqn:Hd; [discriminate|].
      intros H. injection H as <-. now apply py_int_raises in Hd.
    + intros H. injection H as <-. now apply py_int_raises in Hm.
  - destruct (Str.truthy_opt (Year p) && Str.truthy_opt (month_token (Month p))).
    + destruct (py_int (Str.or_empty (month_token (Month p)))) as [m|e1] eqn:Hm;
        [discriminate|].
      intros H. injection H as <-. now apply py_int_raises in Hm.
    + destruct (Str.truthy_opt (Year p)); discriminate.
Qed.

Lemma py_int_month_number n :
  (1 <= n <= 12)%Z -> py_int (format_02d n) = Ok n /\ Str.truthy (format_02d n) = true.
Proof.
  intros Hn.
  assert (Hcases : (n = 1 \/ n = 2 \/ n = 3 \/ n = 4 \/ n = 5 \/ n = 6 \/ n = 7
                   \/ n = 8 \/ n = 9 \/ n = 10 \/ n = 11 \/ n = 12)%Z) by lia.
  repeat (destruct Hcases as [->|Hcases]; [split; reflexivity|]).
  subst n. split; reflexivity.
Qed.

(** A day that is not a number, beside a year and a month name. *)
Lemma extract_pubmed_date_bad_day article year m n day e :
  selected_pub_date article = Some (mkPubDate (Some year) (Some m) (Some day)) ->
  Str.truthy year = true ->
  In (Str.lower (Str.take 3 m), n) month_abbr ->
  Str.truthy day = true ->
  py_int day = Raise e ->
  extract_pubmed_date article = Raise "ValueError".
Proof.
  intros Hsel Hy Hm Hd Hday.
  destruct (month_name_not_digit m n Hm) as [Htm Hdm].
  pose proof (strptime_b_abbr _ _ Hm) as Hn.
  destruct (py_int_month_number n (strptime_b_month _ _ Hn)) as [Hint Htr].
  unfold extract_pubmed_date. rewrite Hsel. cbn [Year Month Day].
  unfold month_token. rewrite Htm, Hdm, Hn.
  cbn [andb negb Str.truthy_opt Str.or_empty]. rewrite Hy, Htr, Hd.
  cbn [andb]. rewrite Hint, Hday. f_equal. now apply py_int_raises in Hday.
Qed.

(** X14.  The PubMed adapter, from the parsed document on: when the
    date of one article cannot be assembled, the call for the keyword
    raises [ValueError] and returns no record at all, and a day that is
    not a number (beside a year and a month name) is such a date;
    otherwise it returns one record per article, in order: the i-th
    record is built from the i-th article, with source [PubMed], the
    keyword, and the trimmed title, the authors, the DOI, the assembled
    date, the trimmed journal and the abstract of that article; title,
    journal and DOI of every record are trimmed. *)
Theorem pubmed_batch (keyword0 : string) (articles : list PubmedArticle) :
  (forall article e,
      In article articles ->
      extract_pubmed_date (Dates article) = Raise e ->
      pubmed_records keyword0 articles = Raise "ValueError")
  /\ (forall article year m n day e,
         In article articles ->
         selected_pub_date (Dates article)
         = Some (mkPubDate (Some year) (Some m) (Some day)) ->
         Str.truthy year = true ->
         In (Str.lower (Str.take 3 m), n) month_abbr ->
         Str.truthy day = true ->
         py_int day = Raise e ->
         pubmed_records keyword0 articles = Raise "ValueError")
  /\ ((forall article,
          In article articles ->
          exists date, extract_pubmed_date (Dates article) = Ok date) ->
      exists records,
        pubmed_records keyword0 articles = Ok records
        /\ List.length records = List.length articles
        /\ Forall (fun r => source r = "PubMed" /\ keyword r = keyword0
                            /\ Str.strip (title r) = title r
                            /\ Str.strip (journal r) = journal r
                            /\ Str.strip (doi r) = doi r) records
        /\ Forall2 (fun article r =>
                      source r = "PubMed" /\ keyword r = keyword0
                      /\ title r = match ArticleTitle article with
                                   | Some text => Str.strip text
                                   | None => ""
                                   end
                      /\ authors r = pubmed_authors (Authors article)
                      /\ doi r = pubmed_doi (ArticleId_doi article)
                      /\ extract_pubmed_date (Dates article) = Ok (publication_date r)
                      /\ journal r = Str.strip (match Journal_Title article with
                                                | Some text => text
                                                | None => ""
                                                end)
                      /\ abstract r = pubmed_abstract (AbstractTexts article))
                   articles records).
Proof.
  assert (Hraise : forall article e,
             In article articles ->
             extract_pubmed_date (Dates article) = Raise e ->
             pubmed_records keyword0 articles = Raise "ValueError").
  { intros article e Hin He.
    assert (Hbody : pubmed_record keyword0 article = Raise e)
      by (unfold pubmed_record; now rewrite He).
    destruct (collect_raises _ _ _ _ Hin Hbody) as (e' & Hcol & y & _ & Hy).
    unfold pubmed_records. rewrite Hcol. f_equal.
    unfold pubmed_record in Hy.
    destruct (extract_pubmed_date (Dates y)) as [d|e0] eqn:Hd; [discriminate|].
    injection Hy as <-. now apply extract_pubmed_date_raises in Hd. }
  split; [exact Hraise | split].
  - intros article year m n day e Hin Hsel Hy Hm Hd Hday.
    apply (Hraise article "ValueError" Hin).
    now apply (extract_pubmed_date_bad_day _ year m n day e).
  - intros Hall.
    destruct (collect_returns (pubmed_record keyword0) articles) as (records & Hrec & Hall2).
    { intros article Hin. destruct (Hall article Hin) as [date Hdate].
      unfold pubmed_record. rewrite Hdate. now eexists. }
    exists records. split; [exact Hrec | split; [|split]].
    + exact (Forall2_length_eq _ _ _ Hall2).
    + apply (Forall2_Forall_r _ _ _ _ Hall2).
      intros article r Hr. unfold pubmed_record in Hr.
      destruct (extract_pubmed_date (Dates article)); [|discriminate].
      injection Hr as <-. cbn [source keyword title journal doi].
      repeat split.
      * destruct (ArticleTitle article); [apply strip_idempotent | reflexivity].
      * apply strip_idempotent.
      * unfold pubmed_doi. destruct (ArticleId_doi article) as [text|]; [|reflexivity].
        destruct (Str.truthy_opt text); [apply strip_idempotent | reflexivity].
    + clear Hrec Hall Hraise.
      induction Hall2 as [|article r rest records Hr _ IH]; constructor; [|exact IH].
      unfold pubmed_record in Hr.
      destruct (extract_pubmed_date (Dates article)) as [date|]; [|discriminate].
      injection Hr as <-.
      cbn [source keyword title authors doi publication_date journal abstract].
      repeat split; reflexivity.
Qed.

(** Twenty articles would be lost the same way: here the second of two
    has the day [1st]. *)
Lemma pubmed_batch_witness :
  pubmed_records "aortic stenosis"
    [example_article (Some "2024") (Some "Mar") (Some "5");
     example_article (Some "2024") (Some "March") (Some "1st")]
  = Raise "ValueError".
Proof.
  apply (proj1 (proj2 (pubmed_batch "aortic stenosis"
           [example_article (Some "2024") (Some "Mar") (Some "5");
            example_article (Some "2024") (Some "March") (Some "1st")]))
           (example_article (Some "2024") (Some "March") (Some "1st"))
           "2024" "March" 3%Z "1st" "ValueError");
    try reflexivity; simpl; tauto.
Defined.

(* ------------------------------------------------------------------ *)
(** ** The OpenAlex adapter *)
(* ------------------------------------------------------------------ *)

Lemma openalex_record_null keyword0 item :
  null_on_the_way item = true ->
  openalex_record keyword0 item = Raise "AttributeError".
Proof.
  unfold null_on_the_way, openalex_record, openalex_item_doi, openalex_journal.
  destruct (oa_ids item) as [| |ids]; try reflexivity;
    destruct (oa_primary_location item) as [| |[| |[| |text]]];
    try reflexivity; discriminate.
Qed.

Lemma openalex_record_returns keyword0 item :
  null_on_the_way item = false ->
  exists r, openalex_record keyword0 item = Ok r
            /\ source r = "OpenAlex" /\ keyword r = keyword0
            /\ Str.strip (title r) = title r
            /\ Str.strip (journal r) = journal r
            /\ Str.strip (doi r) = doi r.
Proof.
  unfold null_on_the_way, openalex_record, openalex_item_doi, openalex_journal,
    openalex_doi.
  destruct (oa_ids item) as [| |ids]; try discriminate;
    destruct (oa_primary_location item) as [| |[| |[| |text]]];
    try discriminate; intros _; eexists; (split; [reflexivity|]);
    cbn [source keyword title journal doi];
    repeat split; solve [reflexivity | apply strip_idempotent].
Qed.

Lemma openalex_record_raises keyword0 item e :
  openalex_record keyword0 item = Raise e ->
  e = "AttributeError" /\ null_on_the_way item = true.
Proof.
  destruct (null_on_the_way item) eqn:Hn.
  - rewrite (openalex_record_null _ _ Hn). intros H. injection H as <-. now split.
  - destruct (openalex_record_returns keyword0 item Hn) as (r & -> & _). discriminate.
Qed.

(** X15.  The OpenAlex adapter, from the decoded items on: an item in
    which [ids], [primary_location], its [source] or the source's
    [display_name] is present and null makes the call for the keyword
    raise [AttributeError], so that no item of the keyword gives a
    record; without such an item the call returns one record per item,
    in order: the i-th record is built from the i-th item, with source
    [OpenAlex], the keyword, and the trimmed title, the joined display
    names, the DOI without its resolver prefix, the publication date,
    the trimmed venue name and the decoded abstract of that item;
    title, journal and DOI of every record are trimmed. *)
Theorem openalex_batch (keyword0 : string) (items : list OpenAlexItem) :
  (existsb null_on_the_way items = true ->
   openalex_records keyword0 items = Raise "AttributeError")
  /\ (existsb null_on_the_way items = false ->
      exists records,
        openalex_records keyword0 items = Ok records
        /\ List.length records = List.length items
        /\ Forall (fun r => source r = "OpenAlex" /\ keyword r = keyword0
                            /\ Str.strip (title r) = title r
                            /\ Str.strip (journal r) = journal r
                            /\ Str.strip (doi r) = doi r) records
        /\ Forall2 (fun item r =>
                      source r = "OpenAlex" /\ keyword r = keyword0
                      /\ title r = Str.strip (Str.or_empty (oa_title item))
                      /\ authors r
                         = Str.join "; "
                             (fold_left openalex_author_step
                                (match oa_authorships item with
                                 | Some l => l
                                 | None => []
                                 end) [])
                      /\ openalex_item_doi (oa_ids item) = Ok (doi r)
                      /\ publication_date r = Str.or_empty (oa_publication_date item)
                      /\ openalex_journal (oa_primary_location item) = Ok (journal r)
                      /\ abstract r
                         = decode_openalex_abstract (oa_abstract_inverted_index item))
                   items records).
Proof.
  split.
  - intros Hnull. apply existsb_exists in Hnull as (item & Hin & Hnull).
    destruct (collect_raises _ _ _ _ Hin (openalex_record_null keyword0 item Hnull))
      as (e' & Hcol & y & _ & Hy).
    unfold openalex_records. rewrite Hcol. f_equal.
    now apply openalex_record_raises in Hy.
  - intros Hnone.
    assert (Hall : forall item, In item items -> null_on_the_way item = false).
    { intros item Hin. destruct (null_on_the_way item) eqn:Hn; [|reflexivity].
      assert (existsb null_on_the_way items = true)
        by (apply existsb_exists; now exists item).
      congruence. }
    destruct (collect_returns (openalex_record keyword0) items) as (records & Hrec & Hall2).
    { intros item Hin.
      destruct (openalex_record_returns keyword0 item (Hall item Hin)) as (r & Hr & _).
      now exists r. }
    exists records. split; [exact Hrec | split; [|split]].
    + exact (Forall2_length_eq _ _ _ Hall2).
    + apply (Forall2_Forall_r _ _ _ _ Hall2). simpl.
      intros item r Hr.
      assert (Hn : null_on_the_way item = false).
      { destruct (null_on_the_way item) eqn:Hn; [|reflexivity].
        rewrite (openalex_record_null _ _ Hn) in Hr. discriminate. }
      destruct (openalex_record_returns keyword0 item Hn) as (r' & Hr' & Hprops).
      assert (r' = r) by congruence. now subst r'.
    + clear Hrec Hall Hnone.
      induction Hall2 as [|item r rest records Hr _ IH]; constructor; [|exact IH].
      unfold openalex_record in Hr.
      destruct (openalex_item_doi (oa_ids item)) as [d|]; [|discriminate].
      destruct (openalex_journal (oa_primary_location item)) as [j|]; [|discriminate].
      injection Hr as <-.
      cbn [source keyword title authors doi publication_date journal abstract].
      repeat split; reflexivity.
Qed.

(** An item without venue, as the API lists it ([source] null), after
    a complete one. *)
Lemma openalex_batch_witness :
  openalex_records "deep learning"
    [mkOpenAlexItem (Some "A") None (Value (Some "https://doi.org/10.1/a")) (Some "2024-01-02")
                    (Value (Value (Value "Heart"))) None;
     mkOpenAlexItem (Some "B") None (Value None) None (Value Null) None]
  = Raise "AttributeError".
Proof.
  apply (proj1 (openalex_batch "deep learning" _)). reflexivity.
Defined.

(* ------------------------------------------------------------------ *)
(** ** The Crossref adapter *)
(* ------------------------------------------------------------------ *)

Lemma crossref_authors_names l :
  forall acc,
    Forall (fun n => Str.truthy n = true) acc ->
    Forall (fun n => Str.truthy n = true) (fold_left crossref_author_step l acc)
    /\ List.length (fold_left crossref_author_step l acc)
       <= List.length acc + List.length l.
Proof.
  induction l as [|a l IH]; intros acc Hacc; simpl; [split; [assumption | lia]|].
  assert (Hstep : Forall (fun n => Str.truthy n = true) (crossref_author_step acc a)
                  /\ List.length (crossref_author_step acc a) <= S (List.length acc)).
  { unfold crossref_author_step.
    match goal with
    | |- context [if Str.truthy ?n then _ else _] => destruct (Str.truthy n) eqn:Hn
    end.
    - split.
      + apply Forall_app. split; [assumption|]. now repeat constructor.
      + rewrite length_app. simpl. lia.
    - split; [assumption | lia]. }
  destruct Hstep as [Hall Hlen]. destruct (IH _ Hall) as [IH1 IH2].
  split; [assumption | lia].
Qed.

Lemma date_of_json_parts_raises parts e :
  date_of_json_parts parts = Some (Raise e) -> e = "TypeError" \/ e = "ValueError".
Proof.
  unfold date_of_json_parts.
  set (year := nth 0 parts PartNull).
  set (month := if 1 <? List.length parts then nth 1 parts PartNull else PartNull).
  set (day := if 2 <? List.length parts then nth 2 parts PartNull else PartNull).
  destruct year as [y| |[]|[]], month as [m| |[]|[]], day as [d| |[]|[]]; cbn;
    repeat match goal with
           | |- context [negb (?z =? 0)%Z] => destruct (negb (z =? 0)%Z); cbn
           end;
    intros H; try discriminate H; injection H as <-; tauto.
Qed.

Lemma first_json_date_raises infos e :
  first_json_date infos = Raise e -> e = "TypeError" \/ e = "ValueError".
Proof.
  induction infos as [|info infos IH]; [discriminate|].
  cbn [first_json_date].
  destruct info as [[|[|p parts] more]|]; try exact IH.
  destruct (date_of_json_parts (p :: parts)) as [[d|e0]|] eqn:Hd; try exact IH.
  - discriminate.
  - intros H. injection H as <-. now apply date_of_json_parts_raises in Hd.
Qed.

Lemma nth_integer_part n parts :
  forallb integer_part parts = true -> integer_part (nth n parts PartNull) = true.
Proof.
  intros Hall. destruct (Nat.lt_ge_cases n (List.length parts)) as [Hn|Hn].
  - rewrite forallb_forall in Hall. apply Hall. now apply nth_In.
  - now rewrite nth_overflow.
Qed.

Lemma date_of_json_parts_integer parts :
  forallb integer_part parts = true ->
  date_of_json_parts parts = None \/ exists d, date_of_json_parts parts = Some (Ok d).
Proof.
  intros Hall. unfold date_of_json_parts.
  assert (Hm : integer_part (if 1 <? List.length parts then nth 1 parts PartNull
                             else PartNull) = true)
    by (destruct (1 <? List.length parts); [now apply nth_integer_part | reflexivity]).
  assert (Hd : integer_part (if 2 <? List.length parts then nth 2 parts PartNull
                             else PartNull) = true)
    by (destruct (2 <? List.length parts); [now apply nth_integer_part | reflexivity]).
  pose proof (nth_integer_part 0 parts Hall) as Hy.
  destruct (nth 0 parts PartNull) as [y| |[]|[]];
    destruct (if 1 <? List.length parts then nth 1 parts PartNull else PartNull)
      as [m| |[]|[]];
    destruct (if 2 <? List.length parts then nth 2 parts PartNull else PartNull)
      as [d| |[]|[]];
    try discriminate; cbn;
    repeat match goal with
           | |- context [negb (?z =? 0)%Z] => destruct (negb (z =? 0)%Z); cbn
           end;
    solve [now left | right; now eexists].
Qed.

Lemma first_json_date_integer infos :
  Forall (fun info => integer_dates info = true) infos ->
  exists d, first_json_date infos = Ok d.
Proof.
  induction 1 as [|info infos Hinfo _ IH]; [now exists ""|].
  cbn [first_json_date].
  destruct info as [[|[|p parts] more]|]; try exact IH.
  destruct (date_of_json_parts_integer (p :: parts) Hinfo) as [->|[d ->]];
    [exact IH | now exists d].
Qed.

Lemma part_of_truthy o : part_truthy (part_of o) = int_truthy o.
Proof. now destruct o. Qed.

Lemma nth_part_of n parts :
  nth n (map part_of parts) PartNull = part_of (nth n parts None).
Proof. exact (map_nth part_of parts None n). Qed.

Lemma format_part_of width o :
  int_truthy o = true -> format_part width (part_of o) = Ok (format_d width (int_or_zero o)).
Proof. destruct o; [reflexivity | discriminate]. Qed.

(** On integers and nulls the two date assemblies agree. *)
Lemma date_of_json_parts_of parts :
  date_of_json_parts (map part_of parts) = option_map Ok (date_of_parts parts).
Proof.
  unfold date_of_json_parts, date_of_parts.
  rewrite length_map, !nth_part_of.
  replace (if 1 <? List.length parts then part_of (nth 1 parts None) else PartNull)
    with (part_of (if 1 <? List.length parts then nth 1 parts None else None))
    by (now destruct (1 <? List.length parts)).
  replace (if 2 <? List.length parts then part_of (nth 2 parts None) else PartNull)
    with (part_of (if 2 <? List.length parts then nth 2 parts None else None))
    by (now destruct (2 <? List.length parts)).
  rewrite !part_of_truthy.
  destruct (int_truthy (nth 0 parts None)) eqn:Hy; cbn [andb]; [|reflexivity].
  rewrite (format_part_of 4 _ Hy).
  destruct (int_truthy (if 1 <? List.length parts then nth 1 parts None else None))
    eqn:Hm; cbn [andb]; [|reflexivity].
  rewrite (format_part_of 2 _ Hm).
  destruct (int_truthy (if 2 <? List.length parts then nth 2 parts None else None))
    eqn:Hd; [|reflexivity].
  now rewrite (format_part_of 2 _ Hd).
Qed.

Lemma first_json_date_of (infos : list date_info) :
  first_json_date (map (option_map (map (map part_of))) infos) = Ok (first_date infos).
Proof.
  induction infos as [|info infos IH]; [reflexivity|].
  cbn [map first_json_date first_date].
  destruct info as [[|[|p parts] more]|]; cbn [option_map map]; try exact IH.
  change (part_of p :: map part_of parts) with (map part_of (p :: parts)).
  rewrite date_of_json_parts_of.
  destruct (date_of_parts (p :: parts)); [reflexivity | exact IH].
Qed.

Lemma joined_trimmed texts t : joined texts = Ok t -> Str.strip t = t.
Proof.
  destruct texts; simpl; intros H; try discriminate;
    injection H as <-; try reflexivity; apply strip_idempotent.
Qed.

Lemma crossref_record_returns keyword0 item :
  well_typed_item item = true ->
  exists r,
    crossref_record keyword0 item = Ok r
    /\ source r = "Crossref" /\ keyword r = keyword0
    /\ joined (cr_title item) = Ok (title r)
    /\ authors r = crossref_authors item
    /\ doi r = crossref_doi (cr_DOI item)
    /\ crossref_item_date item = Ok (publication_date r)
    /\ joined (cr_container_title item) = Ok (journal r)
    /\ abstract r = crossref_abstract (cr_abstract item).
Proof.
  unfold well_typed_item. intros Hwt.
  assert (Hdates : exists d, crossref_item_date item = Ok d).
  { apply first_json_date_integer.
    destruct (cr_title item), (cr_container_title item); try discriminate;
      apply andb_true_iff in Hwt as [Hwt H4]; apply andb_true_iff in Hwt as [Hwt H3];
      apply andb_true_iff in Hwt as [H1 H2]; repeat constructor; assumption. }
  destruct Hdates as [d Hd]. unfold crossref_record. rewrite Hd.
  destruct (cr_title item), (cr_container_title item); try discriminate;
    cbn [joined]; eexists; (split; [reflexivity|]);
    cbn [source keyword title authors doi publication_date journal abstract];
    repeat split; reflexivity.
Qed.

Lemma crossref_record_raises keyword0 item e :
  crossref_record keyword0 item = Raise e -> e = "TypeError" \/ e = "ValueError".
Proof.
  unfold crossref_record.
  destruct (joined (cr_title item)) as [t|e1] eqn:Ht.
  - destruct (crossref_item_date item) as [d|e2] eqn:Hd.
    + destruct (joined (cr_container_title item)) as [j|e3] eqn:Hj; [discriminate|].
      intros H. injection H as <-. left.
      destruct (cr_container_title item); simpl in Hj; congruence.
    + intros H. injection H as <-. now apply first_json_date_raises in Hd.
  - intros H. injection H as <-. left.
    destruct (cr_title item); simpl in Ht; congruence.
Qed.

(** X16.  The Crossref adapter, from the decoded items on.  When in
    some item [title] or [container-title] is present and null, or the
    date assembly formats a date part that is not an integer, the call
    for the keyword raises ([TypeError] or [ValueError]) and returns no
    record; a year under [published-print] that is a non-empty string
    or a non-zero float is such a part and raises [ValueError].  When in every item
    these lists are lists and the date parts integers or null, the call
    returns one record per item, in order: the record of an item has
    source [Crossref], the keyword, the joined and trimmed title and
    journal, the joined author names, the lowercased DOI, the assembled
    date and the cleaned abstract of that item; title, journal, DOI and
    abstract are trimmed, the abstract holds no tag and no newline and
    no author name is empty.  On integers and nulls the date is the one
    of [extract_crossref_date]. *)
Theorem crossref_batch (keyword0 : string) (items : list CrossrefItem) :
  (forall item,
      In item items ->
      cr_title item = Null \/ cr_container_title item = Null
      \/ (exists e, crossref_item_date item = Raise e) ->
      exists e, crossref_records keyword0 items = Raise e
                /\ (e = "TypeError" \/ e = "ValueError"))
  /\ (forall item text rest more,
         cr_published_print item = Some ((PartOther true :: rest) :: more) ->
         crossref_item_date item = Raise "ValueError"
         /\ (cr_title item = Value text ->
             crossref_record keyword0 item = Raise "ValueError"))
  /\ ((forall item, In item items -> well_typed_item item = true) ->
      exists records,
        crossref_records keyword0 items = Ok records
        /\ Forall2 (fun item r =>
                      source r = "Crossref" /\ keyword r = keyword0
                      /\ joined (cr_title item) = Ok (title r)
                      /\ authors r = crossref_authors item
                      /\ doi r = crossref_doi (cr_DOI item)
                      /\ crossref_item_date item = Ok (publication_date r)
                      /\ joined (cr_container_title item) = Ok (journal r)
                      /\ abstract r = crossref_abstract (cr_abstract item))
                   items records
        /\ Forall (fun r => Str.strip (title r) = title r
                            /\ Str.strip (journal r) = journal r
                            /\ Str.strip (doi r) = doi r
                            /\ Str.lower (doi r) = doi r
                            /\ Str.strip (abstract r) = abstract r
                            /\ has_tag (abstract r) = false
                            /\ no_newline (abstract r)
                            /\ exists names,
                                 authors r = Str.join "; " names
                                 /\ Forall (fun n => n <> "") names)
                  records)
  /\ (forall item dates,
         cr_published_print item = option_map (map (map part_of)) (published_print dates) ->
         cr_published_online item = option_map (map (map part_of)) (published_online dates) ->
         cr_issued item = option_map (map (map part_of)) (issued dates) ->
         cr_created item = option_map (map (map part_of)) (created dates) ->
         crossref_item_date item = Ok (extract_crossref_date dates)).
Proof.
  split; [|split; [|split]].
  - intros item Hin Hbad.
    assert (Hbody : exists e, crossref_record keyword0 item = Raise e).
    { unfold crossref_record.
      destruct (joined (cr_title item)) as [t|e1] eqn:Ht; [|now exists e1].
      destruct (crossref_item_date item) as [d|e2] eqn:Hd; [|now exists e2].
      destruct (joined (cr_container_title item)) as [j|e3] eqn:Hj; [|now exists e3].
      exfalso. destruct Hbad as [H|[H|[e H]]].
      - rewrite H in Ht. discriminate.
      - rewrite H in Hj. discriminate.
      - discriminate. }
    destruct Hbody as [e He].
    destruct (collect_raises _ _ _ _ Hin He) as (e' & Hcol & y & _ & Hy).
    exists e'. split; [exact Hcol|]. now apply crossref_record_raises in Hy.
  - intros item text rest more Hpp.
    assert (Hdate : crossref_item_date item = Raise "ValueError").
    { unfold crossref_item_date. rewrite Hpp. cbn [first_json_date].
      unfold date_of_json_parts. cbn [nth part_truthy format_part andb].
      destruct (part_truthy _ && part_truthy _); [reflexivity|].
      now destruct (part_truthy _). }
    split; [exact Hdate|].
    intros Ht. unfold crossref_record. rewrite Ht. cbn [joined]. now rewrite Hdate.
  - intros Hall.
    destruct (collect_returns (crossref_record keyword0) items) as (records & Hrec & Hall2).
    { intros item Hin.
      destruct (crossref_record_returns keyword0 item (Hall item Hin)) as (r & Hr & _).
      now exists r. }
    assert (Hfields : Forall2
              (fun item r =>
                 source r = "Crossref" /\ keyword r = keyword0
                 /\ joined (cr_title item) = Ok (title r)
                 /\ authors r = crossref_authors item
                 /\ doi r = crossref_doi (cr_DOI item)
                 /\ crossref_item_date item = Ok (publication_date r)
                 /\ joined (cr_container_title item) = Ok (journal r)
                 /\ abstract r = crossref_abstract (cr_abstract item))
              items records).
    { clear Hrec. induction Hall2 as [|item r items records Hr _ IH]; constructor.
      - destruct (crossref_record_returns keyword0 item (Hall item (or_introl eq_refl)))
          as (r' & Hr' & Hprops).
        assert (r' = r) by congruence. now subst r'.
      - apply IH. intros x Hx. apply Hall. now right. }
    exists records. split; [exact Hrec | split; [exact Hfields|]].
    apply (Forall2_Forall_r _ _ _ _ Hfields).
    intros item r (_ & _ & Ht & Ha & Hd & _ & Hj & Hab).
    repeat split.
    + exact (joined_trimmed _ _ Ht).
    + exact (joined_trimmed _ _ Hj).
    + rewrite Hd. apply strip_idempotent.
    + rewrite Hd. apply crossref_doi_lowercase.
    + rewrite Hab. apply clean_html_trimmed.
    + rewrite Hab. apply clean_html_no_tag.
    + rewrite Hab. apply clean_html_no_newline.
    + eexists. split; [exact Ha|].
      destruct (crossref_authors_names
                  (match cr_author item with Some l => l | None => [] end) [])
        as [Hnames _]; [constructor|].
      eapply Forall_impl; [|exact Hnames].
      intros n Hn ->. discriminate.
  - intros item dates H1 H2 H3 H4. unfold crossref_item_date, extract_crossref_date.
    rewrite H1, H2, H3, H4.
    exact (first_json_date_of
             [published_print dates; published_online dates; issued dates; created dates]).
Qed.

(** An item whose title is null, after a complete one. *)
Lemma crossref_batch_witness :
  exists e,
    crossref_records "k"
      [mkCrossrefItem (Value ["A title"])
         (Some [mkCrossrefAuthor (Some "Ada") (Some "Lovelace") None])
         (Some " 10.1/X ") None None (Some [[PartInt 2024; PartInt 3]]) None
         (Value ["Heart"]) None;
       mkCrossrefItem Null None None None None None None Missing None]
    = Raise e
    /\ (e = "TypeError" \/ e = "ValueError").
Proof.
  apply (proj1 (crossref_batch "k" _)
           (mkCrossrefItem Null None None None None None None Missing None)).
  - simpl. tauto.
  - now left.
Defined.

(* ------------------------------------------------------------------ *)
(** ** The run as a whole *)
(* ------------------------------------------------------------------ *)

Lemma unique_records_unfold F sources keywords :
  unique_records F sources keywords
  = first_seen (combined_records F sources keywords).
Proof.
  unfold unique_records. rewrite source_loop. simpl.
  apply deduplicate_records_first_seen.
Qed.

Lemma combined_records_pair F sources keywords source0 keyword0 fetcher records r :
  In source0 sources -> In keyword0 keywords ->
  Dict.get String.eqb (Str.lower source0) (fetchers F) = Some fetcher ->
  fetcher keyword0 = Ok records ->
  In r records ->
  In r (combined_records F sources keywords).
Proof.
  intros Hs Hk Hf Hok Hr. unfold combined_records.
  apply in_flat_map. exists source0. split; [assumption|].
  rewrite Hf. apply in_flat_map. exists keyword0. split; [assumption|].
  unfold pair_records. now rewrite Hok.
Qed.

(** X17.  What [main] hands to the writers: records that adapters
    returned, with pairwise distinct identity keys, and for every
    record that a call of a supported source returned, a record with
    its identity key. *)
Theorem unique_records_cover (F : Fetchers) (sources keywords : list string) :
  NoDup (map identity_key (unique_records F sources keywords))
  /\ (forall r,
         In r (unique_records F sources keywords) ->
         In r (combined_records F sources keywords))
  /\ (forall source0 keyword0 fetcher records r,
         In source0 sources -> In keyword0 keywords ->
         Dict.get String.eqb (Str.lower source0) (fetchers F) = Some fetcher ->
         fetcher keyword0 = Ok records ->
         In r records ->
         exists r',
           In r' (unique_records F sources keywords)
           /\ identity_key r' = identity_key r).
Proof.
  rewrite unique_records_unfold. split; [|split].
  - apply first_seen_after_NoDup.
  - intros r. apply first_seen_after_incl.
  - intros source0 keyword0 fetcher records r Hs Hk Hf Hok Hr.
    pose proof (combined_records_pair F _ _ _ _ _ _ _ Hs Hk Hf Hok Hr) as Hin.
    destruct (first_seen_covers _ _ Hin) as (_ & r' & _ & _ & Hkey & _ & Hin').
    now exists r'.
Qed.

Lemma unique_records_cover_witness :
  exists r',
    In r' (unique_records example_fetchers ["PubMed"; "crossref"] ["aortic stenosis"])
    /\ identity_key r'
       = identity_key (mkPaperRecord "Crossref" "aortic stenosis" "T" "" "" "" "" "").
Proof.
  apply (proj2 (proj2 (unique_records_cover example_fetchers
                         ["PubMed"; "crossref"] ["aortic stenosis"]))
           "crossref" "aortic stenosis" (fetch_crossref example_fetchers)
           [mkPaperRecord "Crossref" "aortic stenosis" "T" "" "" "" "" ""]);
    simpl; try reflexivity; tauto.
Defined.

(** X18.  Source names are matched without regard to letter case: a
    run with the names lowercased returns the same records; and a name
    is supported exactly when its lowercase form is [pubmed],
    [crossref] or [openalex]. *)
Theorem sources_ignore_case (F : Fetchers) (sources keywords : list string) :
  unique_records F (map Str.lower sources) keywords = unique_records F sources keywords
  /\ (forall source0,
         Dict.get String.eqb (Str.lower source0) (fetchers F) = None <->
         ~ In (Str.lower source0) ["pubmed"; "crossref"; "openalex"]).
Proof.
  split.
  - rewrite !unique_records_unfold. f_equal. unfold combined_records.
    induction sources as [|s sources IH]; [reflexivity|].
    cbn [map flat_map]. now rewrite lower_idempotent, IH.
  - intros source0. unfold fetchers. cbn [Dict.get].
    destruct (String.eqb (Str.lower source0) "pubmed") eqn:H1.
    { apply String.eqb_eq in H1. rewrite H1. split; [discriminate|].
      intros H. exfalso. apply H. now left. }
    destruct (String.eqb (Str.lower source0) "crossref") eqn:H2.
    { apply String.eqb_eq in H2. rewrite H2. split; [discriminate|].
      intros H. exfalso. apply H. right. now left. }
    destruct (String.eqb (Str.lower source0) "openalex") eqn:H3.
    { apply String.eqb_eq in H3. rewrite H3. split; [discriminate|].
      intros H. exfalso. apply H. right. right. now left. }
    apply String.eqb_neq in H1, H2, H3. split; [|reflexivity].
    intros _ [H|[H|[H|[]]]]; congruence.
Qed.

(* ------------------------------------------------------------------ *)
(** ** Month names and month numbers *)
(* ------------------------------------------------------------------ *)

Lemma short_number_isdigit s : short_number s = true -> Str.isdigit s = true.
Proof.
  intros H. apply short_number_cases in H as [(c & Hc & ->)|(c1 & c2 & H1 & H2 & ->)].
  - unfold decimal_chars in Hc. simpl in Hc.
    repeat (destruct Hc as [<-|Hc]; [reflexivity|]). contradiction.
  - unfold decimal_chars in H1, H2. simpl in H1.
    repeat (destruct H1 as [<-|H1];
            [simpl in H2; repeat (destruct H2 as [<-|H2]; [reflexivity|]); contradiction|]).
    contradiction.
Qed.

(** X19.  A month written as a name and the same month written as a
    number of one or two digits give the same date: with the same year
    and day, [March], [mar] and [3] or [03] are assembled alike. *)
Theorem month_name_or_number (a1 a2 : ArticleDates) (year day : option string)
    (m s : string) (n : Z) :
  selected_pub_date a1 = Some (mkPubDate year (Some m) day) ->
  selected_pub_date a2 = Some (mkPubDate year (Some s) day) ->
  In (Str.lower (Str.take 3 m), n) month_abbr ->
  short_number s = true ->
  py_int s = Ok n ->
  extract_pubmed_date a1 = extract_pubmed_date a2.
Proof.
  intros H1 H2 Hm Hs Hint.
  destruct (month_name_not_digit m n Hm) as [Htm Hdm].
  pose proof (strptime_b_abbr _ _ Hm) as Hn.
  destruct (py_int_month_number n (strptime_b_month _ _ Hn)) as [Hfmt Htr].
  unfold extract_pubmed_date. rewrite H1, H2. cbn [Year Month Day].
  unfold month_token.
  rewrite Htm, Hdm, Hn, (short_number_isdigit _ Hs), andb_false_r.
  cbn [andb negb Str.truthy_opt Str.or_empty].
  rewrite Htr, (short_number_truthy _ Hs), Hfmt, Hint. reflexivity.
Qed.

Lemma month_name_or_number_witness :
  extract_pubmed_date
    (mkArticleDates (Some (mkPubDate (Some "2024") (Some "March") (Some "5"))) None)
  = extract_pubmed_date
      (mkArticleDates None (Some (mkPubDate (Some "2024") (Some "3") (Some "5")))).
Proof.
  apply (month_name_or_number _ _ (Some "2024") (Some "5") "March" "3" 3%Z);
    try reflexivity.
  simpl. tauto.
Defined.

(* ------------------------------------------------------------------ *)
(** ** One DOI, three adapters *)
(* ------------------------------------------------------------------ *)

Lemma isspace_lower_char c : Str.isspace (Str.lower_char c) = Str.isspace c.
Proof. destruct c as [[] [] [] [] [] [] [] []]; reflexivity. Qed.

Lemma lower_lstrip s : Str.lower (Str.lstrip s) = Str.lstrip (Str.lower s).
Proof.
  unfold Str.lower. induction s as [|c s IH]; [reflexivity|].
  cbn [Str.lstrip Str.map]. rewrite isspace_lower_char.
  destruct (Str.isspace c); [exact IH | reflexivity].
Qed.

Lemma lower_rstrip s : Str.lower (Str.rstrip s) = Str.rstrip (Str.lower s).
Proof.
  unfold Str.lower. induction s as [|c s IH]; [reflexivity|].
  cbn [Str.rstrip Str.map]. rewrite <- IH, isspace_lower_char.
  destruct (Str.rstrip s) as [|c' r']; cbn [Str.map].
  - now destruct (Str.isspace c).
  - reflexivity.
Qed.

Lemma lower_strip s : Str.lower (Str.strip s) = Str.strip (Str.lower s).
Proof. unfold Str.strip. now rewrite lower_rstrip, lower_lstrip. Qed.

Lemma lower_nonempty s : s <> "" -> Str.lower s <> "".
Proof. destruct s; [tauto | discriminate]. Qed.

(** X20.  One article, three records, one survivor: when PubMed
    delivers a DOI [text], Crossref the same text and OpenAlex the URL
    [https://doi.org/] followed by the trimmed text, in whatever letter
    case and with whatever whitespace around the text, the three
    records have the same identity key and deduplication keeps the
    first only. *)
Theorem one_doi_three_adapters (text : string) (rp rc ro : PaperRecord) :
  Str.strip text <> "" ->
  occurs "https://doi.org/" (Str.strip text) = false ->
  doi rp = pubmed_doi (Some (Some text)) ->
  doi rc = crossref_doi (Some text) ->
  doi ro = openalex_doi (Some ("https://doi.org/" ++ Str.strip text)%string) ->
  identity_key rp = Str.lower (Str.strip text)
  /\ identity_key rc = identity_key rp
  /\ identity_key ro = identity_key rp
  /\ deduplicate_records [rp; rc; ro] = [rp].
Proof.
  intros Hne Hocc Hp Hc Ho.
  assert (Htext : Str.truthy text = true).
  { destruct text; [now elim Hne | reflexivity]. }
  assert (Hdp : doi rp = Str.strip text).
  { rewrite Hp. unfold pubmed_doi. cbn [Str.truthy_opt Str.or_empty]. now rewrite Htext. }
  assert (Hdc : doi rc = Str.lower (Str.strip text)).
  { rewrite Hc. unfold crossref_doi. cbn [Str.or_empty]. rewrite Htext.
    symmetry. apply lower_strip. }
  assert (Hdo : doi ro = Str.strip text).
  { rewrite Ho. apply openalex_doi_of_link; [assumption | apply strip_idempotent]. }
  assert (Hkp : identity_key rp = Str.lower (Str.strip text)).
  { rewrite identity_key_doi; rewrite Hdp; [reflexivity | assumption]. }
  assert (Hkc : identity_key rc = Str.lower (Str.strip text)).
  { rewrite identity_key_doi; rewrite Hdc;
      [apply lower_idempotent | now apply lower_nonempty]. }
  assert (Hko : identity_key ro = Str.lower (Str.strip text)).
  { rewrite identity_key_doi; rewrite Hdo; [reflexivity | assumption]. }
  repeat split; try congruence.
  rewrite deduplicate_records_first_seen. unfold first_seen. simpl.
  rewrite Hkp, Hkc, Hko, !String.eqb_refl. reflexivity.
Qed.

(** The scenario of the three sources with the DOI [10.1/X]. *)
Lemma one_doi_three_adapters_witness :
  deduplicate_records
    [mkPaperRecord "PubMed" "k" "A" "" "10.1/X" "2024" "" "";
     mkPaperRecord "Crossref" "k" "a" "" "10.1/x" "2024-01" "" "";
     mkPaperRecord "OpenAlex" "k" "A." "" "10.1/X" "2024-01-02" "" ""]
  = [mkPaperRecord "PubMed" "k" "A" "" "10.1/X" "2024" "" ""].
Proof.
  apply (one_doi_three_adapters " 10.1/X "); solve [discriminate | reflexivity].
Defined.

(* ------------------------------------------------------------------ *)
(** ** The abstract of a PubMed article *)
(* ------------------------------------------------------------------ *)

Lemma join_nonempty sep a rest : a <> "" -> Str.join sep (a :: rest) <> "".
Proof.
  intros Ha. destruct rest as [|b rest]; [exact Ha|].
  change (Str.join sep (a :: b :: rest))
    with (a ++ sep ++ Str.join sep (b :: rest))%string.
  now apply append_nonempty_l.
Qed.

(** X21.  The abstract of a PubMed article is empty exactly when all
    its segments are blank (empty after trimming); blank segments leave
    no trace, neither text nor newline. *)
Theorem pubmed_abstract_blank (segments : list string) :
  (pubmed_abstract segments = "" <-> Forall (fun s => Str.strip s = "") segments)
  /\ (forall before blank after,
         segments = before ++ blank :: after ->
         Str.strip blank = "" ->
         pubmed_abstract segments = pubmed_abstract (before ++ after)).
Proof.
  split.
  - unfold pubmed_abstract. induction segments as [|s segments IH]; simpl.
    + split; [constructor | reflexivity].
    + destruct (Str.truthy (Str.strip s)) eqn:Hs.
      * split.
        -- intros H. exfalso. revert H. apply join_nonempty.
           intros H0. now rewrite H0 in Hs.
        -- intros H. inversion H as [|? ? H0 _]; subst. now rewrite H0 in Hs.
      * apply truthy_false_iff in Hs. rewrite IH. split.
        -- intros H. now constructor.
        -- intros H. now inversion H.
  - intros before blank after -> Hblank. unfold pubmed_abstract.
    rewrite !map_app, !filter_app. simpl. now rewrite Hblank.
Qed.

Lemma pubmed_abstract_blank_witness :
  pubmed_abstract (["Background."] ++ "   " :: ["Methods."])
  = pubmed_abstract (["Background."] ++ ["Methods."]).
Proof.
  apply (proj2 (pubmed_abstract_blank (["Background."] ++ "   " :: ["Methods."]))
           ["Background."] "   " ["Methods."]); reflexivity.
Defined.

(* ------------------------------------------------------------------ *)
(** ** Decoding any index *)
(* ------------------------------------------------------------------ *)

(** X22.  Whatever the index, the decoder writes one word for each
    position that occurs in it, in strictly ascending order of the
    positions, and each word is one that the index lists at its
    position: nothing is invented and no position is written twice,
    also when several words claim a position. *)
Theorem decode_one_word_per_position (index : list (string * list Z)) :
  exists pairs : list (Z * string),
    (forall p w, In (p, w) pairs -> index_pair index p w)
    /\ (forall p w, index_pair index p w -> exists w', In (p, w') pairs)
    /\ StronglySorted Z.lt (map fst pairs)
    /\ decode_openalex_abstract (Some index) = Str.join " " (map snd pairs).
Proof.
  rewrite decode_openalex_abstract_unfold. cbv zeta.
  set (positions := fill_positions index Dict.empty).
  set (word_at := fun i => match Dict.get Z.eqb i positions with
                           | Some word => word
                           | None => ""
                           end).
  exists (map (fun i => (i, word_at i)) (sorted (Dict.keys positions))).
  split; [|split; [|split]].
  - intros p w Hin. apply in_map_iff in Hin as (i & Heq & Hin).
    injection Heq as -> <-.
    apply sorted_In, positions_keys_get in Hin as [w Hw].
    unfold word_at. rewrite Hw.
    apply fill_positions_sound in Hw as [Hw|Hw]; [discriminate | assumption].
  - intros p w Hpair.
    destruct (fill_positions_complete index Dict.empty p w Hpair) as [w' Hw'].
    exists (word_at p). apply in_map_iff. exists p. split; [reflexivity|].
    apply sorted_In, positions_keys_get. now exists w'.
  - rewrite map_map. simpl. rewrite map_id.
    apply sorted_strict, fill_positions_NoDup. constructor.
  - now rewrite map_map.
Qed.

(* ------------------------------------------------------------------ *)
(** ** The date element that is read *)
(* ------------------------------------------------------------------ *)

(** The [ArticleDate] is read only when the issue has no
    [PubDate] element at all: a [PubDate] without a year (one that
    holds a [MedlineDate] only, say) gives the empty date, whatever its
    month and day and whatever the [ArticleDate] holds, and nothing is
    raised. *)
Theorem pubdate_without_year (pub_date : PubDate) (article_date : option PubDate) :
  Str.truthy_opt (Year pub_date) = false ->
  extract_pubmed_date (mkArticleDates (Some pub_date) article_date) = Ok "".
Proof.
  intros Hy. unfold extract_pubmed_date, selected_pub_date.
  cbn [JournalIssue_PubDate]. now rewrite Hy.
Qed.

Lemma pubdate_without_year_witness :
  extract_pubmed_date
    (mkArticleDates (Some (mkPubDate None (Some "Nov") (Some "x")))
                    (Some (mkPubDate (Some "2023") (Some "11") (Some "20"))))
  = Ok "".
Proof.
  apply pubdate_without_year. reflexivity.
Defined.
